(** * Job-execution supervisor of the hosting bot ([src/app.py])

    A shallow embedding of the supervisor core of [app.py]: the admission
    controller, the archive extractor, the entry-point resolver, the two
    dependency installers, the process supervisor ([start_file_process],
    [stop_file_process], the per-run monitor, [get_file_logs]) and the
    callback dispatcher that exposes them.

    Conventions of the embedding.
    - The module-level globals of [app.py] that the functions mutate (the
      [processes] dict, the [files] and [runs] tables, the files on disk, the
      operating-system process table, the chat transport) are the fields of
      one record [world]; every function of the source that touches them is a
      function [world -> world] (or [world -> world * result]).
    - Whatever the host decides (a metric sample, the outcome of a [pip]
      run, whether a module can be imported, whether [Popen] succeeds, what an
      archive library does) is a field of the record [host], next to the
      configured thresholds.
    - A call is given a failing outcome where the source has a handler
      around it ([try ... except]). [bot.send_message] is given one throughout
      [start_file_process] (field [send_error]): one of its sends stands in
      the [try] block of that function, before the monitor thread is started,
      and a raise of any other ends the start; an exception that escapes a
      start reaches the handler of [callback_handler]. The sends of the other
      functions, the [sqlite] statements and [importlib.import_module] raising
      something else than [ImportError] are taken to succeed.
    - Text is held in its UTF-8 bytes; the white space of [str.strip()] is
      that of Unicode.
    - The order in which a Python [set] yields its elements is the host's
      (field [set_before]).
    - Percentages are Python floats; every finite float is a rational and
      [>=] on finite floats is the order of the rationals, so they are [Q]. *)

From Stdlib Require Import ZArith QArith Ascii String List Lia Bool.
From stdpp Require Import base option list sorting gmap strings pretty.

Set Warnings "-register-all".
Local Open Scope Z_scope.

(** ** Strings as [app.py] uses them *)

Module Str.

Definition to_list (s : string) : list ascii := list_ascii_of_string s.
Definition of_list (l : list ascii) : string := string_of_list_ascii l.

(** [str.lower] on the ASCII range. *)
Definition lower_char (c : ascii) : ascii :=
  let n := nat_of_ascii c in
  if (65 <=? n)%nat && (n <=? 90)%nat then ascii_of_nat (n + 32) else c.

Fixpoint lower (s : string) : string :=
  match s with
  | EmptyString => EmptyString
  | String c s' => String (lower_char c) (lower s')
  end.

(** [s.startswith(p)] *)
Fixpoint startswith (s p : string) : bool :=
  match p, s with
  | EmptyString, _ => true
  | String _ _, EmptyString => false
  | String a p', String b s' => if ascii_dec a b then startswith s' p' else false
  end.

Fixpoint rev_acc (s acc : string) : string :=
  match s with
  | EmptyString => acc
  | String c s' => rev_acc s' (String c acc)
  end.

Definition rev (s : string) : string := rev_acc s EmptyString.

(** [s.endswith(p)] *)
Definition endswith (s p : string) : bool := startswith (rev s) (rev p).

(** [c.isspace()] for a character of the ASCII range: tab, line feed,
    vertical tab, form feed, carriage return, the four separators
    0x1c..0x1f and the space. *)
Definition isspace (c : ascii) : bool :=
  let n := nat_of_ascii c in
  ((9 <=? n)%nat && (n <=? 13)%nat) || ((28 <=? n)%nat && (n <=? 32)%nat).

(** The white space of [str.strip()] beyond the ASCII range, in the UTF-8
    bytes the text is held in: U+0085 and U+00A0 (two bytes), U+1680,
    U+2000..U+200A, U+2028, U+2029, U+202F, U+205F and U+3000 (three). *)
Definition space2 (a b : ascii) : bool :=
  let x := nat_of_ascii a in
  let y := nat_of_ascii b in
  (x =? 194)%nat && ((y =? 133)%nat || (y =? 160)%nat).

Definition space3 (a b c : ascii) : bool :=
  let x := nat_of_ascii a in
  let y := nat_of_ascii b in
  let z := nat_of_ascii c in
  ((x =? 225)%nat && (y =? 154)%nat && (z =? 128)%nat)
  || ((x =? 226)%nat && (y =? 128)%nat
      && (((128 <=? z)%nat && (z <=? 138)%nat) || (z =? 168)%nat || (z =? 169)%nat
          || (z =? 175)%nat))
  || ((x =? 226)%nat && (y =? 129)%nat && (z =? 159)%nat)
  || ((x =? 227)%nat && (y =? 128)%nat && (z =? 128)%nat).

Fixpoint lstrip (s : string) : string :=
  match s with
  | EmptyString => EmptyString
  | String a s1 =>
      if isspace a then lstrip s1
      else
        match s1 with
        | String b s2 =>
            if space2 a b then lstrip s2
            else
              match s2 with
              | String c s3 => if space3 a b c then lstrip s3 else s
              | EmptyString => s
              end
        | EmptyString => s
        end
  end.

(** The same from the end of the text: [r] is the text reversed, so the
    bytes of a character come last byte first. *)
Fixpoint rstrip_rev (r : string) : string :=
  match r with
  | EmptyString => EmptyString
  | String a r1 =>
      if isspace a then rstrip_rev r1
      else
        match r1 with
        | String b r2 =>
            if space2 b a then rstrip_rev r2
            else
              match r2 with
              | String c r3 => if space3 c b a then rstrip_rev r3 else r
              | EmptyString => r
              end
        | EmptyString => r
        end
  end.

(** [s.strip()] *)
Definition strip (s : string) : string := rev (rstrip_rev (rev (lstrip s))).

(** A character of the ASCII range that is no white space. *)
Definition plain (c : ascii) : bool := negb (isspace c) && (nat_of_ascii c <? 128)%nat.

(** [s.split(sep)[0]]: what stands before the first [sep]. *)
Fixpoint split_head (sep : ascii) (s : string) : string :=
  match s with
  | EmptyString => EmptyString
  | String c s' => if ascii_dec c sep then EmptyString else String c (split_head sep s')
  end.

(** [s.split(sep)], with the current field accumulated in reverse. *)
Fixpoint split_acc (sep : ascii) (s cur : string) : list string :=
  match s with
  | EmptyString => [rev cur]
  | String c s' =>
      if ascii_dec c sep then rev cur :: split_acc sep s' EmptyString
      else split_acc sep s' (String c cur)
  end.

Definition split (sep : ascii) (s : string) : list string := split_acc sep s EmptyString.

(** [sep.join(l)] *)
Fixpoint join (sep : string) (l : list string) : string :=
  match l with
  | [] => EmptyString
  | [x] => x
  | x :: l' => x +:+ sep +:+ join sep l'
  end.

Definition is_empty (s : string) : bool :=
  match s with EmptyString => true | _ => false end.

End Str.

(** ** [os.path] on POSIX path strings *)

Module Path.

Definition slash : ascii := "/"%char.

(** [os.path.join(a, b)] *)
Definition join (a b : string) : string :=
  if Str.startswith b "/" then b
  else if Str.is_empty a || Str.endswith a "/" then a +:+ b
  else a +:+ "/" +:+ b.

(** The components of a path, empty ones dropped. *)
Definition components (p : string) : list string :=
  filter (fun c => c <> EmptyString) (Str.split slash p).

(** [head] and [tail] around the last slash, both still reversed. *)
Fixpoint cut_rev (r acc : string) : string * string :=
  match r with
  | EmptyString => (EmptyString, acc)
  | String c r' => if ascii_dec c slash then (r, acc) else cut_rev r' (String c acc)
  end.

Fixpoint drop_slashes (r : string) : string :=
  match r with
  | String c r' => if ascii_dec c slash then drop_slashes r' else r
  | EmptyString => EmptyString
  end.

(** [os.path.basename(p)] *)
Definition basename (p : string) : string := snd (cut_rev (Str.rev p) EmptyString).

(** [os.path.dirname(p)]: the head up to the last slash, trailing slashes
    removed unless the head is made of slashes only. *)
Definition dirname (p : string) : string :=
  let head := fst (cut_rev (Str.rev p) EmptyString) in
  match drop_slashes head with
  | EmptyString => Str.rev head
  | h => Str.rev h
  end.

(** The extension of a base name: from its last dot on, unless that dot
    is among the leading dots. *)
Fixpoint ext_rev (r acc : string) : option (string * string) :=
  match r with
  | EmptyString => None
  | String c r' =>
      if ascii_dec c "."%char then Some (r', String c acc) else ext_rev r' (String c acc)
  end.

Fixpoint all_dots (s : string) : bool :=
  match s with
  | EmptyString => true
  | String c s' => if ascii_dec c "."%char then all_dots s' else false
  end.

(** [os.path.splitext(p)[1]] *)
Definition splitext_ext (p : string) : string :=
  match ext_rev (Str.rev (basename p)) EmptyString with
  | Some (stem_rev, e) => if all_dots stem_rev then EmptyString else e
  | None => EmptyString
  end.

End Path.

(** ** Data model: the two tables, the job table, the disk, the host *)

(** Column [status] of table [files]. *)
Inductive status := Stopped | Running.

(** A row of table [files] (its key [id] is the key of the map). *)
Record file_record := FileRecord {
  user_id : Z;
  username : string;
  filename : string;
  orig_name : string;
  path : string;
  uploaded_at : string;
  file_type : string;
  pid : option Z;
  file_status : status
}.

(** A row of table [runs]. [started_at] and [finished_at] are the clock
    readings whose ISO text the source stores. *)
Record run_record := RunRecord {
  run_file_id : Z;
  run_started_at : Z;
  run_finished_at : option Z;
  run_pid : Z;
  run_log_path : string;
  run_exit_code : option Z
}.

(** A value of the [processes] dict; the [Popen] handle is the process id. *)
Record live_job := LiveJob {
  process : Z;
  run_id : Z;
  log_path : string;
  started_at : Z
}.

(** Python syntax, as far as [extract_imports] looks at it: [Import] carries
    the [alias.name] of each alias, [ImportFrom] its [module] and [level],
    [Compound] the statements nested in a compound statement (a [def],
    [class], [if], [for], [while], [with] or [try], all blocks together). *)
Inductive stmt :=
  | Import (names : list string)
  | ImportFrom (module : option string) (level : nat)
  | Compound (body : list stmt)
  | Simple.

(** A regular file: the text of the exception that [open] or reading it
    raises, if any; its lines as iterating the file yields them (each with
    its line end); and the tree [ast.parse] builds from the text ([None]: a
    syntax error). *)
Record file_data := FileData {
  read_error : option string;
  lines : list string;
  syntax : option (list stmt)
}.

(** A directory entry; a directory lists its entries in the order
    [os.scandir] reports them. *)
Inductive node :=
  | File (d : file_data)
  | Dir (entries : list (string * node)).

Inductive signal := SIGTERM | SIGKILL.

Inductive proc_state := Alive | Exited (code : Z).

(** An operating-system process started by [Popen]: [term_delay] is the
    number of seconds after which it exits once sent [SIGTERM] ([None]: it
    never does). *)
Record os_process := OsProcess {
  proc_cmd : list string;
  proc_cwd : string;
  proc_log : string;
  proc_state_of : proc_state;
  term_delay : option Z
}.

(** The closure of [monitor_process]: the variables of the enclosing
    [start_file_process] call it captures. *)
Record monitor := Monitor {
  mon_file_id : Z;
  mon_run_id : Z;
  mon_pid : Z;
  mon_chat_id : Z;
  mon_name : string
}.

(** Why [should_stop_due_to_load] says no; the payload is what the source
    formats into the reason text. *)
Inductive reject_reason :=
  | TooManyProcesses (process_count max : Z)
  | HighCPU (load : Q)
  | HighMemory (memory : Q).

(** The texts handed to the chat transport. *)
Inductive msg :=
  | MsgCannotStart (reason : option reject_reason)
  | MsgFileNotFound
  | MsgNoMainFile
  | MsgPathNotFound (p : string)
  | MsgInstallingRequirements
  | MsgRequirementsIssues (m : string)
  | MsgRequirementsInstalled (m : string)
  | MsgCheckingImports
  | MsgImportCheck (m : string)
  | MsgUnsupportedType (ext : string)
  | MsgStarted (name : string) (p : Z) (log_filename : string)
  | MsgFailedToStart (e : string)
  | MsgStoppedWithCode (name : string) (code : Z)
  | MsgProcessStopped
  | MsgFileDeleted
  | MsgLogs (name : string) (text : string)
  | MsgFilesList (rows : list (Z * string * string * status))
  | MsgAccessDenied
  | MsgManagement (file_id : Z) (name : string) (type : string)
                  (is_running : bool) (p : option Z) (uploaded : string)
  | MsgAnswer (text : string).

(** Everything the functions of [app.py] read and write. *)
Record world := World {
  files : gmap Z file_record;
  runs : gmap Z run_record;
  runs_seq : Z;                         (* AUTOINCREMENT counter of [runs] *)
  processes : gmap Z live_job;
  fs : list (string * node);            (* the entries of the root directory *)
  os_procs : gmap Z os_process;
  os_next_pid : Z;
  signals : list (Z * signal);          (* signals sent, latest first *)
  monitors : list monitor;              (* monitor threads started, latest first *)
  pip_log : list (string * Z);          (* pip runs: package and timeout, latest first *)
  outbox : list (Z * msg);              (* messages sent: chat and text, latest first *)
  now : Z                               (* the clock, in seconds *)
}.

(** The outcome of one [subprocess.run] of pip. *)
Inductive pip_outcome :=
  | PipReturned (returncode : Z)
  | PipTimeout
  | PipRaised (e : string).

(** The container libraries: what [extractall] does to the disk, or the
    text of the exception it raises (the disk is then in the state it was
    left in). *)
Inductive container := Zip | TarGz | Tar.

(** Configuration and host. *)
Record host := Host {
  CPU_THRESHOLD : Q;
  MEMORY_THRESHOLD : Q;
  MAX_RUNNING_PROCESSES : Z;
  LOGS_DIR : string;
  sys_executable : string;
  (* [psutil]: CPU and memory percentages, [None] when sampling raises *)
  psutil_sample : option (Q * Q);
  (* [pip install <package>] run with a timeout *)
  pip_install : string -> Z -> pip_outcome;
  (* [importlib.import_module] succeeds *)
  importable : string -> bool;
  (* [Popen] raises, with this text *)
  popen_error : list string -> string -> option string;
  (* how a program started by this command reacts to SIGTERM *)
  program_term_delay : list string -> option Z;
  (* [Popen.terminate] raises for this process *)
  terminate_raises : Z -> bool;
  (* [extractall] of an archive into a directory *)
  extractall : container -> string -> string -> list (string * node) ->
               list (string * node) * option string;
  (* [bot.send_message] raises for this chat and text, inside
     [start_file_process] *)
  send_error : Z -> msg -> option string;
  (* a [set] of strings yields the first before the second when iterated
     (the order follows the hashes of the strings, which change from one
     interpreter to the next) *)
  set_before : gset string -> string -> string -> bool
}.

(** ** The disk *)

Module Fs.

(** The failures of [open], and the text of the [OSError] they raise. *)
Inductive errno := ENOENT | ENOTDIR | EISDIR.

Definition strerror (e : errno) (p : string) : string :=
  match e with
  | ENOENT => "[Errno 2] No such file or directory: '"
  | ENOTDIR => "[Errno 20] Not a directory: '"
  | EISDIR => "[Errno 21] Is a directory: '"
  end +:+ p +:+ "'".

Fixpoint lookup_entry (name : string) (es : list (string * node)) : option node :=
  match es with
  | [] => None
  | (n, x) :: es' => if decide (n = name) then Some x else lookup_entry name es'
  end.

(** The node a list of path components leads to. *)
Fixpoint resolve (cs : list string) (es : list (string * node)) : option node :=
  match cs with
  | [] => Some (Dir es)
  | c :: cs' =>
      match lookup_entry c es with
      | Some (Dir es') => resolve cs' es'
      | Some (File d) => match cs' with [] => Some (File d) | _ => None end
      | None => None
      end
  end.

Definition find (p : string) (root : list (string * node)) : option node :=
  resolve (Path.components p) root.

(** [os.path.exists], [os.path.isdir], [os.path.isfile] *)
Definition exists_ (p : string) (root : list (string * node)) : bool :=
  match find p root with Some _ => true | None => false end.

Definition isdir (p : string) (root : list (string * node)) : bool :=
  match find p root with Some (Dir _) => true | _ => false end.

Definition isfile (p : string) (root : list (string * node)) : bool :=
  match find p root with Some (File _) => true | _ => false end.

(** The entries of a directory; none when the path is no directory. *)
Definition listdir (p : string) (root : list (string * node)) : list (string * node) :=
  match find p root with Some (Dir es) => es | _ => [] end.

(** [open(p).readlines()]: the lines, or the text of the exception. *)
Definition readlines (p : string) (root : list (string * node)) : list string + string :=
  match find p root with
  | Some (File d) => match read_error d with None => inl (lines d) | Some e => inr e end
  | Some (Dir _) => inr (strerror EISDIR p)
  | None => inr (strerror ENOENT p)
  end.

Fixpoint set_entry (name : string) (x : node) (es : list (string * node))
  : list (string * node) :=
  match es with
  | [] => [(name, x)]
  | (n, y) :: es' =>
      if decide (n = name) then (n, x) :: es' else (n, y) :: set_entry name x es'
  end.

Fixpoint remove_entry (name : string) (es : list (string * node)) : list (string * node) :=
  match es with
  | [] => []
  | (n, y) :: es' =>
      if decide (n = name) then es' else (n, y) :: remove_entry name es'
  end.

(** [open(p, 'w')]: the file is created or emptied, unless the path is a
    directory, or leads through a regular file or through nothing. *)
Fixpoint create (cs : list string) (es : list (string * node))
  : list (string * node) + errno :=
  match cs with
  | [] => inr EISDIR
  | c :: cs' =>
      match cs', lookup_entry c es with
      | [], Some (Dir _) => inr EISDIR
      | [], _ => inl (set_entry c (File (FileData None [] None)) es)
      | _, Some (Dir es') =>
          match create cs' es' with
          | inl es'' => inl (set_entry c (Dir es'') es)
          | inr e => inr e
          end
      | _, Some (File _) => inr ENOTDIR
      | _, None => inr ENOENT
      end
  end.

(** [os.remove] of a file or [shutil.rmtree] of a directory. *)
Fixpoint remove (cs : list string) (es : list (string * node)) : list (string * node) :=
  match cs with
  | [] => es
  | c :: cs' =>
      match cs', lookup_entry c es with
      | [], _ => remove_entry c es
      | _, Some (Dir es') => set_entry c (Dir (remove cs' es')) es
      | _, _ => es
      end
  end.

(** [os.walk(top)]: top-down, one triple [(root, dirs, files)] per
    directory, sub-directories entered in the order they are listed. *)
Definition dirs_of (es : list (string * node)) : list string :=
  omap (fun e => match snd e with Dir _ => Some (fst e) | File _ => None end) es.

Definition files_of (es : list (string * node)) : list string :=
  omap (fun e => match snd e with File _ => Some (fst e) | Dir _ => None end) es.

Fixpoint walk_node (top : string) (n : node) : list (string * list string * list string) :=
  match n with
  | File _ => []
  | Dir es =>
      (top, dirs_of es, files_of es)
      :: flat_map (fun e => walk_node (Path.join top (fst e)) (snd e)) es
  end.

Definition walk (top : string) (root : list (string * node))
  : list (string * list string * list string) :=
  match find top root with
  | Some (Dir es) => walk_node top (Dir es)
  | _ => []
  end.

End Fs.

(** ** Updating one field of the world *)

Definition with_files (f : gmap Z file_record) (w : world) : world :=
  World f (runs w) (runs_seq w) (processes w) (fs w) (os_procs w) (os_next_pid w)
        (signals w) (monitors w) (pip_log w) (outbox w) (now w).

Definition with_runs (r : gmap Z run_record) (seq : Z) (w : world) : world :=
  World (files w) r seq (processes w) (fs w) (os_procs w) (os_next_pid w)
        (signals w) (monitors w) (pip_log w) (outbox w) (now w).

Definition with_processes (p : gmap Z live_job) (w : world) : world :=
  World (files w) (runs w) (runs_seq w) p (fs w) (os_procs w) (os_next_pid w)
        (signals w) (monitors w) (pip_log w) (outbox w) (now w).

Definition with_fs (root : list (string * node)) (w : world) : world :=
  World (files w) (runs w) (runs_seq w) (processes w) root (os_procs w) (os_next_pid w)
        (signals w) (monitors w) (pip_log w) (outbox w) (now w).

Definition with_os (o : gmap Z os_process) (next : Z) (w : world) : world :=
  World (files w) (runs w) (runs_seq w) (processes w) (fs w) o next
        (signals w) (monitors w) (pip_log w) (outbox w) (now w).

Definition with_signals (sg : list (Z * signal)) (w : world) : world :=
  World (files w) (runs w) (runs_seq w) (processes w) (fs w) (os_procs w) (os_next_pid w)
        sg (monitors w) (pip_log w) (outbox w) (now w).

Definition with_monitors (m : list monitor) (w : world) : world :=
  World (files w) (runs w) (runs_seq w) (processes w) (fs w) (os_procs w) (os_next_pid w)
        (signals w) m (pip_log w) (outbox w) (now w).

Definition with_pip_log (l : list (string * Z)) (w : world) : world :=
  World (files w) (runs w) (runs_seq w) (processes w) (fs w) (os_procs w) (os_next_pid w)
        (signals w) (monitors w) l (outbox w) (now w).

Definition with_outbox (o : list (Z * msg)) (w : world) : world :=
  World (files w) (runs w) (runs_seq w) (processes w) (fs w) (os_procs w) (os_next_pid w)
        (signals w) (monitors w) (pip_log w) o (now w).

Definition with_now (t : Z) (w : world) : world :=
  World (files w) (runs w) (runs_seq w) (processes w) (fs w) (os_procs w) (os_next_pid w)
        (signals w) (monitors w) (pip_log w) (outbox w) t.

(** [bot.send_message(chat_id, text)] *)
Definition send_message (chat_id : Z) (m : msg) (w : world) : world :=
  with_outbox ((chat_id, m) :: outbox w) w.

(** [time.sleep(seconds)] *)
Definition sleep (seconds : Z) (w : world) : world := with_now (now w + seconds) w.

(** ** Database helpers *)

Definition get_file_record (file_id : Z) (w : world) : option file_record :=
  files w !! file_id.

Definition remove_file_record (file_id : Z) (w : world) : world :=
  with_files (delete file_id (files w)) w.

(** [ORDER BY id DESC] *)
Definition id_desc (a b : Z * file_record) : Prop := b.1 <= a.1.

#[global] Instance id_desc_dec : RelDecision id_desc.
Proof. intros a b. unfold id_desc. apply _. Defined.

Definition list_user_files (uid : Z) (w : world) : list (Z * file_record) :=
  merge_sort id_desc (filter (fun e => user_id e.2 = uid) (map_to_list (files w))).

Definition record_run_start (file_id p : Z) (log : string) (w : world) : world * Z :=
  let id := runs_seq w + 1 in
  (with_runs (<[id := RunRecord file_id (now w) None p log None]> (runs w)) id w, id).

(** [SET finished_at=?, exit_code=?] on a row of [runs]. *)
Definition finish_run (finished exit_code : Z) (r : run_record) : run_record :=
  RunRecord (run_file_id r) (run_started_at r) (Some finished) (run_pid r) (run_log_path r)
            (Some exit_code).

Definition record_run_finish (id exit_code : Z) (w : world) : world :=
  with_runs (alter (finish_run (now w) exit_code) id (runs w)) (runs_seq w) w.

(** [SET pid=?, status=?] on a row of [files]. *)
Definition set_status (p : option Z) (st : status) (r : file_record) : file_record :=
  FileRecord (user_id r) (username r) (filename r) (orig_name r) (path r) (uploaded_at r)
             (file_type r) p st.

Definition update_file_status (file_id : Z) (p : option Z) (st : status) (w : world) : world :=
  with_files (alter (set_status p st) file_id (files w)) w.

(** A [for] loop whose body returns from the function at the first
    iteration that produces a result. *)
Fixpoint first_some {A B : Type} (f : A -> option B) (l : list A) : option B :=
  match l with
  | [] => None
  | x :: l' => match f x with Some y => Some y | None => first_some f l' end
  end.

(** ** File utilities: [find_main_file] *)

Definition priority_files : list string :=
  [ "main.py"; "bot.py"; "app.py"; "server.py"; "index.py"; "script.py";
    "main.js"; "bot.js"; "app.js"; "server.js"; "index.js"; "script.js" ].

(** [find_main_file(directory)] on the disk [root]. *)
Definition find_main_file (directory : string) (root : list (string * node)) : option string :=
  (* First check root directory for priority files *)
  match first_some (fun file_name =>
                      let file_path := Path.join directory file_name in
                      if Fs.isfile file_path root then Some file_path else None)
                   priority_files with
  | Some file_path => Some file_path
  | None =>
      (* Search recursively for priority files *)
      match first_some (fun '(top, _, files) =>
                          first_some (fun file_name =>
                                        if bool_decide (file_name ∈ files)
                                        then Some (Path.join top file_name) else None)
                                     priority_files)
                       (Fs.walk directory root) with
      | Some file_path => Some file_path
      | None =>
          (* If no priority files found, look for any .py or .js file *)
          first_some (fun '(top, _, files) =>
                        first_some (fun file =>
                                      if Str.endswith file ".py" || Str.endswith file ".js"
                                      then Some (Path.join top file) else None)
                                   files)
                     (Fs.walk directory root)
      end
  end.

Section Supervisor.

Context (h : host).

(** *** System monitoring *)

Definition get_system_load (w : world) : Q * Q * Z :=
  match psutil_sample h with
  | Some (cpu, mem) => (cpu, mem, Z.of_nat (size (processes w)))
  | None => (0%Q, 0%Q, 0)
  end.

Definition should_stop_due_to_load (w : world) : bool * option reject_reason :=
  let '(load, memory, process_count) := get_system_load w in
  if MAX_RUNNING_PROCESSES h <=? process_count
  then (true, Some (TooManyProcesses process_count (MAX_RUNNING_PROCESSES h)))
  else if Qle_bool (CPU_THRESHOLD h) load then (true, Some (HighCPU load))
  else if Qle_bool (MEMORY_THRESHOLD h) memory then (true, Some (HighMemory memory))
  else (false, None).

(** *** Archive extraction *)

Definition extract_archive (file_path extract_dir : string) (w : world)
  : world * (bool * option string) :=
  let unpack (c : container) :=
    let '(root', err) := extractall h c file_path extract_dir (fs w) in
    let w' := with_fs root' w in
    match err with
    | None => (w', (true, None))
    | Some e => (w', (false, Some e))
    end in
  let name := Str.lower file_path in
  if Str.endswith name ".zip" then unpack Zip
  else if Str.endswith name ".tar.gz" || Str.endswith name ".tgz" then unpack TarGz
  else if Str.endswith name ".tar" then unpack Tar
  else (w, (false, Some "Unsupported archive format")).

(** *** Dependency installation *)

(** The list comprehension over the lines of the manifest. *)
Definition requirement_lines (content : list string) : list string :=
  omap (fun line =>
          if negb (Str.is_empty (Str.strip line)) && negb (Str.startswith line "#")
          then Some (Str.strip line) else None)
       content.

(** The counters the install loops carry. *)
Record tally := Tally {
  success_count : nat;
  failed_count : nat;
  failed_packages : list string
}.

(** One iteration of the loop of [install_requirements_from_file]. *)
Definition install_requirement (acc : world * tally) (package : string) : world * tally :=
  let '(w, t) := acc in
  let w' := with_pip_log ((package, 120) :: pip_log w) w in
  match pip_install h package 120 with
  | PipReturned rc =>
      if decide (rc = 0)
      then (w', Tally (S (success_count t)) (failed_count t) (failed_packages t))
      else (w', Tally (success_count t) (S (failed_count t)) (failed_packages t ++ [package]))
  | PipTimeout =>
      (w', Tally (success_count t) (S (failed_count t))
                 (failed_packages t ++ [package +:+ " (timeout)"]))
  | PipRaised e =>
      (w', Tally (success_count t) (S (failed_count t))
                 (failed_packages t ++ [package +:+ " (" +:+ e +:+ ")"]))
  end.

Definition install_requirements_from_file (requirements_path : string) (w : world)
  : world * (bool * string) :=
  if negb (Fs.exists_ requirements_path (fs w))
  then (w, (false, "requirements.txt not found"))
  else
    match Fs.readlines requirements_path (fs w) with
    | inr e => (w, (false, "Error installing requirements: " +:+ e))
    | inl content =>
        let requirements := requirement_lines content in
        match requirements with
        | [] => (w, (true, "No requirements found in requirements.txt"))
        | _ =>
            let '(w', t) := foldl install_requirement (w, Tally 0 0 []) requirements in
            let message := "Installed " +:+ pretty (success_count t) +:+ " packages" in
            let message :=
              if decide (0 < failed_count t)%nat
              then message +:+ ", failed " +:+ pretty (failed_count t) +:+ ": "
                           +:+ Str.join ", " (take 5 (failed_packages t))
              else message in
            (w', (bool_decide (failed_count t = 0%nat), message))
        end
    end.

(** *** Import detection *)

Fixpoint stmt_size (s : stmt) : nat :=
  match s with
  | Compound body => S (list_sum (map stmt_size body))
  | _ => 1%nat
  end.

Definition child_nodes (s : stmt) : list stmt :=
  match s with Compound body => body | _ => [] end.

(** [ast.walk]: breadth first, from a queue; the fuel is the number of
    nodes still to come. *)
Fixpoint ast_walk (fuel : nat) (todo : list stmt) : list stmt :=
  match fuel, todo with
  | S fuel', node :: rest => node :: ast_walk fuel' (rest ++ child_nodes node)
  | _, _ => []
  end.

(** The body of the loop over the nodes. *)
Definition visit (imports : gset string) (node : stmt) : gset string :=
  match node with
  | Import names =>
      foldl (fun acc name => {[ Str.split_head "."%char name ]} ∪ acc) imports names
  | ImportFrom (Some m) O =>
      if Str.is_empty m then imports else {[ Str.split_head "."%char m ]} ∪ imports
  | _ => imports
  end.

Definition extract_imports (file_path : string) (root : list (string * node)) : gset string :=
  match Fs.find file_path root with
  | Some (File d) =>
      match read_error d, syntax d with
      | None, Some tree => foldl visit ∅ (ast_walk (list_sum (map stmt_size tree)) tree)
      | _, _ => ∅
      end
  | _ => ∅
  end.

Definition pip_name_map : gmap string string :=
  list_to_map [ ("telebot", "pyTelegramBotAPI"); ("PIL", "Pillow"); ("cv2", "opencv-python");
                ("Crypto", "pycryptodome"); ("bs4", "beautifulsoup4") ].

(** [for module in imports]: the elements of the set, in the order the
    interpreter yields them. *)
Definition iter_before (imports : gset string) (a b : string) : Prop :=
  set_before h imports a b = true.

#[global] Instance iter_before_dec (imports : gset string) : RelDecision (iter_before imports).
Proof. intros a b. unfold iter_before. apply _. Defined.

Definition set_iteration (imports : gset string) : list string :=
  merge_sort (iter_before imports) (elements imports).

(** One iteration of the loop of [install_missing_imports]. *)
Definition install_module (acc : world * tally) (module : string) : world * tally :=
  let '(w, t) := acc in
  let pip_name := default module (pip_name_map !! module) in
  let w' := with_pip_log ((pip_name, 120) :: pip_log w) w in
  match pip_install h pip_name 120 with
  | PipReturned rc =>
      if decide (rc = 0)
      then (w', Tally (S (success_count t)) (failed_count t) (failed_packages t))
      else (w', Tally (success_count t) (S (failed_count t)) (failed_packages t ++ [module]))
  | _ => (w', Tally (success_count t) (S (failed_count t)) (failed_packages t ++ [module]))
  end.

Definition install_missing_imports (imports : gset string) (w : world)
  : world * (bool * string) :=
  let missing := filter (fun module => importable h module = false) (set_iteration imports) in
  match missing with
  | [] => (w, (true, "All imports available"))
  | _ =>
      let '(w', t) := foldl install_module (w, Tally 0 0 []) missing in
      let message := "Installed " +:+ pretty (success_count t) +:+ " modules" in
      let message :=
        if decide (0 < failed_count t)%nat
        then message +:+ ", failed " +:+ pretty (failed_count t) +:+ ": "
                     +:+ Str.join ", " (failed_packages t)
        else message in
      (w', (bool_decide (failed_count t = 0%nat), message))
  end.

(** *** Process management *)

(** A call as [start_file_process] goes through it: the world it leaves,
    and the text of the exception that escapes it, if one does. *)
Definition and_then (r : world * option string) (k : world -> world * option string)
  : world * option string :=
  match r with
  | (w, None) => k w
  | (w, Some e) => (w, Some e)
  end.

(** [bot.send_message] inside [start_file_process]: the call is made
    (and recorded in [outbox]) and may raise. *)
Definition try_send (chat_id : Z) (m : msg) (w : world) : world * option string :=
  (send_message chat_id m w, send_error h chat_id m).

(** Lines 671-679 of [start_file_process]: the manifest next to the
    target, when there is one. *)
Definition install_manifest (chat_id : Z) (working_dir : string) (w : world)
  : world * option string :=
  let requirements_path := Path.join working_dir "requirements.txt" in
  if Fs.exists_ requirements_path (fs w) then
    and_then (try_send chat_id MsgInstallingRequirements w) (fun w =>
      let '(w, (success, message)) := install_requirements_from_file requirements_path w in
      if success then try_send chat_id (MsgRequirementsInstalled message) w
      else try_send chat_id (MsgRequirementsIssues message) w)
  else (w, None).

(** Lines 681-686: the imports of the target. *)
Definition install_imports (chat_id : Z) (target_file : string) (w : world)
  : world * option string :=
  and_then (try_send chat_id MsgCheckingImports w) (fun w =>
    let imports := extract_imports target_file (fs w) in
    if decide (imports = ∅) then (w, None)
    else
      let '(w, (_, message)) := install_missing_imports imports w in
      try_send chat_id (MsgImportCheck message) w).

(** Lines 669-686: done for a [.py] target only. *)
Definition install_dependencies (chat_id : Z) (target_file working_dir : string) (w : world)
  : world * option string :=
  and_then (install_manifest chat_id working_dir w) (install_imports chat_id target_file).

(** Lines 697-762: the log file, [Popen], the records, the notification
    and the monitor thread, all inside one [try]; whatever is raised there,
    by the notification as well, leads to the handler of line 759, which sends
    the failure text. The monitor thread is started last. *)
Definition spawn (file_id chat_id : Z) (original_name : string) (cmd : list string)
           (working_dir : string) (w : world) : world * option string :=
  let log_filename := "file_" +:+ pretty file_id +:+ "_" +:+ pretty (now w) +:+ ".log" in
  let log_path := Path.join (LOGS_DIR h) log_filename in
  match Fs.create (Path.components log_path) (fs w) with
  | inr e => try_send chat_id (MsgFailedToStart (Fs.strerror e log_path)) w
  | inl root' =>
      let w := with_fs root' w in
      match popen_error h cmd working_dir with
      | Some e => try_send chat_id (MsgFailedToStart e) w
      | None =>
          let p := os_next_pid w in
          let w := with_os (<[p := OsProcess cmd working_dir log_path Alive
                                             (program_term_delay h cmd)]> (os_procs w))
                           (p + 1) w in
          (* Record in database *)
          let '(w, run) := record_run_start file_id p log_path w in
          let w := update_file_status file_id (Some p) Running w in
          (* Store in memory *)
          let w := with_processes (<[file_id := LiveJob p run log_path (now w)]> (processes w)) w in
          match try_send chat_id (MsgStarted original_name p log_filename) w with
          | (w, Some e) => try_send chat_id (MsgFailedToStart e) w
          | (w, None) =>
              (* Monitor process *)
              (with_monitors (Monitor file_id run p chat_id original_name :: monitors w) w,
               None)
          end
      end
  end.

(** [start_file_process(file_id, chat_id)], with the exception that
    escapes it. *)
Definition start_file_process_exc (file_id chat_id : Z) (w : world) : world * option string :=
  (* Check system load *)
  let '(should_stop, reason) := should_stop_due_to_load w in
  if should_stop then try_send chat_id (MsgCannotStart reason) w
  else
    match get_file_record file_id w with
    | None => try_send chat_id MsgFileNotFound w
    | Some file_record =>
        let file_path := path file_record in
        let original_name := orig_name file_record in
        (* Determine what to run *)
        let target :=
          if Fs.isdir file_path (fs w) then
            match find_main_file file_path (fs w) with
            | None => inl MsgNoMainFile
            | Some main_file => inr (main_file, Path.dirname main_file)
            end
          else if negb (Fs.exists_ file_path (fs w)) then inl (MsgPathNotFound file_path)
          else inr (file_path, Path.dirname file_path) in
        match target with
        | inl m => try_send chat_id m w
        | inr (target_file, working_dir) =>
            (* Check file extension *)
            let ext := Str.lower (Path.splitext_ext target_file) in
            if decide (ext = ".py") then
              and_then (install_dependencies chat_id target_file working_dir w) (fun w =>
                spawn file_id chat_id original_name [sys_executable h; target_file]
                      working_dir w)
            else if decide (ext = ".js") then
              spawn file_id chat_id original_name ["node"; target_file] working_dir w
            else try_send chat_id (MsgUnsupportedType ext) w
        end
    end.

(** The world a call of [start_file_process] leaves, whether it returns or
    raises. *)
Definition start_file_process (file_id chat_id : Z) (w : world) : world :=
  (start_file_process_exc file_id chat_id w).1.

(** The body of a monitor thread, run once [process.wait()] has returned
    the exit code ([inl]) or raised ([inr]). *)
Definition monitor_process (m : monitor) (waited : Z + string) (w : world) : world :=
  let exit_code := match waited with inl code => code | inr _ => -1 end in
  (* finally: *)
  let w := update_file_status (mon_file_id m) None Stopped w in
  let w := record_run_finish (mon_run_id m) exit_code w in
  let w := with_processes (delete (mon_file_id m) (processes w)) w in
  if decide (exit_code = 0) then w
  else send_message (mon_chat_id m) (MsgStoppedWithCode (mon_name m) exit_code) w.

(** [process.poll() is None] *)
Definition poll_is_none (p : Z) (w : world) : bool :=
  match os_procs w !! p with
  | Some pr => match proc_state_of pr with Alive => true | Exited _ => false end
  | None => false
  end.

Definition set_exited (p code : Z) (w : world) : world :=
  with_os (alter (fun pr => OsProcess (proc_cmd pr) (proc_cwd pr) (proc_log pr) (Exited code)
                                      (term_delay pr)) p (os_procs w))
          (os_next_pid w) w.

(** [process.wait(timeout=5)] after [terminate] returns in time. *)
Definition exits_within (p seconds : Z) (w : world) : bool :=
  match os_procs w !! p with
  | Some pr => match term_delay pr with Some d => d <=? seconds | None => false end
  | None => true
  end.

Definition stop_file_process (file_id : Z) (w : world) : world * bool :=
  let '(w, stopped) :=
    match processes w !! file_id with
    | Some process_info =>
        let p := process process_info in
        let '(w, stopped) :=
          if poll_is_none p w then
            if terminate_raises h p then (w, false)
            else
              let w := with_signals ((p, SIGTERM) :: signals w) w in
              let w :=
                if exits_within p 5 w then set_exited p (-15) w
                else set_exited p (-9) (with_signals ((p, SIGKILL) :: signals w) w) in
              (w, true)
          else (w, false) in
        (with_processes (delete file_id (processes w)) w, stopped)
    | None => (w, false)
    end in
  (update_file_status file_id None Stopped w, stopped).

(** Python's [l[start:]]. *)
Definition slice_from {A : Type} (start : Z) (l : list A) : list A :=
  let n := Z.of_nat (length l) in
  let i := if start <? 0 then Z.max (n + start) 0 else Z.min start n in
  drop (Z.to_nat i) l.

(** [SELECT log_path FROM runs WHERE file_id=? ORDER BY started_at DESC
    LIMIT 1]; among rows started at the same instant the choice is the
    engine's, here the one met last. *)
Definition latest_run (file_id : Z) (rs : gmap Z run_record) : option run_record :=
  foldr (fun e best =>
           if decide (run_file_id e.2 = file_id) then
             match best with
             | Some b => if run_started_at b <? run_started_at e.2 then Some e.2 else Some b
             | None => Some e.2
             end
           else best)
        None (map_to_list rs).

Definition concat_lines (l : list string) : string := Str.join "" l.

Definition get_file_logs (file_id : Z) (lines : Z) (w : world) : string :=
  let from_runs :=
    match latest_run file_id (runs w) with
    | Some row =>
        if negb (Str.is_empty (run_log_path row)) && Fs.exists_ (run_log_path row) (fs w) then
          match Fs.readlines (run_log_path row) (fs w) with
          | inl [] => "No logs found"
          | inl content => concat_lines (slice_from (- lines) content)
          | inr e => "Error reading logs: " +:+ e
          end
        else "No log file found"
    | None => "No log file found"
    end in
  match processes w !! file_id with
  | Some job =>
      if Fs.exists_ (log_path job) (fs w) then
        match Fs.readlines (log_path job) (fs w) with
        | inl [] => "No logs yet"
        | inl content => concat_lines (slice_from (- lines) content)
        | inr e => "Error reading logs: " +:+ e
        end
      else from_runs
  | None => from_runs
  end.

(** *** Callback handlers *)

(** The digits of [int(text)]: decimal digits, single underscores allowed
    between two of them. *)
Fixpoint digits_value (s : string) (acc : Z) (after_digit : bool) : option Z :=
  match s with
  | EmptyString => if after_digit then Some acc else None
  | String c s' =>
      match Ascii.is_nat c with
      | Some d => digits_value s' (10 * acc + Z.of_nat d) true
      | None =>
          if ascii_dec c "_"%char
          then (if after_digit then digits_value s' acc false else None)
          else None
      end
  end.

(** [int(text)] on ASCII text; [None] is [ValueError]. *)
Definition parse_int (text : string) : option Z :=
  match Str.strip text with
  | String "-"%char s => Z.opp <$> digits_value s 0 false
  | String "+"%char s => digits_value s 0 false
  | s => digits_value s 0 false
  end.

(** [int(data.split(":")[1])] *)
Definition callback_file_id (data : string) : option Z :=
  match Str.split ":"%char data with
  | _ :: field :: _ => parse_int field
  | _ => None
  end.

Definition send_files_list (chat_id uid : Z) (w : world) : world :=
  let files := list_user_files uid w in
  send_message chat_id
    (MsgFilesList (map (fun e => (e.1, orig_name e.2, file_type e.2, file_status e.2)) files))
    w.

Definition show_file_management (chat_id file_id uid : Z) (w : world) : world :=
  match get_file_record file_id w with
  | None => send_message chat_id MsgFileNotFound w
  | Some file_record =>
      if decide (user_id file_record <> uid) then send_message chat_id MsgAccessDenied w
      else
        (* Check if running *)
        let is_running := bool_decide (is_Some (processes w !! file_id)) in
        send_message chat_id
          (MsgManagement file_id (orig_name file_record) (file_type file_record) is_running
                         (pid file_record) (String.substring 0 16 (uploaded_at file_record)))
          w
  end.

(** [text[-n:]] for a positive [n]. *)
Definition last_chars (n : nat) (text : string) : string :=
  Str.of_list (drop (String.length text - n) (Str.to_list text)).

(** The branch of [callback_handler] for [data], once the file id is read;
    an exception that escapes [start_file_process] is answered by the handler
    of line 898. *)
Definition control (data : string) (file_id chat_id uid : Z) (w : world) : world :=
  if Str.startswith data "manage:" then show_file_management chat_id file_id uid w
  else if Str.startswith data "start:" then
    let w := send_message chat_id (MsgAnswer "Starting...") w in
    match start_file_process_exc file_id chat_id w with
    | (w, Some _) => send_message chat_id (MsgAnswer "Error processing request") w
    | (w, None) =>
        let w := sleep 1 w in
        show_file_management chat_id file_id uid w
    end
  else if Str.startswith data "stop:" then
    let w := send_message chat_id (MsgAnswer "Stopping...") w in
    let w := (stop_file_process file_id w).1 in
    let w := send_message chat_id MsgProcessStopped w in
    let w := sleep 1 w in
    show_file_management chat_id file_id uid w
  else if Str.startswith data "restart:" then
    let w := send_message chat_id (MsgAnswer "Restarting...") w in
    let w := (stop_file_process file_id w).1 in
    let w := sleep 2 w in
    match start_file_process_exc file_id chat_id w with
    | (w, Some _) => send_message chat_id (MsgAnswer "Error processing request") w
    | (w, None) =>
        let w := sleep 1 w in
        show_file_management chat_id file_id uid w
    end
  else if Str.startswith data "delete:" then
    let w := send_message chat_id (MsgAnswer "Deleting...") w in
    let w :=
      match get_file_record file_id w with
      | Some file_record =>
          (* Stop if running *)
          let w := (stop_file_process file_id w).1 in
          (* Remove files from disk *)
          let file_path := path file_record in
          let w :=
            if Fs.isdir file_path (fs w) || Fs.exists_ file_path (fs w)
            then with_fs (Fs.remove (Path.components file_path) (fs w)) w
            else w in
          (* Remove from database *)
          remove_file_record file_id w
      | None => w
      end in
    let w := send_message chat_id MsgFileDeleted w in
    send_files_list chat_id uid w
  else if Str.startswith data "logs:" then
    let w := send_message chat_id (MsgAnswer "Getting logs...") w in
    let logs := get_file_logs file_id 50 w in
    let file_name :=
      match get_file_record file_id w with
      | Some file_record => orig_name file_record
      | None => "Unknown"
      end in
    let logs :=
      if (4000 <? String.length logs)%nat
      then "... (truncated) ...
" +:+ last_chars 4000 logs
      else logs in
    send_message chat_id (MsgLogs file_name logs) w
  else w.

Definition is_control (data : string) : bool :=
  existsb (Str.startswith data)
          ["manage:"; "start:"; "stop:"; "restart:"; "delete:"; "logs:"].

Definition callback_handler (data : string) (chat_id uid : Z) (w : world) : world :=
  if decide (data = "back_to_files") then send_files_list chat_id uid w
  else if is_control data then
    match callback_file_id data with
    | Some file_id => control data file_id chat_id uid w
    | None => send_message chat_id (MsgAnswer "Error processing request") w
    end
  else w.

End Supervisor.

(** ** Uploads: [get_file_type], the keyboards, [document_handler] *)

Definition get_file_type (filename : string) : string :=
  if Str.is_empty filename then "unknown"
  else
    let name := Str.lower filename in
    if Str.endswith name ".py" then "python"
    else if Str.endswith name ".js" then "javascript"
    else if Str.endswith name ".zip" then "zip"
    else if existsb (Str.endswith name) [".tar"; ".tar.gz"; ".tgz"] then "archive"
    else "unknown".

(** A keyboard: rows of buttons, each a label and its callback data. *)
Definition file_actions_kb (file_id : Z) (is_running : bool) : list (list (string * string)) :=
  [ if is_running
    then [ ("⏹ Stop", "stop:" +:+ pretty file_id);
           ("🔁 Restart", "restart:" +:+ pretty file_id) ]
    else [ ("▶️ Start", "start:" +:+ pretty file_id);
           ("🔁 Restart", "restart:" +:+ pretty file_id) ];
    [ ("🗑 Delete", "delete:" +:+ pretty file_id);
      ("📄 Logs", "logs:" +:+ pretty file_id) ];
    [ ("⬅️ Back", "back_to_files") ] ].

(** The buttons of [send_files_list], one per file of the user. *)
Definition files_list_kb (uid : Z) (w : world) : list (string * string) :=
  map (fun e =>
         (match file_status e.2 with Running => "🟢" | Stopped => "🔴" end
            +:+ " " +:+ orig_name e.2 +:+ " (" +:+ file_type e.2 +:+ ")",
          "manage:" +:+ pretty e.1))
      (list_user_files uid w).

(** [os.makedirs(p, exist_ok=True)]: the directories along the path are
    created where they are missing; [None] when the path leads to or through
    a regular file, where [makedirs] raises. *)
Fixpoint makedirs (cs : list string) (es : list (string * node))
  : option (list (string * node)) :=
  match cs with
  | [] => Some es
  | c :: cs' =>
      match Fs.lookup_entry c es with
      | Some (File _) => None
      | Some (Dir es') =>
          match makedirs cs' es' with
          | Some es'' => Some (Fs.set_entry c (Dir es'') es)
          | None => None
          end
      | None =>
          match makedirs cs' [] with
          | Some es'' => Some (Fs.set_entry c (Dir es'') es)
          | None => None
          end
      end
  end.

(** [open(p, 'wb')] followed by [write]: the file is created or replaced
    with the content, unless the path is a directory, or leads through a
    regular file or through nothing. *)
Fixpoint write_file (cs : list string) (content : file_data) (es : list (string * node))
  : list (string * node) + Fs.errno :=
  match cs with
  | [] => inr Fs.EISDIR
  | c :: cs' =>
      match cs', Fs.lookup_entry c es with
      | [], Some (Dir _) => inr Fs.EISDIR
      | [], _ => inl (Fs.set_entry c (File content) es)
      | _, Some (Dir es') =>
          match write_file cs' content es' with
          | inl es'' => inl (Fs.set_entry c (Dir es'') es)
          | inr e => inr e
          end
      | _, Some (File _) => inr Fs.ENOTDIR
      | _, None => inr Fs.ENOENT
      end
  end.

(** [os.remove(p)] inside [try: ... except: pass]: a regular file is
    removed, anything else is left as it is. *)
Definition remove_quietly (p : string) (root : list (string * node)) : list (string * node) :=
  if Fs.isfile p root then Fs.remove (Path.components p) root else root.

(** [shutil.rmtree(p, ignore_errors=True)] *)
Definition rmtree_quietly (p : string) (root : list (string * node)) : list (string * node) :=
  if Fs.isdir p root then Fs.remove (Path.components p) root else root.

(** A message with a document, as the chat transport delivers it, and what
    [bot.get_file] and [bot.download_file] answer for it: the content the
    saved file will have, or the text of the exception. *)
Record upload := Upload {
  from_user_id : Z;
  from_username : string;
  upload_chat_id : Z;
  document_file_name : option string;
  download : file_data + string
}.

(** The configuration of the upload side, and the text
    [datetime.utcnow().isoformat()] gives at a clock reading. *)
Record site := Site {
  UPLOADS_DIR : string;
  TEMP_DIR : string;
  MAX_FILES_PER_USER : Z;
  utc_isoformat : Z -> string
}.

(** [add_file_record]; [rowid] is the key SQLite gives the new row
    ([cur.lastrowid]); columns [pid] and [status] take their defaults. *)
Definition add_file_record (rowid : Z) (user_id : Z)
           (username filename orig_name path uploaded_at file_type : string) (w : world)
  : world * Z :=
  (with_files (<[rowid := FileRecord user_id username filename orig_name path uploaded_at
                                     file_type None Stopped]> (files w)) w,
   rowid).

Section Uploads.

Context (h : host) (s : site).

Definition reply_to (m : upload) (text : string) (w : world) : world :=
  send_message (upload_chat_id m) (MsgAnswer text) w.

(** Lines 612-623 of [document_handler]: the record, and the automatic
    start of a single source file. *)
Definition register_upload (rowid : Z) (m : upload)
           (safe_filename original_filename final_path file_type : string)
           (extracted_dir : option string) (w : world) : world :=
  (* Add to database *)
  let '(w, file_id) :=
    add_file_record rowid (from_user_id m) (from_username m) safe_filename original_filename
                    final_path (utc_isoformat s (now w)) file_type w in
  (* For single files, start automatically *)
  if bool_decide (file_type ∈ ["python"; "javascript"]) && bool_decide (extracted_dir = None)
  then
    let w := reply_to m "✅ File uploaded! Starting automatically..." w in
    start_file_process h file_id (upload_chat_id m) w
  else reply_to m "✅ File uploaded! Use 'My Files' to manage it." w.

(** Lines 585-610 of [document_handler]: an archive is unpacked and its
    main file looked up. *)
Definition unpack_upload (rowid : Z) (m : upload)
           (safe_filename original_filename file_path : string) (w : world) : world :=
  let user_id := from_user_id m in
  let w := reply_to m "📦 Extracting archive..." w in
  let extracted_dir :=
    Path.join (TEMP_DIR s) ("extracted_" +:+ pretty user_id +:+ "_" +:+ pretty (now w)) in
  match makedirs (Path.components extracted_dir) (fs w) with
  | None => w
  | Some root =>
      let w := with_fs root w in
      let '(w, (success, error)) := extract_archive h file_path extracted_dir w in
      if negb success then
        let w := reply_to m ("❌ Failed to extract archive: "
                             +:+ match error with Some e => e | None => "None" end) w in
        with_fs (remove_quietly file_path (fs w)) w
      else
        (* Find main file in the extracted directory *)
        match find_main_file extracted_dir (fs w) with
        | Some main_file =>
            if Str.is_empty main_file then
              let w := reply_to m "❌ No main Python or JS file found in archive." w in
              with_fs (remove_quietly file_path (rmtree_quietly extracted_dir (fs w))) w
            else
              let final_path := extracted_dir in
              let file_type := get_file_type main_file in
              let w := reply_to m ("✅ Found main file: " +:+ Path.basename main_file) w in
              register_upload rowid m safe_filename original_filename final_path file_type
                              (Some extracted_dir) w
        | None =>
            let w := reply_to m "❌ No main Python or JS file found in archive." w in
            with_fs (remove_quietly file_path (rmtree_quietly extracted_dir (fs w))) w
        end
  end.

(** [document_handler(message)]; a failing [os.makedirs], which the handler
    does not catch, ends it where it stands. *)
Definition document_handler (rowid : Z) (m : upload) (w : world) : world :=
  let user_id := from_user_id m in
  (* Check file limit *)
  let user_files := list_user_files user_id w in
  if decide (MAX_FILES_PER_USER s <= Z.of_nat (length user_files)) then
    reply_to m ("❌ You've reached the file limit (" +:+ pretty (MAX_FILES_PER_USER s)
                +:+ "). Delete some files to upload new ones.") w
  else
    match download m with
    | inr e => reply_to m ("❌ Failed to download file: " +:+ e) w
    | inl file_bytes =>
        let original_filename :=
          match document_file_name m with
          | Some name => if Str.is_empty name then "unknown" else name
          | None => "unknown"
          end in
        let file_type := get_file_type original_filename in
        (* Create user directory *)
        let user_dir := Path.join (UPLOADS_DIR s) (pretty user_id) in
        match makedirs (Path.components user_dir) (fs w) with
        | None => w
        | Some root =>
            let w := with_fs root w in
            (* Save file *)
            let safe_filename := pretty (now w) +:+ "_" +:+ original_filename in
            let file_path := Path.join user_dir safe_filename in
            match write_file (Path.components file_path) file_bytes (fs w) with
            | inr e => reply_to m ("❌ Failed to save file: " +:+ Fs.strerror e file_path) w
            | inl root =>
                let w := with_fs root w in
                (* Handle archives *)
                if bool_decide (file_type ∈ ["zip"; "archive"]) then
                  unpack_upload rowid m safe_filename original_filename file_path w
                else
                  register_upload rowid m safe_filename original_filename file_path file_type
                                  None w
            end
        end
    end.

End Uploads.

(** ** Notions the statements below are phrased with *)

(** The container format a file name stands for, by its suffix. *)
Definition container_of_suffix (file_path : string) : option container :=
  let name := Str.lower file_path in
  if Str.endswith name ".zip" then Some Zip
  else if Str.endswith name ".tar.gz" || Str.endswith name ".tgz" then Some TarGz
  else if Str.endswith name ".tar" then Some Tar
  else None.

(** Two worlds that differ in the messages sent at most. *)
Definition agree_but_outbox (w1 w2 : world) : Prop := with_outbox [] w1 = with_outbox [] w2.

(** The packages the manifest at [requirements_path] asks for. *)
Definition manifest_packages (requirements_path : string) (root : list (string * node))
  : list string :=
  if Fs.exists_ requirements_path root then
    match Fs.readlines requirements_path root with
    | inl content => requirement_lines content
    | inr _ => []
    end
  else [].

(** The distribution packages asked for on behalf of a set of imports, in
    the order in which the set yields them. *)
Definition missing_packages (h : host) (imports : gset string) : list string :=
  map (fun module => default module (pip_name_map !! module))
      (filter (fun module => importable h module = false) (set_iteration h imports)).

(** A pip run per package, each with the 120 second timeout, as they stand
    in [pip_log] (latest first). *)
Definition pip_runs (packages : list string) : list (string * Z) :=
  rev (map (fun package => (package, 120)) packages).

(** The same host with another package installer. *)
Definition with_pip (f : string -> Z -> pip_outcome) (h : host) : host :=
  Host (CPU_THRESHOLD h) (MEMORY_THRESHOLD h) (MAX_RUNNING_PROCESSES h) (LOGS_DIR h)
       (sys_executable h) (psutil_sample h) f (importable h) (popen_error h)
       (program_term_delay h) (terminate_raises h) (extractall h) (send_error h)
       (set_before h).

(** The packages a start of [target_file] asks pip for: those of the
    manifest next to it, then those of its unresolved imports. *)
Definition planned_packages (h : host) (target_file working_dir : string)
           (root : list (string * node)) : list string :=
  manifest_packages (Path.join working_dir "requirements.txt") root
  ++ missing_packages h (extract_imports target_file root).

(** A manifest line that holds nothing, and one that is a comment: the two
    kinds of line the manifest reader passes over. *)
Definition blank_line (line : string) : Prop := Str.strip line = "".
Definition comment_line (line : string) : Prop := Str.startswith line "#" = true.

#[global] Instance blank_line_dec (line : string) : Decision (blank_line line).
Proof. unfold blank_line. apply _. Defined.

#[global] Instance comment_line_dec (line : string) : Decision (comment_line line).
Proof. unfold comment_line. apply _. Defined.

(** The pip run of a package ends well. *)
Definition pip_ok (h : host) (package : string) : bool :=
  match pip_install h package 120 with
  | PipReturned rc => bool_decide (rc = 0)
  | _ => false
  end.



(** The pip run made for an import that cannot be resolved ends well. *)
Definition module_ok (h : host) (module : string) : bool :=
  pip_ok h (default module (pip_name_map !! module)).

(** The summary of an installation of missing imports: the flag, and the
    text with the two counts and every failing import. *)
Definition imports_summary (h : host) (missing : list string) : bool * string :=
  let installed := length (filter (fun m => module_ok h m = true) missing) in
  let failing := filter (fun m => module_ok h m = false) missing in
  (bool_decide (length failing = 0%nat),
   if decide (0 < length failing)%nat
   then ("Installed " +:+ pretty installed +:+ " modules")
          +:+ ", failed " +:+ pretty (length failing) +:+ ": " +:+ Str.join ", " failing
   else "Installed " +:+ pretty installed +:+ " modules").

(** A step that started no process: the process table, the monitors, the
    Runs, the job table and the Artifacts are as before. *)
Definition nothing_spawned (w w' : world) : Prop :=
  os_procs w' = os_procs w /\ os_next_pid w' = os_next_pid w
  /\ monitors w' = monitors w /\ runs w' = runs w /\ runs_seq w' = runs_seq w
  /\ processes w' = processes w /\ files w' = files w.

(** A step that started exactly one process for [file_id]: the process is
    new and alive, a Run is opened for it, the job table points to both, the
    Artifact is Running, and one monitor holding the process, the Run and the
    Artifact is started. *)
Definition spawned_one (h : host) (file_id chat_id : Z) (w w' : world) : Prop :=
  exists (name : string) (cmd : list string) (working_dir log : string),
    os_procs w' = <[os_next_pid w := OsProcess cmd working_dir log Alive
                                               (program_term_delay h cmd)]> (os_procs w)
    /\ os_next_pid w' = os_next_pid w + 1
    /\ monitors w'
       = Monitor file_id (runs_seq w + 1) (os_next_pid w) chat_id name :: monitors w
    /\ runs w' = <[runs_seq w + 1 := RunRecord file_id (now w) None (os_next_pid w) log None]>
                   (runs w)
    /\ runs_seq w' = runs_seq w + 1
    /\ processes w'
       = <[file_id := LiveJob (os_next_pid w) (runs_seq w + 1) log (now w)]> (processes w)
    /\ files w' = alter (set_status (Some (os_next_pid w)) Running) file_id (files w).

(** The same without the promise of a monitor: the one of line 757 is
    started unless the notification before it raised. *)
Definition spawned_job (h : host) (file_id chat_id : Z) (w w' : world) : Prop :=
  exists (name : string) (cmd : list string) (working_dir log : string),
    os_procs w' = <[os_next_pid w := OsProcess cmd working_dir log Alive
                                               (program_term_delay h cmd)]> (os_procs w)
    /\ os_next_pid w' = os_next_pid w + 1
    /\ (monitors w'
        = Monitor file_id (runs_seq w + 1) (os_next_pid w) chat_id name :: monitors w
        \/ monitors w' = monitors w)
    /\ runs w' = <[runs_seq w + 1 := RunRecord file_id (now w) None (os_next_pid w) log None]>
                   (runs w)
    /\ runs_seq w' = runs_seq w + 1
    /\ processes w'
       = <[file_id := LiveJob (os_next_pid w) (runs_seq w + 1) log (now w)]> (processes w)
    /\ files w' = alter (set_status (Some (os_next_pid w)) Running) file_id (files w).

(** The exit code a monitor records. *)
Definition observed_exit_code (waited : Z + string) : Z :=
  match waited with inl code => code | inr _ => -1 end.

(** The last [n] lines of a text. *)
Definition last_lines (n : Z) (content : list string) : list string :=
  drop (length content - Z.to_nat n) content.

(** What reading the log at [p] gives: its last lines, [empty_text] when it
    holds none, the text of the failure when it cannot be read. *)
Definition read_tail (empty_text : string) (n : Z) (p : string) (w : world) : string :=
  match Fs.readlines p (fs w) with
  | inl [] => empty_text
  | inl content => concat_lines (last_lines n content)
  | inr e => "Error reading logs: " +:+ e
  end.

(** A file name with one of the two supported source extensions. *)
Definition supported_source (file : string) : bool :=
  Str.endswith file ".py" || Str.endswith file ".js".





(** The bodies of the three loops of [find_main_file]: the check of one
    priority name at the root, the priority names against one directory of
    the walk, the files of one directory against the two extensions. *)
Definition at_root (directory : string) (root : list (string * node)) (file_name : string)
  : option string :=
  if Fs.isfile (Path.join directory file_name) root
  then Some (Path.join directory file_name) else None.

Definition priority_of (t : string * list string * list string) : option string :=
  first_some (fun file_name =>
                if bool_decide (file_name ∈ t.2) then Some (Path.join t.1.1 file_name)
                else None)
             priority_files.

Definition fallback_of (t : string * list string * list string) : option string :=
  first_some (fun file =>
                if Str.endswith file ".py" || Str.endswith file ".js"
                then Some (Path.join t.1.1 file) else None)
             t.2.

(** The root module names one statement brings in: those of the aliases of
    an [import], that of the module of a [from ... import] that is not
    relative. *)
Definition import_roots (s : stmt) : list string :=
  match s with
  | Import names => map (Str.split_head "."%char) names
  | ImportFrom (Some m) O => if Str.is_empty m then [] else [Str.split_head "."%char m]
  | _ => []
  end.

(** A statement stands in a list of statements, at whatever depth. *)
Inductive occurs_in (s : stmt) : list stmt -> Prop :=
  | occurs_here (l : list stmt) : s ∈ l -> occurs_in s l
  | occurs_below (body l : list stmt) :
      Compound body ∈ l -> occurs_in s body -> occurs_in s l.

(** The names brought in by the statements of the module body itself, those
    nested in compound statements left out. *)
Definition toplevel_imports (tree : list stmt) : gset string :=
  list_to_set (flat_map import_roots tree).

(** The syntax tree of a file, when it can be read and parsed. *)
Definition parsed_tree (file_path : string) (root : list (string * node))
  : option (list stmt) :=
  match Fs.find file_path root with
  | Some (File d) => match read_error d with None => syntax d | Some _ => None end
  | _ => None
  end.

(** Every Artifact recorded as Stopped has no process id and no job. *)
Definition stopped_is_idle (w : world) : Prop :=
  forall id r, files w !! id = Some r -> file_status r = Stopped ->
               pid r = None /\ processes w !! id = None.

(** The counters run ahead of the keys in use: no Run has an id above the
    AUTOINCREMENT counter of [runs], no process a pid at or above the next
    one to be given out. *)
Definition counters_ahead (w : world) : Prop :=
  (forall k r, runs w !! k = Some r -> k <= runs_seq w)
  /\ (forall p pr, os_procs w !! p = Some pr -> p < os_next_pid w).

(** Every character of a string passes a test; the test for a decimal
    digit. *)
Definition not_colon (c : ascii) : bool := if ascii_dec c ":"%char then false else true.

(** The name an upload goes by: that of the document, if it has one. *)
Definition upload_name (m : upload) : string :=
  match document_file_name m with
  | Some name => if Str.is_empty name then "unknown" else name
  | None => "unknown"
  end.

(** What registering an upload leaves behind: the row [r0] under the new
    key and no job, or that row set Running together with the job started
    for it. *)
Definition registered (rowid : Z) (r0 : file_record) (w w' : world) : Prop :=
  (files w' = <[rowid := r0]> (files w) /\ processes w' = processes w
   /\ os_procs w' = os_procs w /\ monitors w' = monitors w /\ runs w' = runs w)
  \/ (exists job,
        files w' = <[rowid := set_status (Some (process job)) Running r0]> (files w)
        /\ processes w' = <[rowid := job]> (processes w)
        /\ process job = os_next_pid w
        /\ os_procs w' !! process job <> None).

(** A user owns a file id. *)
Definition owns (uid : Z) (w : world) (id : Z) : Prop :=
  exists r, files w !! id = Some r /\ user_id r = uid.

(** The number of files a user has. *)
Definition file_count (uid : Z) (w : world) : Z := Z.of_nat (length (list_user_files uid w)).

Fixpoint all_chars (P : ascii -> bool) (s : string) : bool :=
  match s with
  | EmptyString => true
  | String c s' => P c && all_chars P s'
  end.

Definition is_digit (c : ascii) : bool :=
  match Ascii.is_nat c with Some _ => true | None => false end.

(** ** A concrete installation, shared by the examples below *)

Module Sample.

Definition source (text : list string) (tree : option (list stmt)) : node :=
  File (FileData None text tree).

Definition bot_py : node :=
  source ["import telebot
"; "print(1)
"] (Some [Import ["telebot"]; Simple]).

Definition requirements_txt : node :=
  source ["requests
"; "# pinned
"; "
"; "flask==1.0
"] None.

Definition disk : list (string * node) :=
  [ ("data",
     Dir [ ("logs", Dir []);
           ("uploads", Dir [ ("7", Dir [ ("100_bot.py", bot_py);
                                         ("requirements.txt", requirements_txt) ]) ]) ]) ].

(** Ten jobs at most, 90 percent thresholds; the host is at 5 and 20
    percent; every pip run succeeds. *)
Definition machine : host :=
  Host (90 # 1) (90 # 1) 10 "/data/logs" "/usr/bin/python3" (Some (5 # 1, 20 # 1))
       (fun _ _ => PipReturned 0) (fun _ => true)
       (fun _ _ => None) (fun _ => Some 1) (fun _ => false)
       (fun _ _ _ root => (root, None))
       (fun _ _ => None) (fun _ _ _ => true).

Definition bot_record : file_record :=
  FileRecord 7 "alice" "100_bot.py" "bot.py" "/data/uploads/7/100_bot.py"
             "2024-01-01T00:00:00" "python" None Stopped.

(** The same host when pip cannot install [flask]. *)
Definition flaky_pip (package : string) (timeout : Z) : pip_outcome :=
  if decide (package = "flask==1.0") then PipReturned 1 else PipReturned 0.

(** One Artifact, owned by tenant 7, never started. *)
Definition fresh : world :=
  World {[ 1 := bot_record ]} ∅ 0 ∅ disk ∅ 1000 [] [] [] [] 500.

(** The same Artifact after a start: Running. *)
Definition running : world := start_file_process machine 1 7 fresh.



(** The sample host when the transport times out on the notification that
    a process has started. *)
Definition timeout_machine : host :=
  Host (90 # 1) (90 # 1) 10 "/data/logs" "/usr/bin/python3" (Some (5 # 1, 20 # 1))
       (fun _ _ => PipReturned 0) (fun _ => true)
       (fun _ _ => None) (fun _ => Some 1) (fun _ => false)
       (fun _ _ _ root => (root, None))
       (fun _ m => match m with MsgStarted _ _ _ => Some "Read timed out" | _ => None end)
       (fun _ _ _ => true).




(** An unpacked archive with a main file at its root, one whose only
    priority name lies in a sub-directory, and one holding a single file. *)
Definition plain : node := source [] None.


(** A script whose only import sits inside a function. *)
Definition lazy_py : node :=
  source ["def handler():
"; "    import requests
"]
         (Some [Compound [Import ["requests"]]]).

Definition lazy_disk : list (string * node) := [ ("lazy.py", lazy_py) ].

(** The running Artifact once its process has written three lines. *)
Definition log_text : list string := ["starting
"; "hello
"; "polling
"].

Definition logged : world :=
  with_fs [ ("data",
             Dir [ ("logs", Dir [ ("file_1_500.log", source log_text None) ]);
                   ("uploads", Dir [ ("7", Dir [ ("100_bot.py", bot_py);
                                                 ("requirements.txt", requirements_txt) ]) ]) ]) ]
          running.

(** The sample host with no third-party module installed. *)
Definition bare_machine : host :=
  Host (90 # 1) (90 # 1) 10 "/data/logs" "/usr/bin/python3" (Some (5 # 1, 20 # 1))
       (fun _ _ => PipReturned 0) (fun _ => false)
       (fun _ _ => None) (fun _ => Some 1) (fun _ => false)
       (fun _ _ _ root => (root, None))
       (fun _ _ => None) (fun _ _ _ => true).

End Sample.

(** ** Sample uploads *)

Module Incoming.

(** Three files a user at most. *)
Definition office : site := Site "/data/uploads" "/data/temp" 3 (fun t => "T" +:+ pretty t).

(** Tenant 7 sends a script, and an archive. *)
Definition hello_py : upload :=
  Upload 7 "alice" 7 (Some "hello.py")
         (inl (FileData None ["print('hello')
"] (Some [Simple]))).

Definition bundle_zip : upload :=
  Upload 7 "alice" 7 (Some "Bundle.ZIP") (inl (FileData None [] None)).

(** The sample host when every archive unpacks to one file [app.js]. *)
Definition unzipping : host :=
  Host (90 # 1) (90 # 1) 10 "/data/logs" "/usr/bin/python3" (Some (5 # 1, 20 # 1))
       (fun _ _ => PipReturned 0) (fun _ => true)
       (fun _ _ => None) (fun _ => Some 1) (fun _ => false)
       (fun _ _ dest root =>
          match write_file (Path.components (Path.join dest "app.js")) (FileData None [] None)
                           root with
          | inl root' => (root', None)
          | inr e => (root, Some (Fs.strerror e dest))
          end)
       (fun _ _ => None) (fun _ _ _ => true).

End Incoming.

(** * Properties *)

(** Open a conjunction into its parts, and nothing else. *)
Ltac split_ands := repeat match goal with |- _ /\ _ => split end.

(** ** The string and path functions on the inputs the source meets *)

Example lower_ex : Str.lower "Bot.TAR.Gz" = "bot.tar.gz".
Proof. reflexivity. Qed.

Example strip_ex : Str.strip "  requests==2.0
" = "requests==2.0".
Proof. reflexivity. Qed.

Example split_ex : Str.split ":"%char "start:12" = ["start"; "12"].
Proof. reflexivity. Qed.

Example join_ex : Path.join "/data/up" "main.py" = "/data/up/main.py".
Proof. reflexivity. Qed.

Example dirname_ex : Path.dirname "/data/up/main.py" = "/data/up" /\ Path.dirname "/main.py" = "/".
Proof. split; reflexivity. Qed.

Example splitext_ex :
  Path.splitext_ext "/d.x/.bashrc" = "" /\ Path.splitext_ext "/d/a.tar.GZ" = ".GZ".
Proof. split; reflexivity. Qed.

Example components_ex : Path.components "/data//up/main.py" = ["data"; "up"; "main.py"].
Proof. reflexivity. Qed.

Example sample_running_status :
  file_status <$> files Sample.running !! 1 = Some Running
  /\ process <$> processes Sample.running !! 1 = Some 1000.
Proof. split; vm_compute; reflexivity. Qed.

(** ** Admission controller *)

Section Admission.

Context (h : host).


Lemma load_when_sampling_raises (w : world) :
  psutil_sample h = None -> get_system_load h w = (0%Q, 0%Q, 0).
Proof. intros E. unfold get_system_load. rewrite E. reflexivity. Qed.


End Admission.




(** ** Archive extraction *)

(** C9. The container is chosen by the suffix of the lower-cased name: zip,
    gzip-compressed tar ([.tar.gz] or [.tgz]) or plain tar. Any other name
    gets the error "Unsupported archive format" and the disk is not touched.
    With a supported suffix the result is the success flag together with the
    text of whatever the unpacking raised: the function returns a value on
    every input. *)
Theorem extract_archive_never_raises (h : host) (file_path extract_dir : string) (w : world) :
  (container_of_suffix file_path = None <->
     Forall (fun suffix => Str.endswith (Str.lower file_path) suffix = false)
            [".zip"; ".tar.gz"; ".tgz"; ".tar"])
  /\ match container_of_suffix file_path with
     | None =>
         extract_archive h file_path extract_dir w
         = (w, (false, Some "Unsupported archive format"))
     | Some c =>
         extract_archive h file_path extract_dir w
         = (with_fs (extractall h c file_path extract_dir (fs w)).1 w,
            match (extractall h c file_path extract_dir (fs w)).2 with
            | None => (true, None)
            | Some e => (false, Some e)
            end)
     end.
Proof.
  unfold container_of_suffix, extract_archive. split.
  - rewrite !Forall_cons, Forall_nil.
    destruct (Str.endswith (Str.lower file_path) ".zip");
      destruct (Str.endswith (Str.lower file_path) ".tar.gz");
      destruct (Str.endswith (Str.lower file_path) ".tgz");
      destruct (Str.endswith (Str.lower file_path) ".tar"); simpl; intuition congruence.
  - destruct (Str.endswith (Str.lower file_path) ".zip");
      [|destruct (Str.endswith (Str.lower file_path) ".tar.gz"
                 || Str.endswith (Str.lower file_path) ".tgz");
        [|destruct (Str.endswith (Str.lower file_path) ".tar")]];
      try reflexivity;
      destruct (extractall h _ file_path extract_dir (fs w)) as [root' [e|]]; reflexivity.
Qed.

Example extract_archive_suffixes :
  container_of_suffix "/up/7/1_Bot.ZIP" = Some Zip
  /\ container_of_suffix "/up/7/1_bot.tar.gz" = Some TarGz
  /\ container_of_suffix "/up/7/1_bot.tgz" = Some TarGz
  /\ container_of_suffix "/up/7/1_bot.tar" = Some Tar
  /\ container_of_suffix "/up/7/1_bot.rar" = None
  /\ extract_archive Sample.machine "/up/7/1_bot.rar" "/tmp/x" Sample.fresh
     = (Sample.fresh, (false, Some "Unsupported archive format")).
Proof. repeat split; reflexivity. Qed.

(** ** Dependency installation *)

Section Installers.

Context (h : host).

Lemma with_pip_log_same (w : world) : with_pip_log (pip_log w) w = w.
Proof. destruct w; reflexivity. Qed.

(** The manifest loop: one pip run per requirement, in order, and nothing
    else of the world changes. *)
Lemma install_requirement_loop (requirements : list string) (w : world) (t : tally) :
  (foldl (install_requirement h) (w, t) requirements).1
  = with_pip_log (pip_runs requirements ++ pip_log w) w.
Proof.
  revert w t. induction requirements as [|package rest IH]; intros w t.
  - simpl. symmetry. apply with_pip_log_same.
  - cbn [foldl]. unfold pip_runs. cbn [map rev]. rewrite <- app_assoc. cbn [app].
    unfold install_requirement at 2.
    destruct (pip_install h package 120) as [rc| |e];
      [destruct (decide (rc = 0))|..]; rewrite IH; reflexivity.
Qed.

Lemma install_requirement_step (w : world) (t : tally) (package : string) :
  let t' := (install_requirement h (w, t) package).2 in
  (success_count t' + failed_count t' = S (success_count t + failed_count t))%nat
  /\ (length (failed_packages t') + failed_count t
      = length (failed_packages t) + failed_count t')%nat.
Proof.
  unfold install_requirement.
  destruct (pip_install h package 120) as [rc| |e]; [destruct (decide (rc = 0))|..];
    cbn; rewrite ?length_app; cbn; lia.
Qed.

(** Every requirement is counted once, as installed or as failed, and
    every failure leaves a name. *)
Lemma install_requirement_tally (requirements : list string) (w : world) (t : tally) :
  let t' := (foldl (install_requirement h) (w, t) requirements).2 in
  (success_count t' + failed_count t'
   = success_count t + failed_count t + length requirements)%nat
  /\ (length (failed_packages t') + failed_count t
      = length (failed_packages t) + failed_count t')%nat.
Proof.
  revert w t. induction requirements as [|package rest IH]; intros w t.
  - simpl. lia.
  - cbn [foldl length].
    pose proof (install_requirement_step w t package) as Hs.
    destruct (install_requirement h (w, t) package) as [w1 t1].
    specialize (IH w1 t1). cbn zeta in *. cbn [snd] in Hs. lia.
Qed.

Lemma install_requirements_from_file_world (requirements_path : string) (w : world) :
  (install_requirements_from_file h requirements_path w).1
  = with_pip_log (pip_runs (manifest_packages requirements_path (fs w)) ++ pip_log w) w.
Proof.
  unfold install_requirements_from_file, manifest_packages.
  destruct (Fs.exists_ requirements_path (fs w)); cbn [negb];
    [|symmetry; apply with_pip_log_same].
  destruct (Fs.readlines requirements_path (fs w)) as [content|e];
    [|symmetry; apply with_pip_log_same].
  destruct (requirement_lines content) as [|package rest] eqn:E;
    [symmetry; apply with_pip_log_same|].
  rewrite <- (install_requirement_loop (package :: rest) w (Tally 0 0 [])).
  destruct (foldl (install_requirement h) (w, Tally 0 0 []) (package :: rest)); reflexivity.
Qed.

(** The import loop: one pip run per missing module, under its
    distribution name. *)
Lemma install_module_loop (missing : list string) (w : world) (t : tally) :
  (foldl (install_module h) (w, t) missing).1
  = with_pip_log
      (pip_runs (map (fun module => default module (pip_name_map !! module)) missing)
       ++ pip_log w) w.
Proof.
  revert w t. induction missing as [|module rest IH]; intros w t.
  - simpl. symmetry. apply with_pip_log_same.
  - cbn [foldl]. unfold pip_runs. cbn [map rev]. rewrite <- app_assoc. cbn [app].
    unfold install_module at 2.
    destruct (pip_install h (default module (pip_name_map !! module)) 120) as [rc| |e];
      [destruct (decide (rc = 0))|..]; rewrite IH; reflexivity.
Qed.

Lemma install_missing_imports_world (imports : gset string) (w : world) :
  (install_missing_imports h imports w).1
  = with_pip_log (pip_runs (missing_packages h imports) ++ pip_log w) w.
Proof.
  unfold install_missing_imports, missing_packages.
  destruct (filter _ (set_iteration h imports)) as [|module rest] eqn:E;
    [symmetry; apply with_pip_log_same|].
  rewrite <- (install_module_loop (module :: rest) w (Tally 0 0 [])).
  destruct (foldl (install_module h) (w, Tally 0 0 []) (module :: rest)); reflexivity.
Qed.

(** Each of the three steps runs pip and sends messages, and does
    nothing else; unless a send raised, pip was run for every package of the
    step. *)
Lemma install_manifest_world (chat_id : Z) (working_dir : string) (w : world) :
  exists o l r,
    install_manifest h chat_id working_dir w
    = (with_outbox o (with_pip_log (l ++ pip_log w) w), r)
    /\ (r = None ->
        l = pip_runs (manifest_packages (Path.join working_dir "requirements.txt") (fs w))).
Proof.
  unfold install_manifest, try_send, and_then.
  set (rp := Path.join working_dir "requirements.txt").
  destruct (Fs.exists_ rp (fs w)) eqn:Ex.
  - destruct (send_error h chat_id MsgInstallingRequirements) as [e|].
    { exists ((chat_id, MsgInstallingRequirements) :: outbox w), [], (Some e).
      split; [destruct w; reflexivity|discriminate]. }
    pose proof (install_requirements_from_file_world rp
                  (send_message chat_id MsgInstallingRequirements w)) as Hw.
    destruct (install_requirements_from_file h rp
                (send_message chat_id MsgInstallingRequirements w))
      as [w1 [success message]].
    cbn [fst] in Hw. subst w1.
    destruct success; eexists _, _, _; (split; [destruct w; reflexivity|reflexivity]).
  - exists (outbox w), [], None. split; [destruct w; reflexivity|].
    intros _. unfold manifest_packages. rewrite Ex. reflexivity.
Qed.

Lemma install_imports_world (chat_id : Z) (target_file : string) (w : world) :
  exists o l r,
    install_imports h chat_id target_file w
    = (with_outbox o (with_pip_log (l ++ pip_log w) w), r)
    /\ (r = None ->
        l = pip_runs (missing_packages h (extract_imports target_file (fs w)))).
Proof.
  unfold install_imports, try_send, and_then.
  destruct (send_error h chat_id MsgCheckingImports) as [e|].
  { exists ((chat_id, MsgCheckingImports) :: outbox w), [], (Some e).
    split; [destruct w; reflexivity|discriminate]. }
  assert (Hfs : fs (send_message chat_id MsgCheckingImports w) = fs w) by reflexivity.
  rewrite Hfs.
  destruct (decide (extract_imports target_file (fs w) = ∅)) as [Ee|Ne].
  - eexists _, [], None. split; [destruct w; reflexivity|].
    intros _. rewrite Ee. unfold missing_packages, set_iteration. rewrite elements_empty.
    reflexivity.
  - pose proof (install_missing_imports_world (extract_imports target_file (fs w))
                  (send_message chat_id MsgCheckingImports w)) as Hw.
    destruct (install_missing_imports h (extract_imports target_file (fs w))
                (send_message chat_id MsgCheckingImports w)) as [w2 [success message]].
    cbn [fst] in Hw. subst w2. eexists _, _, _. split; [destruct w; reflexivity|reflexivity].
Qed.

(** Installing dependencies runs pip and sends messages; it does nothing
    else. *)
Lemma install_dependencies_world (chat_id : Z) (target_file working_dir : string)
      (w : world) :
  exists o l r,
    install_dependencies h chat_id target_file working_dir w
    = (with_outbox o (with_pip_log (l ++ pip_log w) w), r)
    /\ (r = None -> l = pip_runs (planned_packages h target_file working_dir (fs w))).
Proof.
  unfold install_dependencies, planned_packages.
  destruct (install_manifest_world chat_id working_dir w) as (o1 & l1 & r1 & -> & H1).
  destruct r1 as [e|]; cbn [and_then].
  { exists o1, l1, (Some e). split; [reflexivity|discriminate]. }
  destruct (install_imports_world chat_id target_file
              (with_outbox o1 (with_pip_log (l1 ++ pip_log w) w))) as (o2 & l2 & r2 & -> & H2).
  exists o2, (l2 ++ l1), r2. split.
  - rewrite <- app_assoc. destruct w; reflexivity.
  - intros Hr. rewrite (H1 eq_refl), (H2 Hr). unfold pip_runs.
    rewrite map_app, rev_app_distr. reflexivity.
Qed.

End Installers.

Section ManifestInstall.

Context (h : host).





End ManifestInstall.

(** ** Worlds that agree but for the messages *)

Lemma agree_but_outbox_refl (w : world) : agree_but_outbox w w.
Proof. reflexivity. Qed.

Lemma agree_but_outbox_sym (w1 w2 : world) : agree_but_outbox w1 w2 -> agree_but_outbox w2 w1.
Proof. unfold agree_but_outbox. congruence. Qed.

Lemma agree_but_outbox_trans (w1 w2 w3 : world) :
  agree_but_outbox w1 w2 -> agree_but_outbox w2 w3 -> agree_but_outbox w1 w3.
Proof. unfold agree_but_outbox. congruence. Qed.

Lemma agree_with_outbox (o : list (Z * msg)) (w : world) : agree_but_outbox (with_outbox o w) w.
Proof. reflexivity. Qed.

Lemma agree_send_message (chat_id : Z) (m : msg) (w1 w2 : world) :
  agree_but_outbox w1 w2 -> agree_but_outbox (send_message chat_id m w1) w2.
Proof. intros H. exact H. Qed.


Lemma agree_from_fields (w1 w2 : world) :
  files w1 = files w2 -> runs w1 = runs w2 -> runs_seq w1 = runs_seq w2 ->
  processes w1 = processes w2 -> fs w1 = fs w2 -> os_procs w1 = os_procs w2 ->
  os_next_pid w1 = os_next_pid w2 -> signals w1 = signals w2 ->
  monitors w1 = monitors w2 -> pip_log w1 = pip_log w2 -> now w1 = now w2 ->
  agree_but_outbox w1 w2.
Proof.
  unfold agree_but_outbox, with_outbox. intros. f_equal; assumption.
Qed.



(** When the transport refuses no message of the chat, the installation
    steps return. *)
Lemma install_dependencies_returns (h : host) (chat_id : Z) (target_file working_dir : string)
      (w : world) :
  (forall m, send_error h chat_id m = None) ->
  (install_dependencies h chat_id target_file working_dir w).2 = None.
Proof.
  intros Hs. unfold install_dependencies, install_manifest, install_imports, try_send, and_then.
  rewrite !Hs.
  destruct (Fs.exists_ _ (fs w)).
  - destruct (install_requirements_from_file h _ _) as [w1 [[|] message]];
      rewrite !Hs; (destruct (decide (_ = ∅)); [reflexivity|]);
      destruct (install_missing_imports h _ _) as [w2 [success m2]]; cbn; apply Hs.
  - destruct (decide (_ = ∅)); [reflexivity|].
    destruct (install_missing_imports h _ _) as [w2 [success m2]]; cbn; apply Hs.
Qed.




(** On the sample disk the manifest has a comment and an empty line; pip
    fails on one of the two packages; the start spawns all the same. *)
Example manifest_install_sample :
  let h := with_pip Sample.flaky_pip Sample.machine in
  let path := "/data/uploads/7/requirements.txt" in
  manifest_packages path Sample.disk = ["requests"; "flask==1.0"]
  /\ (install_requirements_from_file h path Sample.fresh).2
     = (false, "Installed 1 packages, failed 1: flask==1.0")
  /\ pip_log (install_requirements_from_file h path Sample.fresh).1
     = [("flask==1.0", 120); ("requests", 120)]
  /\ size (os_procs (start_file_process h 1 7 Sample.fresh)) = 1%nat
  /\ file_status <$> files (start_file_process h 1 7 Sample.fresh) !! 1 = Some Running.
Proof. cbv zeta. split_ands; vm_compute; reflexivity. Qed.

(** A line made of a no-break space (U+00A0, the bytes 194 and 160) is
    blank, and one that ends a name is stripped from it, as [str.strip()]
    does. *)
Example manifest_unicode_space :
  let nbsp := String (ascii_of_nat 194) (String (ascii_of_nat 160) "") in
  let ideographic := String (ascii_of_nat 227) (String (ascii_of_nat 128)
                               (String (ascii_of_nat 128) "")) in
  requirement_lines [nbsp +:+ "
"; "requests" +:+ nbsp +:+ "
"; ideographic +:+ "flask" +:+ ideographic; "a" +:+ nbsp +:+ "b"]
  = ["requests"; "flask"; "a" +:+ nbsp +:+ "b"].
Proof. vm_compute. reflexivity. Qed.

(** A [#] that does not open the line does not make it a comment: the line
    is handed to pip as it is. *)
Example manifest_indented_comment :
  requirement_lines ["requests
"; "  # pinned
"; "flask  # web
"] = ["requests"; "# pinned"; "flask  # web"].
Proof. reflexivity. Qed.

(** ** Start, and the monitor it leaves behind *)

(** C1 (the code departs from it). The sample Artifact is Running, with one
    live process (1000) and one open Run (1). A second start is not turned
    down: it spawns process 1001 and opens Run 2 while process 1000 is alive
    and Run 1 open, and the job table forgets process 1000, so that a stop
    signals the second process only. *)
Theorem start_on_running_spawns_again :
  let w := Sample.running in
  let w' := start_file_process Sample.machine 1 7 w in
  (file_status <$> files w !! 1 = Some Running
   /\ process <$> processes w !! 1 = Some 1000
   /\ proc_state_of <$> os_procs w !! 1000 = Some Alive
   /\ size (os_procs w) = 1%nat /\ size (runs w) = 1%nat)
  /\ (proc_state_of <$> os_procs w' !! 1000 = Some Alive
      /\ proc_state_of <$> os_procs w' !! 1001 = Some Alive
      /\ size (os_procs w') = 2%nat)
  /\ ((fun r => (run_file_id r, run_pid r, run_finished_at r)) <$> runs w' !! 1
      = Some (1, 1000, None)
      /\ (fun r => (run_file_id r, run_pid r, run_finished_at r)) <$> runs w' !! 2
         = Some (1, 1001, None))
  /\ process <$> processes w' !! 1 = Some 1001
  /\ signals (stop_file_process Sample.machine 1 w').1 = [(1001, SIGTERM)]
  /\ proc_state_of <$> os_procs (stop_file_process Sample.machine 1 w').1 !! 1000
     = Some Alive.
Proof. cbv zeta. split_ands; vm_compute; reflexivity. Qed.

Section Monitor.

Context (h : host).

(** What [spawn] leaves: either no process (the log file could not be
    opened, or [Popen] raised), or one process together with its Run, its
    job table entry and the Running status; its monitor is there unless the
    notification was refused. *)
Lemma spawn_outcome (file_id chat_id : Z) (name : string) (cmd : list string)
      (working_dir : string) (w : world) :
  nothing_spawned w (spawn h file_id chat_id name cmd working_dir w).1
  \/ spawned_job h file_id chat_id w (spawn h file_id chat_id name cmd working_dir w).1.
Proof.
  unfold spawn, nothing_spawned, spawned_job, try_send. cbn zeta.
  destruct (Fs.create _ (fs w)) as [root'|e0]; [|left; repeat split; reflexivity].
  destruct (popen_error h cmd working_dir) as [e|]; [left; repeat split; reflexivity|].
  right. cbn. destruct (send_error h chat_id (MsgStarted _ _ _)) as [e|]; cbn.
  - exists name, cmd, working_dir. eexists. split_ands; try reflexivity.
    right. reflexivity.
  - exists name, cmd, working_dir. eexists. split_ands; try reflexivity.
    left. reflexivity.
Qed.

Lemma spawn_outcome_delivered (file_id chat_id : Z) (name : string) (cmd : list string)
      (working_dir : string) (w : world) :
  (forall m, send_error h chat_id m = None) ->
  nothing_spawned w (spawn h file_id chat_id name cmd working_dir w).1
  \/ spawned_one h file_id chat_id w (spawn h file_id chat_id name cmd working_dir w).1.
Proof.
  intros Hs. unfold spawn, nothing_spawned, spawned_one, try_send. cbn zeta.
  destruct (Fs.create _ (fs w)) as [root'|e0]; [|left; repeat split; reflexivity].
  destruct (popen_error h cmd working_dir) as [e|]; [left; repeat split; reflexivity|].
  right. cbn. rewrite Hs. cbn. do 4 eexists. repeat split; reflexivity.
Qed.

Lemma start_outcome (file_id chat_id : Z) (w : world) :
  nothing_spawned w (start_file_process h file_id chat_id w)
  \/ spawned_job h file_id chat_id w (start_file_process h file_id chat_id w).
Proof.
  assert (Hnone : forall o l, nothing_spawned w (with_outbox o (with_pip_log l w)))
    by (intros o l; repeat split; reflexivity).
  assert (Hsend : forall m, nothing_spawned w (try_send h chat_id m w).1)
    by (intros m; repeat split; reflexivity).
  unfold start_file_process, start_file_process_exc.
  destruct (should_stop_due_to_load h w) as [[|] reason]; [left; apply Hsend|].
  destruct (get_file_record file_id w) as [file_record|]; [|left; apply Hsend].
  match goal with
  | |- context [match ?t with inl _ => _ | inr _ => _ end] => destruct t as [m|[target wd]]
  end; [left; apply Hsend|].
  destruct (decide (Str.lower (Path.splitext_ext target) = ".py")).
  - destruct (install_dependencies_world h chat_id target wd w) as (o & l & r & -> & _).
    destruct r as [e0|]; cbn [and_then fst]; [left; apply Hnone|].
    match goal with
    | |- context [spawn h ?a ?b ?c ?d ?e ?w0] =>
        destruct (spawn_outcome a b c d e w0) as [Hn|Hs]; [left; exact Hn|right; exact Hs]
    end.
  - destruct (decide (Str.lower (Path.splitext_ext target) = ".js")); [|left; apply Hsend].
    apply spawn_outcome.
Qed.

(** With a transport that refuses nothing, every process spawned has its
    monitor. *)
Lemma start_outcome_delivered (file_id chat_id : Z) (w : world) :
  (forall m, send_error h chat_id m = None) ->
  nothing_spawned w (start_file_process h file_id chat_id w)
  \/ spawned_one h file_id chat_id w (start_file_process h file_id chat_id w).
Proof.
  intros Hd.
  assert (Hsend : forall m, nothing_spawned w (try_send h chat_id m w).1)
    by (intros m; repeat split; reflexivity).
  unfold start_file_process, start_file_process_exc.
  destruct (should_stop_due_to_load h w) as [[|] reason]; [left; apply Hsend|].
  destruct (get_file_record file_id w) as [file_record|]; [|left; apply Hsend].
  match goal with
  | |- context [match ?t with inl _ => _ | inr _ => _ end] => destruct t as [m|[target wd]]
  end; [left; apply Hsend|].
  destruct (decide (Str.lower (Path.splitext_ext target) = ".py")).
  - pose proof (install_dependencies_returns h chat_id target wd w Hd) as R.
    destruct (install_dependencies_world h chat_id target wd w) as (o & l & r & E & _).
    rewrite E in R |- *. cbn [snd] in R. subst r. cbn [and_then].
    match goal with
    | |- context [spawn h ?a ?b ?c ?d ?e ?w0] =>
        destruct (spawn_outcome_delivered a b c d e w0 Hd) as [Hn|Hs];
        [left; exact Hn|right; exact Hs]
    end.
  - destruct (decide (Str.lower (Path.splitext_ext target) = ".js")); [|left; apply Hsend].
    apply spawn_outcome_delivered. exact Hd.
Qed.

(** The [finally] block of the monitor. *)
Lemma monitor_process_fields (m : monitor) (waited : Z + string) (w : world) :
  let w' := monitor_process m waited w in
  processes w' = delete (mon_file_id m) (processes w)
  /\ files w' = alter (set_status None Stopped) (mon_file_id m) (files w)
  /\ runs w' = alter (finish_run (now w) (observed_exit_code waited)) (mon_run_id m) (runs w)
  /\ os_procs w' = os_procs w /\ fs w' = fs w /\ signals w' = signals w
  /\ monitors w' = monitors w.
Proof.
  unfold monitor_process, observed_exit_code. cbn zeta.
  destruct (decide (_ = 0)); repeat split; reflexivity.
Qed.

End Monitor.

(** A monitor that runs leaves the Artifact Stopped with no process id,
    the Run closed with the code observed (-1 when [process.wait()] raised)
    and the job table without an entry for the Artifact, in whatever world it
    runs; the other columns of the two rows stay. *)
Lemma monitor_cleans_up (m : monitor) (waited : Z + string) (w_exit : world) :
  let w' := monitor_process m waited w_exit in
  processes w' !! mon_file_id m = None
  /\ (forall r, files w_exit !! mon_file_id m = Some r ->
        exists r', files w' !! mon_file_id m = Some r'
                   /\ file_status r' = Stopped /\ pid r' = None
                   /\ user_id r' = user_id r /\ path r' = path r)
  /\ (forall r, runs w_exit !! mon_run_id m = Some r ->
        exists r', runs w' !! mon_run_id m = Some r'
                   /\ run_exit_code r' = Some (observed_exit_code waited)
                   /\ run_finished_at r' = Some (now w_exit)
                   /\ run_file_id r' = run_file_id r /\ run_pid r' = run_pid r).
Proof.
  destruct (monitor_process_fields m waited w_exit) as (Hp & Hf & Hr & _).
  cbn zeta. rewrite Hp, Hf, Hr. rewrite lookup_delete_eq, !lookup_alter_eq. split_ands.
  - reflexivity.
  - intros r ->. eexists. split; [reflexivity|]. split_ands; reflexivity.
  - intros r ->. eexists. split; [reflexivity|]. split_ands; reflexivity.
Qed.

(** C3 (the code departs from it). A monitor that runs does what the
    claim says, in whatever world it runs and whatever [process.wait()] did:
    the Artifact is Stopped with no process id, the Run closed with the code
    observed (-1 when [wait] raised), the job gone. But not every spawned
    process has a monitor. The monitor thread is started at the end of the
    [try] block of [start_file_process], after the "started" notification. On
    the sample host with a transport that times out on that notification, the
    start of the sample Artifact spawns process 1000, opens Run 1, registers
    the job and sets the Artifact Running, then the handler of the block
    reports "Failed to start process" and no monitor is started. When process
    1000 exits there is no monitor to run: the Artifact stays Running with its
    job and Run 1 stays open. *)
Theorem spawned_without_monitor (m : monitor) (waited : Z + string) (w_any : world) :
  (let w' := monitor_process m waited w_any in
   processes w' !! mon_file_id m = None
   /\ (forall r, files w_any !! mon_file_id m = Some r ->
         exists r', files w' !! mon_file_id m = Some r'
                    /\ file_status r' = Stopped /\ pid r' = None
                    /\ user_id r' = user_id r /\ path r' = path r)
   /\ (forall r, runs w_any !! mon_run_id m = Some r ->
         exists r', runs w' !! mon_run_id m = Some r'
                    /\ run_exit_code r' = Some (observed_exit_code waited)
                    /\ run_finished_at r' = Some (now w_any)
                    /\ run_file_id r' = run_file_id r /\ run_pid r' = run_pid r))
  /\ (let w' := start_file_process Sample.timeout_machine 1 7 Sample.fresh in
      let w_exit := set_exited 1000 0 w' in
      (proc_state_of <$> os_procs w' !! 1000 = Some Alive
       /\ files w' !! 1 = Some (set_status (Some 1000) Running Sample.bot_record)
       /\ runs w' !! 1 = Some (RunRecord 1 500 None 1000 "/data/logs/file_1_500.log" None)
       /\ processes w' !! 1 = Some (LiveJob 1000 1 "/data/logs/file_1_500.log" 500)
       /\ monitors w' = []
       /\ head (outbox w') = Some (7, MsgFailedToStart "Read timed out"))
      /\ (proc_state_of <$> os_procs w_exit !! 1000 = Some (Exited 0)
          /\ monitors w_exit = []
          /\ file_status <$> files w_exit !! 1 = Some Running
          /\ pid <$> files w_exit !! 1 = Some (Some 1000)
          /\ run_exit_code <$> runs w_exit !! 1 = Some None
          /\ is_Some (processes w_exit !! 1))).
Proof.
  split; [apply monitor_cleans_up|].
  cbv zeta. split_ands; try (vm_compute; reflexivity).
  apply (bool_decide_unpack _). vm_compute. exact I.
Qed.

(** The sample script exits at once with code 0: the monitor leaves the
    Artifact Stopped and the Run closed with code 0, and says nothing. If
    [wait] raises instead, the Run is closed with -1 and the Artifact is
    Stopped all the same. *)
Example monitor_on_exit_zero :
  let m := Monitor 1 1 1000 7 "bot.py" in
  monitors Sample.running = [m]
  /\ (let w' := monitor_process m (inl 0) Sample.running in
      file_status <$> files w' !! 1 = Some Stopped
      /\ pid <$> files w' !! 1 = Some None
      /\ run_exit_code <$> runs w' !! 1 = Some (Some 0)
      /\ processes w' !! 1 = None
      /\ outbox w' = outbox Sample.running)
  /\ (let w' := monitor_process m (inr "interrupted") Sample.running in
      file_status <$> files w' !! 1 = Some Stopped
      /\ run_exit_code <$> runs w' !! 1 = Some (Some (-1))
      /\ processes w' !! 1 = None).
Proof. cbv zeta. split_ands; vm_compute; reflexivity. Qed.

(** ** Stop *)

Section Stop.

Context (h : host).

Lemma with_files_same (w : world) : with_files (files w) w = w.
Proof. destruct w; reflexivity. Qed.

(** Writing Stopped over an Artifact that is Stopped and has no process
    id, or over no Artifact at all, writes nothing. *)
Lemma update_stopped_same (file_id : Z) (w : world) :
  (forall r, files w !! file_id = Some r -> file_status r = Stopped /\ pid r = None) ->
  update_file_status file_id None Stopped w = w.
Proof.
  intros Hr. unfold update_file_status.
  rewrite alter_id; [apply with_files_same|].
  intros r Hl. destruct (Hr r Hl) as [Hs Hp]. destruct r; cbn in *. subst. reflexivity.
Qed.


Lemma stop_without_job (file_id : Z) (w : world) :
  processes w !! file_id = None ->
  stop_file_process h file_id w = (update_file_status file_id None Stopped w, false).
Proof. intros Hn. unfold stop_file_process. rewrite Hn. reflexivity. Qed.



(** A live job whose process is alive and can be signalled. *)
Lemma stop_live (file_id : Z) (w : world) (job : live_job) :
  processes w !! file_id = Some job ->
  poll_is_none (process job) w = true ->
  terminate_raises h (process job) = false ->
  let p := process job in
  let in_time := exits_within p 5 w in
  let w1 := (stop_file_process h file_id w).1 in
  (stop_file_process h file_id w).2 = true
  /\ signals w1
     = (if in_time then [(p, SIGTERM)] else [(p, SIGKILL); (p, SIGTERM)]) ++ signals w
  /\ proc_state_of <$> os_procs w1 !! p = Some (Exited (if in_time then -15 else -9)).
Proof.
  intros Hj Hp Ht. unfold stop_file_process. rewrite Hj, Hp, Ht.
  assert (Hex : exits_within (process job) 5
                  (with_signals ((process job, SIGTERM) :: signals w) w)
                = exits_within (process job) 5 w) by reflexivity.
  rewrite Hex. cbn zeta.
  unfold poll_is_none in Hp.
  destruct (os_procs w !! process job) as [pr|] eqn:Hpr; [|discriminate].
  destruct (exits_within (process job) 5 w); cbn;
    rewrite lookup_alter_eq, Hpr; repeat split; reflexivity.
Qed.

End Stop.

(** *** Stopped Artifacts are idle, from one step to the next *)

Section Idle.

Context (h : host).

Lemma stop_fields (file_id : Z) (w : world) :
  files (stop_file_process h file_id w).1 = alter (set_status None Stopped) file_id (files w)
  /\ processes (stop_file_process h file_id w).1 = delete file_id (processes w).
Proof.
  unfold stop_file_process.
  destruct (processes w !! file_id) as [job|] eqn:Hj.
  - destruct (poll_is_none (process job) w);
      [destruct (terminate_raises h (process job));
       [|destruct (exits_within (process job) 5 _)]|];
      split; reflexivity.
  - split; [reflexivity|]. cbn. symmetry. apply delete_id. exact Hj.
Qed.

(** Writing Stopped on one Artifact and dropping its job keeps the others
    as they were. *)
Lemma idle_after_cleanup (file_id : Z) (w w' : world) :
  files w' = alter (set_status None Stopped) file_id (files w) ->
  processes w' = delete file_id (processes w) ->
  stopped_is_idle w -> stopped_is_idle w'.
Proof.
  intros Hf Hp Hw id r. rewrite Hf, Hp.
  destruct (decide (id = file_id)) as [->|Hne].
  - rewrite lookup_alter_eq, lookup_delete_eq.
    destruct (files w !! file_id); cbn; [|discriminate].
    intros [= <-] _. split; reflexivity.
  - rewrite lookup_alter_ne, lookup_delete_ne by congruence. apply Hw.
Qed.

Lemma stop_keeps_idle (file_id : Z) (w : world) :
  stopped_is_idle w -> stopped_is_idle (stop_file_process h file_id w).1.
Proof.
  destruct (stop_fields file_id w) as [Hf Hp]. exact (idle_after_cleanup file_id w _ Hf Hp).
Qed.

Lemma monitor_keeps_idle (m : monitor) (waited : Z + string) (w : world) :
  stopped_is_idle w -> stopped_is_idle (monitor_process m waited w).
Proof.
  destruct (monitor_process_fields m waited w) as (Hp & Hf & _).
  exact (idle_after_cleanup (mon_file_id m) w _ Hf Hp).
Qed.

Lemma start_keeps_idle (file_id chat_id : Z) (w : world) :
  stopped_is_idle w -> stopped_is_idle (start_file_process h file_id chat_id w).
Proof.
  intros Hw id r.
  destruct (start_outcome h file_id chat_id w) as [Hn|Hs].
  - destruct Hn as (_ & _ & _ & _ & _ & Hp & Hf). rewrite Hf, Hp. apply Hw.
  - destruct Hs as (name & cmd & wd & log & _ & _ & _ & _ & _ & Hp & Hf).
    rewrite Hf, Hp. destruct (decide (id = file_id)) as [->|Hne].
    + rewrite lookup_alter_eq. destruct (files w !! file_id); cbn; [|discriminate].
      intros [= <-]. cbn. discriminate.
    + rewrite lookup_alter_ne, lookup_insert_ne by congruence. apply Hw.
Qed.


End Idle.



(** ** Logs *)

(** With a positive count, Python's [content[-lines:]] is the last [lines]
    lines. *)
Lemma slice_from_last {A : Type} (n : Z) (l : list A) :
  0 < n -> slice_from (- n) l = drop (length l - Z.to_nat n) l.
Proof.
  intros Hn. unfold slice_from.
  destruct (- n <? 0) eqn:E; [|apply Z.ltb_ge in E; lia].
  f_equal. lia.
Qed.

(** With a count of zero it is the whole text. *)
Lemma slice_from_zero {A : Type} (l : list A) : slice_from (- 0) l = l.
Proof. unfold slice_from. cbn. rewrite Z.min_l by lia. reflexivity. Qed.

(** The row the query picks among a list of rows. *)
Lemma latest_in_list (file_id : Z) (l : list (Z * run_record)) :
  match foldr (fun e best =>
                 if decide (run_file_id e.2 = file_id) then
                   match best with
                   | Some b => if run_started_at b <? run_started_at e.2 then Some e.2 else Some b
                   | None => Some e.2
                   end
                 else best) None l with
  | Some row =>
      (exists k, (k, row) ∈ l) /\ run_file_id row = file_id
      /\ forall k r, (k, r) ∈ l -> run_file_id r = file_id ->
                     run_started_at r <= run_started_at row
  | None => forall k r, (k, r) ∈ l -> run_file_id r <> file_id
  end.
Proof.
  induction l as [|[k0 r0] rest IH]; cbn [foldr].
  - intros k r Hin. apply elem_of_nil in Hin. contradiction.
  - cbn [snd]. destruct (decide (run_file_id r0 = file_id)) as [E0|N0].
    + destruct (foldr _ None rest) as [b|].
      * destruct IH as ((kb & Hb) & Eb & Hmax).
        destruct (run_started_at b <? run_started_at r0) eqn:Hlt.
        -- apply Z.ltb_lt in Hlt. split_ands.
           ++ exists k0. apply elem_of_cons. left. reflexivity.
           ++ exact E0.
           ++ intros k r Hin Hr. apply elem_of_cons in Hin as [[= -> ->]|Hin]; [lia|].
              specialize (Hmax k r Hin Hr). lia.
        -- apply Z.ltb_ge in Hlt. split_ands.
           ++ exists kb. apply elem_of_cons. right. exact Hb.
           ++ exact Eb.
           ++ intros k r Hin Hr. apply elem_of_cons in Hin as [[= -> ->]|Hin]; [lia|].
              exact (Hmax k r Hin Hr).
      * split_ands.
        -- exists k0. apply elem_of_cons. left. reflexivity.
        -- exact E0.
        -- intros k r Hin Hr. apply elem_of_cons in Hin as [[= -> ->]|Hin]; [lia|].
           exfalso. exact (IH k r Hin Hr).
    + destruct (foldr _ None rest) as [b|].
      * destruct IH as ((kb & Hb) & Eb & Hmax). split_ands.
        -- exists kb. apply elem_of_cons. right. exact Hb.
        -- exact Eb.
        -- intros k r Hin Hr. apply elem_of_cons in Hin as [[= -> ->]|Hin]; [congruence|].
           exact (Hmax k r Hin Hr).
      * intros k r Hin. apply elem_of_cons in Hin as [[= -> ->]|Hin]; [exact N0|].
        exact (IH k r Hin).
Qed.

(** [latest_run] picks a Run of the Artifact started no earlier than any
    other, and none only when the Artifact has no Run. *)
Lemma latest_run_spec (file_id : Z) (rs : gmap Z run_record) :
  match latest_run file_id rs with
  | Some row =>
      (exists k, rs !! k = Some row) /\ run_file_id row = file_id
      /\ forall k r, rs !! k = Some r -> run_file_id r = file_id ->
                     run_started_at r <= run_started_at row
  | None => forall k r, rs !! k = Some r -> run_file_id r <> file_id
  end.
Proof.
  unfold latest_run. pose proof (latest_in_list file_id (map_to_list rs)) as H.
  destruct (foldr _ None (map_to_list rs)) as [row|].
  - destruct H as ((k & Hk) & E & Hmax). split_ands.
    + exists k. apply elem_of_map_to_list. exact Hk.
    + exact E.
    + intros k' r Hl. apply Hmax with k'. apply elem_of_map_to_list. exact Hl.
  - intros k r Hl. apply H with k. apply elem_of_map_to_list. exact Hl.
Qed.

Lemma read_tail_slice (empty_text : string) (n : Z) (p : string) (w : world) :
  0 < n ->
  match Fs.readlines p (fs w) with
  | inl [] => empty_text
  | inl content => concat_lines (slice_from (- n) content)
  | inr e => "Error reading logs: " +:+ e
  end = read_tail empty_text n p w.
Proof.
  intros Hn. unfold read_tail, last_lines.
  destruct (Fs.readlines p (fs w)) as [[|line rest]|e]; try reflexivity.
  rewrite slice_from_last by exact Hn. reflexivity.
Qed.

(** C10. [get_file_logs] is a function to strings: every way through it
    ends in a text. For a positive line count: with a live job whose log file
    is on disk, the text is the last lines of that file ("No logs yet" when
    it is empty); otherwise the Run of the Artifact that started last is
    looked up, and when it names a log file that is on disk the text is the
    last lines of that file ("No logs found" when it is empty); when there is
    no such Run or no such file the text is "No log file found"; and a file
    that cannot be read gives "Error reading logs: " and the reason. *)
Theorem get_file_logs_never_raises (file_id lines : Z) (w : world) :
  0 < lines ->
  (forall job, processes w !! file_id = Some job ->
     Fs.exists_ (log_path job) (fs w) = true ->
     get_file_logs file_id lines w = read_tail "No logs yet" lines (log_path job) w)
  /\ ((processes w !! file_id = None
       \/ exists job, processes w !! file_id = Some job
                      /\ Fs.exists_ (log_path job) (fs w) = false) ->
      match latest_run file_id (runs w) with
      | Some row =>
          ((exists k, runs w !! k = Some row) /\ run_file_id row = file_id
           /\ forall k r, runs w !! k = Some r -> run_file_id r = file_id ->
                          run_started_at r <= run_started_at row)
          /\ get_file_logs file_id lines w
             = if negb (Str.is_empty (run_log_path row))
                  && Fs.exists_ (run_log_path row) (fs w)
               then read_tail "No logs found" lines (run_log_path row) w
               else "No log file found"
      | None =>
          (forall k r, runs w !! k = Some r -> run_file_id r <> file_id)
          /\ get_file_logs file_id lines w = "No log file found"
      end).
Proof.
  intros Hn. split.
  - intros job Hj He. unfold get_file_logs. rewrite Hj, He.
    apply read_tail_slice. exact Hn.
  - intros Hsrc.
    assert (Hg : get_file_logs file_id lines w
                 = match latest_run file_id (runs w) with
                   | Some row =>
                       if negb (Str.is_empty (run_log_path row))
                          && Fs.exists_ (run_log_path row) (fs w)
                       then read_tail "No logs found" lines (run_log_path row) w
                       else "No log file found"
                   | None => "No log file found"
                   end).
    { unfold get_file_logs.
      destruct Hsrc as [Hnone|(job & Hj & He)].
      - rewrite Hnone.
        destruct (latest_run file_id (runs w)) as [row|]; [|reflexivity].
        rewrite (read_tail_slice "No logs found" lines) by exact Hn. reflexivity.
      - rewrite Hj, He.
        destruct (latest_run file_id (runs w)) as [row|]; [|reflexivity].
        rewrite (read_tail_slice "No logs found" lines) by exact Hn. reflexivity. }
    pose proof (latest_run_spec file_id (runs w)) as Hl.
    destruct (latest_run file_id (runs w)) as [row|]; split; assumption.
Qed.

(** The running sample has written three lines: its last two are returned,
    from the live job's log while it runs and from its Run once the monitor
    has closed it. *)
Lemma get_file_logs_never_raises_witness :
  get_file_logs 1 2 Sample.logged = "hello
polling
"
  /\ get_file_logs 1 2 (monitor_process (Monitor 1 1 1000 7 "bot.py") (inl 0) Sample.logged)
     = "hello
polling
".
Proof.
  split.
  - destruct (get_file_logs_never_raises 1 2 Sample.logged) as [Hlive _]; [lia|].
    rewrite (Hlive (LiveJob 1000 1 "/data/logs/file_1_500.log" 500));
      vm_compute; reflexivity.
  - destruct (get_file_logs_never_raises 1 2
                (monitor_process (Monitor 1 1 1000 7 "bot.py") (inl 0) Sample.logged))
      as [_ Hrun]; [lia|].
    specialize (Hrun (or_introl eq_refl)).
    destruct (latest_run 1 (runs (monitor_process (Monitor 1 1 1000 7 "bot.py") (inl 0)
                                                  Sample.logged))) as [row|] eqn:E;
      vm_compute in E; [|discriminate].
    injection E as <-. destruct Hrun as [_ ->]. vm_compute. reflexivity.
Defined.

(** A count of zero asks Python for [content[-0:]], which is the whole
    text; a log that cannot be read, or is gone, gives a text as well. *)
Example get_file_logs_edges :
  let denied := "[Errno 13] Permission denied: '/data/logs/file_1_500.log'" in
  get_file_logs 1 0 Sample.logged = "starting
hello
polling
"
  /\ get_file_logs 1 50 Sample.running = "No logs yet"
  /\ get_file_logs 1 50 Sample.fresh = "No log file found"
  /\ get_file_logs 1 50 (with_fs [] Sample.running) = "No log file found"
  /\ get_file_logs 1 50
       (with_fs [ ("data", Dir [ ("logs", Dir [ ("file_1_500.log",
                                                 File (FileData (Some denied) [] None)) ]) ]) ]
                Sample.running)
     = "Error reading logs: " +:+ denied.
Proof. cbv zeta. split_ands; vm_compute; reflexivity. Qed.

(** ** Callbacks and the caller *)

Section Callbacks.

Context (h : host).

(** The two views send one message and do nothing else. *)
Lemma show_file_management_sends (chat_id file_id uid : Z) (w : world) :
  exists m, show_file_management chat_id file_id uid w = send_message chat_id m w.
Proof.
  unfold show_file_management.
  destruct (get_file_record file_id w) as [r|]; [|eexists; reflexivity].
  destruct (decide (user_id r <> uid)); eexists; reflexivity.
Qed.

Lemma send_files_list_sends (chat_id uid : Z) (w : world) :
  exists m, send_files_list chat_id uid w = send_message chat_id m w.
Proof. unfold send_files_list. eexists. reflexivity. Qed.

(** The view turns away whoever is not the owner. *)
Lemma show_file_management_denies (chat_id file_id uid : Z) (w : world) (r : file_record) :
  files w !! file_id = Some r -> user_id r <> uid ->
  show_file_management chat_id file_id uid w = send_message chat_id MsgAccessDenied w.
Proof.
  intros Hr Hu. unfold show_file_management, get_file_record. rewrite Hr.
  destruct (decide (user_id r <> uid)); [reflexivity|contradiction].
Qed.

(** A branch of the dispatcher ends in a world the caller has no part in,
    followed at most by one view, the only step that is handed the caller. *)
Lemma control_split (data : string) (file_id chat_id : Z) (w : world) :
  exists w0,
    (forall uid, control h data file_id chat_id uid w = w0)
    \/ (forall uid, exists m, control h data file_id chat_id uid w = send_message chat_id m w0).
Proof.
  unfold control.
  destruct (Str.startswith data "manage:").
  { exists w. right. intros uid. apply show_file_management_sends. }
  destruct (Str.startswith data "start:").
  { destruct (start_file_process_exc h file_id chat_id _) as [w1 [e|]].
    - eexists. left. intros uid. reflexivity.
    - eexists. right. intros uid. apply show_file_management_sends. }
  destruct (Str.startswith data "stop:").
  { eexists. right. intros uid. apply show_file_management_sends. }
  destruct (Str.startswith data "restart:").
  { destruct (start_file_process_exc h file_id chat_id _) as [w1 [e|]].
    - eexists. left. intros uid. reflexivity.
    - eexists. right. intros uid. apply show_file_management_sends. }
  destruct (Str.startswith data "delete:").
  { eexists. right. intros uid. apply send_files_list_sends. }
  destruct (Str.startswith data "logs:").
  { eexists. left. intros uid. reflexivity. }
  exists w. left. intros uid. reflexivity.
Qed.

Lemma callback_handler_split (data : string) (chat_id : Z) (w : world) :
  exists w0,
    (forall uid, callback_handler h data chat_id uid w = w0)
    \/ (forall uid, exists m,
          callback_handler h data chat_id uid w = send_message chat_id m w0).
Proof.
  unfold callback_handler.
  destruct (decide (data = "back_to_files")).
  { exists w. right. intros uid. apply send_files_list_sends. }
  destruct (is_control data); [|exists w; left; reflexivity].
  destruct (callback_file_id data) as [file_id|]; [|eexists; left; reflexivity].
  apply control_split.
Qed.

(** A piece of data that opens with one key opens with no other. *)
Lemma startswith_head (data : string) (c : ascii) (key : string) :
  Str.startswith data (String c key) = true -> exists rest, data = String c rest.
Proof.
  destruct data as [|d rest]; cbn; [discriminate|].
  destruct (ascii_dec c d) as [->|]; [|discriminate]. intros _. exists rest. reflexivity.
Qed.

Lemma startswith_empty (data : string) : Str.startswith data "" = true.
Proof. destruct data; reflexivity. Qed.

(** Spell out the data as far as the key it opens with reaches. *)
Ltac peel_key Hk :=
  repeat match type of Hk with
         | Str.startswith ?d (String _ _) = true =>
             let rest := fresh "rest" in
             destruct (startswith_head d _ _ Hk) as [rest ->]; cbn in Hk
         end.

Lemma dispatch_to_control (data key : string) (file_id chat_id uid : Z) (w : world) :
  key ∈ ["manage:"; "start:"; "stop:"; "restart:"; "delete:"; "logs:"] ->
  Str.startswith data key = true -> callback_file_id data = Some file_id ->
  callback_handler h data chat_id uid w = control h data file_id chat_id uid w.
Proof.
  intros Hkey Hk Hid. unfold callback_handler.
  destruct (decide (data = "back_to_files")) as [->|].
  { exfalso. repeat (apply elem_of_cons in Hkey as [->|Hkey]; [discriminate|]).
    apply elem_of_nil in Hkey. exact Hkey. }
  assert (Hc : is_control data = true).
  { unfold is_control. apply existsb_exists. exists key. split; [|exact Hk].
    apply list_elem_of_In. exact Hkey. }
  rewrite Hc, Hid. reflexivity.
Qed.

(** Deleting: the Artifact's record and its job are gone, whoever asks. *)
Lemma delete_branch (data : string) (file_id chat_id uid : Z) (w : world) (r : file_record) :
  files w !! file_id = Some r ->
  Str.startswith data "delete:" = true -> callback_file_id data = Some file_id ->
  files (callback_handler h data chat_id uid w) !! file_id = None
  /\ processes (callback_handler h data chat_id uid w) !! file_id = None.
Proof.
  intros Hr Hk Hid.
  rewrite (dispatch_to_control data "delete:" file_id chat_id uid w) by
    (try assumption; repeat constructor).
  unfold control. rewrite Hk.
  destruct (startswith_head data _ _ Hk) as [rest ->]. cbn -[stop_file_process].
  unfold get_file_record. cbn -[stop_file_process]. rewrite Hr.
  assert (Hp : processes (stop_file_process h file_id
                            (send_message chat_id (MsgAnswer "Deleting...") w)).1
               !! file_id = None).
  { rewrite (proj2 (stop_fields h file_id _)). apply lookup_delete_eq. }
  destruct (Fs.isdir (path r) _ || Fs.exists_ (path r) _); cbn -[stop_file_process];
    rewrite lookup_delete_eq; split; [reflexivity|exact Hp|reflexivity|exact Hp].
Qed.

(** Stopping: the job is gone and the Artifact is Stopped, whoever asks. *)
Lemma stop_branch (data : string) (file_id chat_id uid : Z) (w : world) (r : file_record) :
  files w !! file_id = Some r ->
  Str.startswith data "stop:" = true -> callback_file_id data = Some file_id ->
  processes (callback_handler h data chat_id uid w) !! file_id = None
  /\ files (callback_handler h data chat_id uid w) !! file_id
     = Some (set_status None Stopped r).
Proof.
  intros Hr Hk Hid.
  rewrite (dispatch_to_control data "stop:" file_id chat_id uid w) by
    (try assumption; repeat constructor).
  unfold control. clear Hid. peel_key Hk. cbn -[stop_file_process].
  rewrite startswith_empty.
  match goal with
  | |- context [show_file_management ?c ?i ?u ?w0] =>
      destruct (show_file_management_sends c i u w0) as [m ->]
  end.
  destruct (stop_fields h file_id (send_message chat_id (MsgAnswer "Stopping...") w))
    as [Hf Hp].
  cbn -[stop_file_process]. rewrite Hf, Hp, lookup_delete_eq, lookup_alter_eq.
  cbn. rewrite Hr. split; reflexivity.
Qed.

(** Reading logs: the caller is not looked at. *)
Lemma logs_branch (data : string) (chat_id u1 u2 : Z) (w : world) :
  Str.startswith data "logs:" = true ->
  callback_handler h data chat_id u1 w = callback_handler h data chat_id u2 w.
Proof.
  intros Hk. destruct (startswith_head data _ _ Hk) as [rest ->].
  unfold callback_handler.
  destruct (decide (_ = "back_to_files")); [discriminate|].
  destruct (is_control _); [|reflexivity].
  destruct (callback_file_id _) as [file_id|]; [|reflexivity].
  unfold control. cbn [Str.startswith]. cbn. reflexivity.
Qed.

End Callbacks.

(** C4. Whatever the callback data, two callers leave the same world behind
    but for the last message sent (the management view or the file list, the
    only steps that are handed the caller's id): the tables, the job table,
    the disk, the processes, the signals and every earlier message are the
    same. Reading logs does not look at the caller at all. The management
    view alone compares the caller with the owner, and denies access to
    anyone else; so for someone who is not the owner a stop still stops the
    Artifact and a delete still removes it. *)
Theorem control_ignores_caller (h : host) (data : string) (chat_id u1 u2 file_id : Z)
        (w : world) :
  let w1 := callback_handler h data chat_id u1 w in
  let w2 := callback_handler h data chat_id u2 w in
  agree_but_outbox w1 w2
  /\ tail (outbox w1) = tail (outbox w2)
  /\ (Str.startswith data "logs:" = true -> w1 = w2)
  /\ (forall r, files w !! file_id = Some r -> user_id r <> u2 ->
        show_file_management chat_id file_id u2 w = send_message chat_id MsgAccessDenied w
        /\ (Str.startswith data "stop:" = true -> callback_file_id data = Some file_id ->
            processes w2 !! file_id = None
            /\ files w2 !! file_id = Some (set_status None Stopped r))
        /\ (Str.startswith data "delete:" = true -> callback_file_id data = Some file_id ->
            files w2 !! file_id = None /\ processes w2 !! file_id = None)).
Proof.
  cbn zeta. split_ands.
  - destruct (callback_handler_split h data chat_id w) as [w0 [H|H]].
    + rewrite (H u1), (H u2). reflexivity.
    + destruct (H u1) as [m1 ->]. destruct (H u2) as [m2 ->]. reflexivity.
  - destruct (callback_handler_split h data chat_id w) as [w0 [H|H]].
    + rewrite (H u1), (H u2). reflexivity.
    + destruct (H u1) as [m1 ->]. destruct (H u2) as [m2 ->]. reflexivity.
  - apply logs_branch.
  - intros r Hr Hu. split_ands.
    + exact (show_file_management_denies chat_id file_id u2 w r Hr Hu).
    + intros Hk Hid. exact (stop_branch h data file_id chat_id u2 w r Hr Hk Hid).
    + intros Hk Hid. exact (delete_branch h data file_id chat_id u2 w r Hr Hk Hid).
Qed.

(** Tenant 8 stops, deletes and reads the logs of the Artifact of tenant 7;
    the one thing tenant 8 is refused is the management view. *)
Lemma control_ignores_caller_witness :
  user_id <$> files Sample.logged !! 1 = Some 7
  /\ show_file_management 8 1 8 Sample.logged = send_message 8 MsgAccessDenied Sample.logged
  /\ processes (callback_handler Sample.machine "stop:1" 8 8 Sample.logged) !! 1 = None
  /\ files (callback_handler Sample.machine "delete:1" 8 8 Sample.logged) !! 1 = None
  /\ callback_handler Sample.machine "logs:1" 8 8 Sample.logged
     = callback_handler Sample.machine "logs:1" 8 7 Sample.logged
  /\ head (outbox (callback_handler Sample.machine "logs:1" 8 8 Sample.logged))
     = Some (8, MsgLogs "bot.py" "starting
hello
polling
").
Proof.
  assert (Hr : files Sample.logged !! 1 = Some (set_status (Some 1000) Running Sample.bot_record))
    by (vm_compute; reflexivity).
  assert (Hu : user_id (set_status (Some 1000) Running Sample.bot_record) <> 8)
    by (vm_compute; discriminate).
  split_ands.
  - vm_compute; reflexivity.
  - destruct (control_ignores_caller Sample.machine "stop:1" 8 7 8 1 Sample.logged)
      as (_ & _ & _ & H). exact (proj1 (H _ Hr Hu)).
  - destruct (control_ignores_caller Sample.machine "stop:1" 8 7 8 1 Sample.logged)
      as (_ & _ & _ & H). destruct (H _ Hr Hu) as (_ & Hs & _).
    exact (proj1 (Hs eq_refl eq_refl)).
  - destruct (control_ignores_caller Sample.machine "delete:1" 8 7 8 1 Sample.logged)
      as (_ & _ & _ & H). destruct (H _ Hr Hu) as (_ & _ & Hd).
    exact (proj1 (Hd eq_refl eq_refl)).
  - destruct (control_ignores_caller Sample.machine "logs:1" 8 8 7 1 Sample.logged)
      as (_ & _ & Hl & _). exact (Hl eq_refl).
  - vm_compute; reflexivity.
Defined.


(** ** Entry-point resolution *)

Section FirstMatch.

Context {A B : Type} (f : A -> option B).



(** Whatever the loop returns, some element gave it. *)
Lemma first_some_from (l : list A) (y : B) :
  first_some f l = Some y -> exists x, x ∈ l /\ f x = Some y.
Proof.
  induction l as [|a l IH]; cbn; [discriminate|].
  destruct (f a) eqn:E.
  - intros [= <-]. exists a. split; [apply elem_of_cons; left; reflexivity|exact E].
  - intros H. destruct (IH H) as (x & Hin & Hx). exists x.
    split; [apply elem_of_cons; right; exact Hin|exact Hx].
Qed.

End FirstMatch.

Section Resolver.

Context (directory : string) (root : list (string * node)).

Lemma find_main_file_loops :
  find_main_file directory root
  = match first_some (at_root directory root) priority_files with
    | Some file_path => Some file_path
    | None =>
        match first_some priority_of (Fs.walk directory root) with
        | Some file_path => Some file_path
        | None => first_some fallback_of (Fs.walk directory root)
        end
    end.
Proof.
  unfold find_main_file.
  assert (Hp : forall l, first_some (fun '(top, _, files) =>
                            first_some (fun file_name =>
                                          if bool_decide (file_name ∈ files)
                                          then Some (Path.join top file_name) else None)
                                       priority_files) l
                         = first_some priority_of l).
  { induction l as [|[[top dirs] files] l IH]; [reflexivity|].
    cbn [first_some]. rewrite IH. reflexivity. }
  assert (Hf : forall l, first_some (fun '(top, _, files) =>
                            first_some (fun file =>
                                          if Str.endswith file ".py" || Str.endswith file ".js"
                                          then Some (Path.join top file) else None)
                                       files) l
                         = first_some fallback_of l).
  { induction l as [|[[top dirs] files] l IH]; [reflexivity|].
    cbn [first_some]. rewrite IH. reflexivity. }
  rewrite Hp, Hf. reflexivity.
Qed.




(** Every priority name carries a supported extension. *)
Lemma priority_supported (name : string) :
  name ∈ priority_files -> supported_source name = true.
Proof.
  intros Hin. unfold priority_files in Hin.
  repeat (apply elem_of_cons in Hin as [->|Hin]; [reflexivity|]).
  apply elem_of_nil in Hin. contradiction.
Qed.

End Resolver.





(** ** Import detection *)

Lemma occurs_in_nil (s : stmt) : ~ occurs_in s [].
Proof.
  intros H. inversion H as [l Hin|body l Hin _]; apply elem_of_nil in Hin; exact Hin.
Qed.

Lemma occurs_in_cons (s n : stmt) (l : list stmt) :
  occurs_in s (n :: l) <-> s = n \/ occurs_in s (child_nodes n) \/ occurs_in s l.
Proof.
  split.
  - intros H. inversion H as [l' Hin|body l' Hin Hb]; subst.
    + apply elem_of_cons in Hin as [->|Hin]; [left; reflexivity|].
      right. right. apply occurs_here. exact Hin.
    + apply elem_of_cons in Hin as [<-|Hin]; [right; left; exact Hb|].
      right. right. apply occurs_below with body; assumption.
  - intros [->|[H|H]].
    + apply occurs_here. apply elem_of_cons. left. reflexivity.
    + destruct n as [names|m level|body|]; cbn in H; try (exfalso; exact (occurs_in_nil s H)).
      apply occurs_below with body; [apply elem_of_cons; left; reflexivity|exact H].
    + inversion H as [l' Hin|body l' Hin Hb]; subst.
      * apply occurs_here. apply elem_of_cons. right. exact Hin.
      * apply occurs_below with body; [apply elem_of_cons; right; exact Hin|exact Hb].
Qed.

Lemma occurs_in_app (s : stmt) (l1 l2 : list stmt) :
  occurs_in s (l1 ++ l2) <-> occurs_in s l1 \/ occurs_in s l2.
Proof.
  induction l1 as [|n l1 IH]; cbn [app].
  - split; [intros H; right; exact H|]. intros [H|H]; [destruct (occurs_in_nil s H)|exact H].
  - rewrite !occurs_in_cons, IH. tauto.
Qed.

Lemma stmt_size_pos (s : stmt) : (1 <= stmt_size s)%nat.
Proof. destruct s; cbn; lia. Qed.

Lemma stmt_size_children (s : stmt) :
  stmt_size s = S (list_sum (map stmt_size (child_nodes s))).
Proof. destruct s; reflexivity. Qed.

(** With fuel for every node, the breadth-first walk meets exactly the
    statements that stand in the tree. *)
Lemma ast_walk_complete (fuel : nat) (todo : list stmt) (s : stmt) :
  (list_sum (map stmt_size todo) <= fuel)%nat ->
  s ∈ ast_walk fuel todo <-> occurs_in s todo.
Proof.
  revert todo. induction fuel as [|fuel IH]; intros todo Hfuel.
  - destruct todo as [|n rest].
    + cbn. split; [intros H; apply elem_of_nil in H; contradiction|].
      intros H. destruct (occurs_in_nil s H).
    + change (list_sum (map stmt_size (n :: rest)))
        with (stmt_size n + list_sum (map stmt_size rest))%nat in Hfuel.
      pose proof (stmt_size_pos n). lia.
  - destruct todo as [|n rest]; cbn [ast_walk].
    + split; [intros H; apply elem_of_nil in H; contradiction|].
      intros H. destruct (occurs_in_nil s H).
    + rewrite elem_of_cons, occurs_in_cons, IH, occurs_in_app; [tauto|].
      change (list_sum (map stmt_size (n :: rest)))
        with (stmt_size n + list_sum (map stmt_size rest))%nat in Hfuel.
      rewrite (stmt_size_children n) in Hfuel.
      rewrite map_app, list_sum_app. lia.
Qed.

Lemma visit_import (names : list string) (acc : gset string) (x : string) :
  x ∈ foldl (fun acc name => {[ Str.split_head "."%char name ]} ∪ acc) acc names
  <-> x ∈ acc \/ x ∈ map (Str.split_head "."%char) names.
Proof.
  revert acc. induction names as [|name names IH]; intros acc; cbn [foldl map].
  - rewrite elem_of_nil. tauto.
  - rewrite IH, elem_of_union, elem_of_singleton, elem_of_cons. tauto.
Qed.

Lemma visit_spec (acc : gset string) (s : stmt) (x : string) :
  x ∈ visit acc s <-> x ∈ acc \/ x ∈ import_roots s.
Proof.
  destruct s as [names|[m|] [|level]|body|]; cbn [visit import_roots];
    try (rewrite elem_of_nil; tauto).
  - apply visit_import.
  - destruct (Str.is_empty m); [rewrite elem_of_nil; tauto|].
    rewrite elem_of_union, elem_of_singleton, list_elem_of_singleton. tauto.
Qed.

Lemma visit_all (nodes : list stmt) (acc : gset string) (x : string) :
  x ∈ foldl visit acc nodes <-> x ∈ acc \/ exists s, s ∈ nodes /\ x ∈ import_roots s.
Proof.
  revert acc. induction nodes as [|n nodes IH]; intros acc; cbn [foldl].
  - split; [intros H; left; exact H|].
    intros [H|(s & Hin & _)]; [exact H|apply elem_of_nil in Hin; contradiction].
  - rewrite IH, visit_spec. split.
    + intros [[H|H]|(s & Hin & Hx)].
      * left. exact H.
      * right. exists n. split; [apply elem_of_cons; left; reflexivity|exact H].
      * right. exists s. split; [apply elem_of_cons; right; exact Hin|exact Hx].
    + intros [H|(s & Hin & Hx)]; [left; left; exact H|].
      apply elem_of_cons in Hin as [->|Hin]; [left; right; exact Hx|].
      right. exists s. split; assumption.
Qed.

Lemma extract_imports_parsed (file_path : string) (root : list (string * node)) :
  extract_imports file_path root
  = match parsed_tree file_path root with
    | Some tree => foldl visit ∅ (ast_walk (list_sum (map stmt_size tree)) tree)
    | None => ∅
    end.
Proof.
  unfold extract_imports, parsed_tree.
  destruct (Fs.find file_path root) as [[d|es]|]; try reflexivity.
  destruct (read_error d); [reflexivity|]. destruct (syntax d); reflexivity.
Qed.

Lemma alias_outside_table (module : string) :
  module ∉ ["telebot"; "PIL"; "cv2"; "Crypto"; "bs4"] ->
  default module (pip_name_map !! module) = module.
Proof.
  intros Hnot. unfold pip_name_map.
  rewrite (not_elem_of_list_to_map_1 _ module); [reflexivity|exact Hnot].
Qed.

(** C6 (as amended). When the file can be read and parsed, the names
    collected are exactly the root module names of the [import] statements
    and of the [from ... import] statements of level 0 that stand anywhere in
    the file, inside compound statements as well as at module level; a file
    that cannot be read or parsed gives the empty set. Each collected name
    that cannot be imported is given to pip once, with the 120 second timeout
    of a manifest entry, under the name the alias table gives it ([telebot]
    as [pyTelegramBotAPI], [PIL] as [Pillow], [cv2] as [opencv-python],
    [Crypto] as [pycryptodome], [bs4] as [beautifulsoup4]) and under its own
    name when the table has none; the runs come in the order in which the set
    yields its elements, which holds each of them once. *)
Theorem extract_imports_any_depth (h : host) (file_path : string)
        (root : list (string * node)) (imports : gset string) (w : world) :
  (forall tree, parsed_tree file_path root = Some tree ->
     forall x, x ∈ extract_imports file_path root
               <-> exists s, occurs_in s tree /\ x ∈ import_roots s)
  /\ (parsed_tree file_path root = None -> extract_imports file_path root = ∅)
  /\ (install_missing_imports h imports w).1
     = with_pip_log (pip_runs (missing_packages h imports) ++ pip_log w) w
  /\ (forall module,
        module ∈ filter (fun m => importable h m = false) (elements imports)
        <-> module ∈ imports /\ importable h module = false)
  /\ map (fun module => default module (pip_name_map !! module))
         ["telebot"; "PIL"; "cv2"; "Crypto"; "bs4"]
     = ["pyTelegramBotAPI"; "Pillow"; "opencv-python"; "pycryptodome"; "beautifulsoup4"]
  /\ (forall module, module ∉ ["telebot"; "PIL"; "cv2"; "Crypto"; "bs4"] ->
        default module (pip_name_map !! module) = module)
  /\ set_iteration h imports ≡ₚ elements imports.
Proof.
  split_ands; [| | | | | |apply merge_sort_Permutation].
  - intros tree Ht x. rewrite extract_imports_parsed, Ht, visit_all. split.
    + intros [H|(s & Hin & Hx)]; [apply elem_of_empty in H; contradiction|].
      exists s. split; [|exact Hx]. apply (ast_walk_complete _ tree s (le_n _)). exact Hin.
    + intros (s & Hocc & Hx). right. exists s. split; [|exact Hx].
      apply (ast_walk_complete _ tree s (le_n _)). exact Hocc.
  - intros Hn. rewrite extract_imports_parsed, Hn. reflexivity.
  - apply install_missing_imports_world.
  - intros module. rewrite list_elem_of_filter, elem_of_elements. tauto.
  - vm_compute. reflexivity.
  - apply alias_outside_table.
Qed.

(** The sample script imports [telebot] at module level; on a host without
    it, pip is asked for [pyTelegramBotAPI]. *)
Lemma extract_imports_any_depth_witness :
  "telebot" ∈ extract_imports "/data/uploads/7/100_bot.py" Sample.disk
  /\ pip_log (install_missing_imports Sample.bare_machine {[ "telebot" ]} Sample.fresh).1
     = [("pyTelegramBotAPI", 120)].
Proof.
  destruct (extract_imports_any_depth Sample.bare_machine "/data/uploads/7/100_bot.py"
              Sample.disk {[ "telebot" ]} Sample.fresh) as (Hall & _ & Hpip & _).
  split.
  - apply (Hall [Import ["telebot"]; Simple] eq_refl). exists (Import ["telebot"]). split.
    + apply occurs_here. apply elem_of_cons. left. reflexivity.
    + apply elem_of_cons. left. reflexivity.
  - rewrite Hpip. vm_compute. reflexivity.
Defined.

(** C6 (as stated) fails on an import that is not at module level: the
    script below has none there, and the import inside its function is
    collected all the same. *)
Lemma extract_imports_nested_counterexample :
  parsed_tree "/lazy.py" Sample.lazy_disk = Some [Compound [Import ["requests"]]]
  /\ toplevel_imports [Compound [Import ["requests"]]] = ∅
  /\ extract_imports "/lazy.py" Sample.lazy_disk = {[ "requests" ]}
  /\ extract_imports "/lazy.py" Sample.lazy_disk
     <> toplevel_imports [Compound [Import ["requests"]]].
Proof.
  split_ands; try (vm_compute; reflexivity).
  intros H. vm_compute in H. discriminate H.
Qed.

Example import_roots_ex :
  import_roots (Import ["os.path"; "telebot"]) = ["os"; "telebot"]
  /\ import_roots (ImportFrom (Some "PIL.Image") 0) = ["PIL"]
  /\ import_roots (ImportFrom (Some "helpers") 1) = []
  /\ import_roots (ImportFrom None 1) = [].
Proof. split_ands; reflexivity. Qed.


(** * Further properties of the code *)

(** ** Strings *)

Section Strings.

Lemma str_app_cons (c : ascii) (a b : string) : String c a +:+ b = String c (a +:+ b).
Proof. reflexivity. Qed.

Lemma str_app_nil_l (s : string) : "" +:+ s = s.
Proof. reflexivity. Qed.

Lemma str_app_nil_r (s : string) : s +:+ "" = s.
Proof.
  induction s as [|c s IH]; [reflexivity|]. rewrite str_app_cons, IH. reflexivity.
Qed.

Lemma str_app_assoc (a b c : string) : (a +:+ b) +:+ c = a +:+ b +:+ c.
Proof.
  induction a as [|x a IH]; [reflexivity|]. rewrite !str_app_cons, IH. reflexivity.
Qed.

Lemma str_rev_acc_app (s acc : string) : Str.rev_acc s acc = Str.rev s +:+ acc.
Proof.
  unfold Str.rev. revert acc. induction s as [|c s IH]; intros acc; [reflexivity|].
  cbn [Str.rev_acc]. rewrite IH, (IH (String c "")), str_app_assoc. reflexivity.
Qed.

Lemma str_rev_cons (c : ascii) (s : string) : Str.rev (String c s) = Str.rev s +:+ String c "".
Proof. unfold Str.rev at 1. cbn [Str.rev_acc]. apply str_rev_acc_app. Qed.

Lemma str_rev_app (a b : string) : Str.rev (a +:+ b) = Str.rev b +:+ Str.rev a.
Proof.
  induction a as [|c a IH].
  - rewrite str_app_nil_l. change (Str.rev "") with "". rewrite str_app_nil_r. reflexivity.
  - rewrite str_app_cons, !str_rev_cons, IH, str_app_assoc. reflexivity.
Qed.

Lemma str_rev_involutive (s : string) : Str.rev (Str.rev s) = s.
Proof.
  induction s as [|c s IH]; [reflexivity|].
  rewrite str_rev_cons, str_rev_app, IH. reflexivity.
Qed.

Lemma startswith_spec (s p : string) :
  Str.startswith s p = true <-> exists t, s = p +:+ t.
Proof.
  revert s. induction p as [|a p IH]; intros s.
  - split; [intros _; exists s; reflexivity|]. intros _. destruct s; reflexivity.
  - destruct s as [|b s]; cbn [Str.startswith].
    + split; [discriminate|]. intros [t Ht]. rewrite str_app_cons in Ht. discriminate Ht.
    + destruct (ascii_dec a b) as [->|Hne].
      * rewrite IH. split; intros [t Ht]; exists t.
        -- rewrite Ht. reflexivity.
        -- rewrite str_app_cons in Ht. injection Ht as ->. reflexivity.
      * split; [discriminate|]. intros [t Ht]. rewrite str_app_cons in Ht.
        injection Ht as Hc _. congruence.
Qed.

Lemma endswith_spec (s p : string) :
  Str.endswith s p = true <-> exists x, s = x +:+ p.
Proof.
  unfold Str.endswith. rewrite startswith_spec. split.
  - intros [t Ht]. exists (Str.rev t).
    rewrite <- (str_rev_involutive s), Ht, str_rev_app, str_rev_involutive. reflexivity.
  - intros [x ->]. exists (Str.rev x). apply str_rev_app.
Qed.

Lemma endswith_app (a s p : string) :
  Str.endswith s p = true -> Str.endswith (a +:+ s) p = true.
Proof.
  rewrite !endswith_spec. intros [x ->]. exists (a +:+ x). rewrite str_app_assoc. reflexivity.
Qed.

Lemma lower_app (a b : string) : Str.lower (a +:+ b) = Str.lower a +:+ Str.lower b.
Proof.
  induction a as [|c a IH]; [reflexivity|].
  rewrite str_app_cons. cbn [Str.lower]. rewrite IH. reflexivity.
Qed.

(** Two suffixes that end in different characters are not suffixes of one
    string. *)
Lemma endswith_last (s p : string) (c : ascii) (r : string) :
  Str.rev p = String c r -> Str.endswith s p = true -> exists t, Str.rev s = String c t.
Proof.
  intros Hp H. unfold Str.endswith in H. rewrite Hp in H.
  apply startswith_spec in H as [t Ht]. exists (r +:+ t). exact Ht.
Qed.

End Strings.

(** Refute a name that ends in two suffixes whose last characters differ. *)
Ltac last_of H :=
  lazymatch type of H with
  | Str.endswith ?s ?p = true =>
      let r := eval vm_compute in (Str.rev p) in
      lazymatch r with
      | String ?c ?t => constr:(endswith_last s p c t eq_refl H)
      end
  end.

Ltac clash_suffixes H1 H2 :=
  let t1 := fresh "t" in
  let t2 := fresh "t" in
  let E1 := fresh "E" in
  let E2 := fresh "E" in
  let L1 := last_of H1 in
  let L2 := last_of H2 in
  destruct L1 as [t1 E1]; destruct L2 as [t2 E2];
  rewrite E1 in E2; discriminate E2.

(** ** Upload kinds and the extractor *)

(** The classifier on a name that is not empty, told by suffixes. *)
Lemma kind_by_suffix (c0 : ascii) (rest : string) :
  (get_file_type (String c0 rest) = "zip"
   <-> Str.endswith (Str.lower (String c0 rest)) ".zip" = true)
  /\ (get_file_type (String c0 rest) = "archive"
      <-> Str.endswith (Str.lower (String c0 rest)) ".tar"
          || Str.endswith (Str.lower (String c0 rest)) ".tar.gz"
          || Str.endswith (Str.lower (String c0 rest)) ".tgz" = true).
Proof.
  unfold get_file_type. cbn [Str.is_empty existsb].
  set (name := Str.lower (String c0 rest)).
  destruct (Str.endswith name ".py") eqn:Hpy;
    destruct (Str.endswith name ".js") eqn:Hjs;
    destruct (Str.endswith name ".zip") eqn:Hzip;
    destruct (Str.endswith name ".tar.gz") eqn:Htargz;
    destruct (Str.endswith name ".tgz") eqn:Htgz;
    destruct (Str.endswith name ".tar") eqn:Htar;
    cbn [orb];
    try match goal with
        | H1 : Str.endswith name _ = true, H2 : Str.endswith name _ = true |- _ =>
            clash_suffixes H1 H2
        end.
  all: split; split; intros H; first [reflexivity | discriminate H].
Qed.

(** X1. The upload classifier and the extractor agree on what an archive
    is: a file name is classified "zip" or "archive" exactly when
    [extract_archive] supports its suffix, and the name under which the upload
    is saved (the original name behind a prefix) is then unpacked as the
    format the classifier saw, a zip as zip and an archive as a tar. *)
Theorem upload_kind_matches_extractor (filename prefix : string) :
  ((get_file_type filename = "zip" \/ get_file_type filename = "archive")
   <-> container_of_suffix filename <> None)
  /\ (get_file_type filename = "zip" ->
      container_of_suffix (prefix +:+ filename) = Some Zip)
  /\ (get_file_type filename = "archive" ->
      container_of_suffix (prefix +:+ filename) = Some TarGz
      \/ container_of_suffix (prefix +:+ filename) = Some Tar).
Proof.
  destruct filename as [|c0 rest].
  { split_ands; [split|..]; cbn; intros H;
      first [discriminate H | destruct H as [H|H]; discriminate H | congruence]. }
  destruct (kind_by_suffix c0 rest) as [Hz Ha].
  unfold container_of_suffix. rewrite lower_app.
  set (name := Str.lower (String c0 rest)) in *.
  split_ands.
  - rewrite Hz, Ha.
    destruct (Str.endswith name ".zip"), (Str.endswith name ".tar.gz"),
      (Str.endswith name ".tgz"), (Str.endswith name ".tar"); cbn;
      split; intros H; try (destruct H as [H|H]); try discriminate H;
      try congruence; auto.
  - intros H. apply Hz in H.
    rewrite (endswith_app (Str.lower prefix) name ".zip" H). reflexivity.
  - intros H. apply Ha in H.
    destruct (Str.endswith (Str.lower prefix +:+ name) ".zip") eqn:Hzip'.
    { exfalso.
      destruct (Str.endswith name ".tar") eqn:Htar;
        [pose proof (endswith_app (Str.lower prefix) name ".tar" Htar) as Hl;
         clash_suffixes Hzip' Hl|].
      destruct (Str.endswith name ".tar.gz") eqn:Htargz;
        [pose proof (endswith_app (Str.lower prefix) name ".tar.gz" Htargz) as Hl;
         clash_suffixes Hzip' Hl|].
      destruct (Str.endswith name ".tgz") eqn:Htgz; [|discriminate H].
      pose proof (endswith_app (Str.lower prefix) name ".tgz" Htgz) as Hl.
      clash_suffixes Hzip' Hl. }
    destruct (Str.endswith (Str.lower prefix +:+ name) ".tar.gz"
              || Str.endswith (Str.lower prefix +:+ name) ".tgz") eqn:Hgz;
      [left; reflexivity|].
    apply orb_false_elim in Hgz as [Hg1 Hg2].
    destruct (Str.endswith name ".tar") eqn:Htar.
    + rewrite (endswith_app (Str.lower prefix) name ".tar" Htar). right. reflexivity.
    + destruct (Str.endswith name ".tar.gz") eqn:Htargz.
      * rewrite (endswith_app (Str.lower prefix) name ".tar.gz" Htargz) in Hg1.
        discriminate Hg1.
      * destruct (Str.endswith name ".tgz") eqn:Htgz; [|discriminate H].
        rewrite (endswith_app (Str.lower prefix) name ".tgz" Htgz) in Hg2.
        discriminate Hg2.
Qed.

Example upload_kind_examples :
  get_file_type "Bot.PY" = "python" /\ get_file_type "site.tar.gz" = "archive"
  /\ get_file_type "a.zip" = "zip" /\ get_file_type "" = "unknown"
  /\ get_file_type "notes.txt" = "unknown".
Proof. split_ands; reflexivity. Qed.


(** ** What a start leaves alone *)

Section History.

Context (h : host).

Lemma counters_ahead_by_fields (w w' : world) :
  runs w' = runs w -> runs_seq w' = runs_seq w -> os_procs w' = os_procs w ->
  os_next_pid w' = os_next_pid w -> counters_ahead w -> counters_ahead w'.
Proof.
  intros Hr Hs Ho Hn [H1 H2]. unfold counters_ahead. rewrite Hr, Hs, Ho, Hn.
  split; assumption.
Qed.

Lemma start_keeps_counters (file_id chat_id : Z) (w : world) :
  counters_ahead w -> counters_ahead (start_file_process h file_id chat_id w).
Proof.
  intros Hw. destruct (start_outcome h file_id chat_id w) as [Hn|Hs].
  - destruct Hn as (Ho & Hp & _ & Hr & Hs & _).
    exact (counters_ahead_by_fields w _ Hr Hs Ho Hp Hw).
  - destruct Hs as (name & cmd & wd & log & Ho & Hp & _ & Hr & Hs & _).
    destruct Hw as [H1 H2]. unfold counters_ahead. rewrite Ho, Hp, Hr, Hs. split.
    + intros k r. destruct (decide (k = runs_seq w + 1)) as [->|Hne]; [lia|].
      rewrite lookup_insert_ne by congruence. intros Hk. specialize (H1 k r Hk). lia.
    + intros p pr. destruct (decide (p = os_next_pid w)) as [->|Hne]; [lia|].
      rewrite lookup_insert_ne by congruence. intros Hk. specialize (H2 p pr Hk). lia.
Qed.

Lemma stop_keeps_counters (file_id : Z) (w : world) :
  counters_ahead w -> counters_ahead (stop_file_process h file_id w).1.
Proof.
  intros [H1 H2]. unfold stop_file_process.
  destruct (processes w !! file_id) as [job|]; [|split; assumption].
  destruct (poll_is_none (process job) w); [|split; assumption].
  destruct (terminate_raises h (process job)); [split; assumption|].
  destruct (exits_within (process job) 5 _); split; try assumption; cbn;
    intros p pr Hp; apply lookup_alter_Some in Hp as [(_ & pr0 & Hp & _)|[_ Hp]];
    exact (H2 p _ Hp).
Qed.

Lemma monitor_keeps_counters (m : monitor) (waited : Z + string) (w : world) :
  counters_ahead w -> counters_ahead (monitor_process m waited w).
Proof.
  intros [H1 H2]. unfold monitor_process. cbn zeta.
  destruct (decide (_ = 0)); split; try assumption; cbn;
    intros k r Hk; apply lookup_alter_Some in Hk as [(_ & r0 & Hk & _)|[_ Hk]];
    exact (H1 k _ Hk).
Qed.

End History.

(** X2. In a world whose counters run ahead of the keys in use (which
    start, stop and the monitor keep so), a start overwrites nothing: every
    earlier Run and every earlier process is still there unchanged, and the
    records and job table entries of the other Artifacts are untouched. *)
Theorem start_preserves_history (h : host) (file_id chat_id : Z) (w : world) :
  counters_ahead w ->
  let w' := start_file_process h file_id chat_id w in
  counters_ahead w'
  /\ (forall k r, runs w !! k = Some r -> runs w' !! k = Some r)
  /\ (forall p pr, os_procs w !! p = Some pr -> os_procs w' !! p = Some pr)
  /\ (forall id, id <> file_id ->
        files w' !! id = files w !! id /\ processes w' !! id = processes w !! id).
Proof.
  intros Hw. cbn zeta. split; [exact (start_keeps_counters h file_id chat_id w Hw)|].
  destruct Hw as [H1 H2].
  destruct (start_outcome h file_id chat_id w) as [Hn|Hs].
  - destruct Hn as (Ho & _ & _ & Hr & _ & Hp & Hf). rewrite Ho, Hr, Hp, Hf.
    split_ands; auto.
  - destruct Hs as (name & cmd & wd & log & Ho & _ & _ & Hr & _ & Hp & Hf).
    rewrite Ho, Hr, Hp, Hf. split_ands.
    + intros k r Hk. rewrite lookup_insert_ne; [exact Hk|].
      specialize (H1 k r Hk). lia.
    + intros p pr Hk. rewrite lookup_insert_ne; [exact Hk|].
      specialize (H2 p pr Hk). lia.
    + intros id Hne. rewrite lookup_alter_ne, lookup_insert_ne by congruence.
      split; reflexivity.
Qed.

Lemma sample_running_counters : counters_ahead Sample.running.
Proof.
  split.
  - intros k r Hk.
    assert (Hall : map_Forall (fun k _ => k <= runs_seq Sample.running) (runs Sample.running))
      by (apply (bool_decide_unpack _); vm_compute; exact I).
    exact (Hall k r Hk).
  - intros p pr Hp.
    assert (Hall : map_Forall (fun p _ => p < os_next_pid Sample.running)
                              (os_procs Sample.running))
      by (apply (bool_decide_unpack _); vm_compute; exact I).
    exact (Hall p pr Hp).
Qed.

(** A second start of the running sample keeps Run 1 and process 1000 as
    they are. *)
Lemma start_preserves_history_witness :
  (exists r, runs (start_file_process Sample.machine 1 7 Sample.running) !! 1 = Some r
             /\ runs Sample.running !! 1 = Some r)
  /\ counters_ahead (start_file_process Sample.machine 1 7 Sample.running).
Proof.
  destruct (start_preserves_history Sample.machine 1 7 Sample.running
              sample_running_counters) as (Hc & Hr & _).
  split; [|exact Hc].
  destruct (runs Sample.running !! 1) as [r|] eqn:E; [|vm_compute in E; discriminate E].
  exists r. split; [apply Hr; exact E|reflexivity].
Defined.

(** ** Stopped Artifacts stay idle through every action *)

Section IdleDispatch.

Context (h : host).

Lemma idle_by_fields (w w' : world) :
  files w' = files w -> processes w' = processes w ->
  stopped_is_idle w -> stopped_is_idle w'.
Proof. intros Hf Hp Hw id r. rewrite Hf, Hp. apply Hw. Qed.

Lemma show_keeps_idle (chat_id file_id uid : Z) (w : world) :
  stopped_is_idle w -> stopped_is_idle (show_file_management chat_id file_id uid w).
Proof.
  destruct (show_file_management_sends chat_id file_id uid w) as [m ->].
  apply idle_by_fields; reflexivity.
Qed.

Lemma remove_record_keeps_idle (file_id : Z) (w : world) :
  stopped_is_idle w -> stopped_is_idle (remove_file_record file_id w).
Proof.
  intros Hw id r. cbn. intros Hr. apply lookup_delete_Some in Hr as [_ Hr].
  exact (Hw id r Hr).
Qed.

Lemma send_keeps_idle (chat_id : Z) (m : msg) (w : world) :
  stopped_is_idle w -> stopped_is_idle (send_message chat_id m w).
Proof. apply idle_by_fields; reflexivity. Qed.

Lemma sleep_keeps_idle (seconds : Z) (w : world) :
  stopped_is_idle w -> stopped_is_idle (sleep seconds w).
Proof. apply idle_by_fields; reflexivity. Qed.

Lemma with_fs_keeps_idle (root : list (string * node)) (w : world) :
  stopped_is_idle w -> stopped_is_idle (with_fs root w).
Proof. apply idle_by_fields; reflexivity. Qed.

Lemma files_list_keeps_idle (chat_id uid : Z) (w : world) :
  stopped_is_idle w -> stopped_is_idle (send_files_list chat_id uid w).
Proof. apply idle_by_fields; reflexivity. Qed.

Lemma started_keeps_idle (file_id chat_id uid : Z) (w : world) :
  stopped_is_idle w ->
  stopped_is_idle
    (match start_file_process_exc h file_id chat_id w with
     | (w, Some _) => send_message chat_id (MsgAnswer "Error processing request") w
     | (w, None) => show_file_management chat_id file_id uid (sleep 1 w)
     end).
Proof.
  intros Hw. pose proof (start_keeps_idle h file_id chat_id w Hw) as H.
  unfold start_file_process in H.
  destruct (start_file_process_exc h file_id chat_id w) as [w1 [e|]]; cbn [fst] in H.
  - apply send_keeps_idle. exact H.
  - apply show_keeps_idle, sleep_keeps_idle. exact H.
Qed.

Lemma control_keeps_idle (data : string) (file_id chat_id uid : Z) (w : world) :
  stopped_is_idle w -> stopped_is_idle (control h data file_id chat_id uid w).
Proof.
  intros Hw. unfold control.
  destruct (Str.startswith data "manage:"); [apply show_keeps_idle; exact Hw|].
  destruct (Str.startswith data "start:").
  { apply started_keeps_idle, send_keeps_idle. exact Hw. }
  destruct (Str.startswith data "stop:").
  { apply show_keeps_idle, sleep_keeps_idle, send_keeps_idle, stop_keeps_idle,
      send_keeps_idle. exact Hw. }
  destruct (Str.startswith data "restart:").
  { apply started_keeps_idle, sleep_keeps_idle, stop_keeps_idle, send_keeps_idle.
    exact Hw. }
  destruct (Str.startswith data "delete:").
  { cbn zeta. apply files_list_keeps_idle, send_keeps_idle.
    destruct (get_file_record file_id _) as [file_record|];
      [|apply send_keeps_idle; exact Hw].
    apply remove_record_keeps_idle.
    destruct (_ || _); [apply with_fs_keeps_idle|];
      apply stop_keeps_idle, send_keeps_idle; exact Hw. }
  destruct (Str.startswith data "logs:"); [|exact Hw].
  apply send_keeps_idle, send_keeps_idle. exact Hw.
Qed.

End IdleDispatch.

(** X3. That every Artifact recorded as Stopped has no process id and no
    job is an invariant of the supervisor: a start, a stop, a monitor's
    cleanup and every action of the callback dispatcher, whatever its data
    and caller, keep it. *)
Theorem stopped_is_idle_invariant (h : host) (data : string) (file_id chat_id uid : Z)
        (m : monitor) (waited : Z + string) (w : world) :
  stopped_is_idle w ->
  stopped_is_idle (start_file_process h file_id chat_id w)
  /\ stopped_is_idle (stop_file_process h file_id w).1
  /\ stopped_is_idle (monitor_process m waited w)
  /\ stopped_is_idle (callback_handler h data chat_id uid w).
Proof.
  intros Hw. split_ands.
  - exact (start_keeps_idle h file_id chat_id w Hw).
  - exact (stop_keeps_idle h file_id w Hw).
  - exact (monitor_keeps_idle m waited w Hw).
  - unfold callback_handler.
    destruct (decide (data = "back_to_files")).
    { apply files_list_keeps_idle. exact Hw. }
    destruct (is_control data); [|exact Hw].
    destruct (callback_file_id data) as [fid|].
    + apply control_keeps_idle. exact Hw.
    + apply send_keeps_idle. exact Hw.
Qed.

Lemma sample_fresh_idle : stopped_is_idle Sample.fresh.
Proof.
  intros id r Hr. unfold Sample.fresh in Hr. cbn in Hr.
  apply lookup_singleton_Some in Hr as [<- <-]. intros _. split; reflexivity.
Qed.

(** From the fresh sample, a restart by callback leaves the Stopped
    Artifacts idle. *)
Lemma stopped_is_idle_invariant_witness :
  stopped_is_idle (callback_handler Sample.machine "restart:1" 7 7 Sample.fresh).
Proof.
  exact (proj2 (proj2 (proj2
    (stopped_is_idle_invariant Sample.machine "restart:1" 1 7 7
       (Monitor 1 1 1000 7 "bot.py") (inl 0) Sample.fresh sample_fresh_idle)))).
Defined.

(** ** Stop and the monitor, one after the other *)

Lemma alter_stopped_twice (file_id : Z) (m : gmap Z file_record) :
  alter (set_status None Stopped) file_id (alter (set_status None Stopped) file_id m)
  = alter (set_status None Stopped) file_id m.
Proof.
  apply map_eq. intros k. destruct (decide (k = file_id)) as [->|Hne].
  - rewrite !lookup_alter_eq. destruct (m !! file_id); reflexivity.
  - rewrite !lookup_alter_ne by congruence. reflexivity.
Qed.

(** X4. Stop and the monitor do the same cleanup, so in either order the
    second adds nothing to it: after a stop, the monitor of that Artifact
    changes only the Run it closes (and may send its notice), leaving the
    Artifact's record, the job table, the processes and the signals as the
    stop left them; and after the monitor has run, a stop of that Artifact
    changes nothing and reports that nothing was stopped. *)
Theorem stop_and_monitor_commute_on_cleanup (h : host) (m : monitor) (waited : Z + string)
        (w : world) :
  (let w1 := (stop_file_process h (mon_file_id m) w).1 in
   let w2 := monitor_process m waited w1 in
   files w2 = files w1 /\ processes w2 = processes w1 /\ os_procs w2 = os_procs w1
   /\ signals w2 = signals w1 /\ fs w2 = fs w1
   /\ runs w2 = alter (finish_run (now w) (observed_exit_code waited)) (mon_run_id m) (runs w))
  /\ stop_file_process h (mon_file_id m) (monitor_process m waited w)
     = (monitor_process m waited w, false).
Proof.
  split.
  - cbn zeta.
    destruct (monitor_process_fields m waited (stop_file_process h (mon_file_id m) w).1)
      as (Hp & Hf & Hr & Ho & Hfs & Hs & _).
    destruct (stop_fields h (mon_file_id m) w) as [Hf1 Hp1].
    rewrite Hp, Hf, Hr, Ho, Hfs, Hs. split_ands; try reflexivity.
    + rewrite Hf1. apply alter_stopped_twice.
    + rewrite Hp1. apply delete_delete_eq.
    + unfold stop_file_process.
      destruct (processes w !! mon_file_id m) as [job|]; [|reflexivity].
      destruct (poll_is_none (process job) w); [|reflexivity].
      destruct (terminate_raises h (process job)); [reflexivity|].
      destruct (exits_within (process job) 5 _); reflexivity.
  - destruct (monitor_process_fields m waited w) as (Hp & Hf & _).
    rewrite stop_without_job by (rewrite Hp; apply lookup_delete_eq).
    f_equal. apply update_stopped_same. intros r. rewrite Hf, lookup_alter_eq.
    destruct (files w !! mon_file_id m); cbn; [|discriminate].
    intros [= <-]. split; reflexivity.
Qed.

Example stop_then_monitor_sample :
  let m := Monitor 1 1 1000 7 "bot.py" in
  let w1 := (stop_file_process Sample.machine 1 Sample.running).1 in
  run_exit_code <$> runs w1 !! 1 = Some None
  /\ run_exit_code <$> runs (monitor_process m (inl (-15)) w1) !! 1 = Some (Some (-15))
  /\ files (monitor_process m (inl (-15)) w1) = files w1.
Proof. cbv zeta. split_ands; vm_compute; reflexivity. Qed.

(** ** The log of a fresh start *)

Section FreshLog.

Context (h : host).

Lemma lookup_set_entry (name : string) (x : node) (es : list (string * node)) :
  Fs.lookup_entry name (Fs.set_entry name x es) = Some x.
Proof.
  induction es as [|[n y] es IH]; cbn.
  - destruct (decide (name = name)); [reflexivity|contradiction].
  - destruct (decide (n = name)) as [->|Hne]; cbn.
    + destruct (decide (name = name)); [reflexivity|contradiction].
    + destruct (decide (n = name)); [contradiction|exact IH].
Qed.

(** A file just created is found where it was created, empty and readable. *)
Lemma create_resolve (cs : list string) (es es' : list (string * node)) :
  Fs.create cs es = inl es' ->
  Fs.resolve cs es' = Some (File (FileData None [] None)).
Proof.
  revert es es'. induction cs as [|c cs IH]; intros es es'; cbn [Fs.create]; [discriminate|].
  destruct cs as [|c' cs].
  - destruct (Fs.lookup_entry c es) as [[d|sub]|]; try discriminate;
      intros [= <-]; cbn [Fs.resolve]; rewrite lookup_set_entry; reflexivity.
  - destruct (Fs.lookup_entry c es) as [[d|sub]|]; try discriminate.
    destruct (Fs.create (c' :: cs) sub) as [sub'|e] eqn:E; [|discriminate].
    intros [= <-]. cbn [Fs.resolve]. rewrite lookup_set_entry.
    exact (IH sub sub' E).
Qed.

Lemma spawn_log (file_id chat_id : Z) (name : string) (cmd : list string)
      (working_dir : string) (lines : Z) (w : world) :
  os_next_pid (spawn h file_id chat_id name cmd working_dir w).1 <> os_next_pid w ->
  get_file_logs file_id lines (spawn h file_id chat_id name cmd working_dir w).1
  = "No logs yet".
Proof.
  unfold spawn, try_send. cbn zeta.
  destruct (Fs.create _ (fs w)) as [root'|e] eqn:Hc;
    [|intros H; exfalso; apply H; reflexivity].
  destruct (popen_error h cmd working_dir) as [e|];
    [intros H; exfalso; apply H; reflexivity|].
  intros _. apply create_resolve in Hc.
  cbn. destruct (send_error h chat_id (MsgStarted _ _ _)); cbn;
    unfold get_file_logs; cbn; rewrite lookup_insert_eq; cbn;
    unfold Fs.exists_, Fs.readlines, Fs.find; rewrite Hc; reflexivity.
Qed.

End FreshLog.

(** X5. Whenever a start spawns a process, the logs of the Artifact read
    "No logs yet" right after it, whatever the line count: the log file of
    the new Run exists, is empty and is the one the job table points to. *)
Theorem fresh_start_has_empty_log (h : host) (file_id chat_id lines : Z) (w : world) :
  os_next_pid (start_file_process h file_id chat_id w) <> os_next_pid w ->
  get_file_logs file_id lines (start_file_process h file_id chat_id w) = "No logs yet".
Proof.
  unfold start_file_process, start_file_process_exc.
  destruct (should_stop_due_to_load h w) as [[|] reason];
    [intros H; exfalso; apply H; reflexivity|].
  destruct (get_file_record file_id w) as [file_record|];
    [|intros H; exfalso; apply H; reflexivity].
  match goal with
  | |- context [match ?t with inl _ => _ | inr _ => _ end] => destruct t as [m|[target wd]]
  end; [intros H; exfalso; apply H; reflexivity|].
  destruct (decide (Str.lower (Path.splitext_ext target) = ".py")).
  - destruct (install_dependencies_world h chat_id target wd w) as (o & l & r & -> & _).
    destruct r as [e0|]; cbn [and_then]; [intros H; exfalso; apply H; reflexivity|].
    intros H. apply spawn_log. exact H.
  - destruct (decide (Str.lower (Path.splitext_ext target) = ".js"));
      [apply spawn_log|intros H; exfalso; apply H; reflexivity].
Qed.

Lemma fresh_start_has_empty_log_witness :
  get_file_logs 1 50 (start_file_process Sample.machine 1 7 Sample.fresh) = "No logs yet".
Proof.
  apply (fresh_start_has_empty_log Sample.machine 1 7 50 Sample.fresh).
  vm_compute. discriminate.
Defined.

(** ** Restart *)

(** Spell out callback data as far as its key reaches. *)
Ltac peel_data Hk :=
  repeat match type of Hk with
         | Str.startswith ?d (String _ _) = true =>
             let rest := fresh "rest" in
             destruct (startswith_head d _ _ Hk) as [rest ->]; cbn in Hk
         end.

Section Restart.

Context (h : host).

Lemma spawn_keeps_signals (file_id chat_id : Z) (name : string) (cmd : list string)
      (working_dir : string) (w : world) :
  signals (spawn h file_id chat_id name cmd working_dir w).1 = signals w.
Proof.
  unfold spawn, try_send. cbn zeta.
  destruct (Fs.create _ (fs w)) as [root'|e]; [|reflexivity].
  destruct (popen_error h cmd working_dir); [reflexivity|].
  cbn. destruct (send_error h chat_id (MsgStarted _ _ _)); reflexivity.
Qed.

Lemma start_keeps_signals (file_id chat_id : Z) (w : world) :
  signals (start_file_process h file_id chat_id w) = signals w.
Proof.
  unfold start_file_process, start_file_process_exc.
  destruct (should_stop_due_to_load h w) as [[|] reason]; [reflexivity|].
  destruct (get_file_record file_id w) as [file_record|]; [|reflexivity].
  match goal with
  | |- context [match ?t with inl _ => _ | inr _ => _ end] => destruct t as [m|[target wd]]
  end; [reflexivity|].
  destruct (decide (Str.lower (Path.splitext_ext target) = ".py")).
  - destruct (install_dependencies_world h chat_id target wd w) as (o & l & r & -> & _).
    destruct r as [e0|]; cbn [and_then]; [reflexivity|].
    rewrite spawn_keeps_signals. reflexivity.
  - destruct (decide (Str.lower (Path.splitext_ext target) = ".js")); [|reflexivity].
    apply spawn_keeps_signals.
Qed.

(** What follows a start in the dispatcher sends one message and lets
    time pass, whether the start returned or raised. *)
Lemma started_sends (file_id chat_id uid : Z) (w : world) :
  exists m t,
    match start_file_process_exc h file_id chat_id w with
    | (w, Some _) => send_message chat_id (MsgAnswer "Error processing request") w
    | (w, None) => show_file_management chat_id file_id uid (sleep 1 w)
    end
    = send_message chat_id m (with_now t (start_file_process h file_id chat_id w)).
Proof.
  unfold start_file_process.
  destruct (start_file_process_exc h file_id chat_id w) as [w1 [e|]]; cbn [fst].
  - exists (MsgAnswer "Error processing request"), (now w1). destruct w1; reflexivity.
  - destruct (show_file_management_sends chat_id file_id uid (sleep 1 w1)) as [m ->].
    exists m, (now w1 + 1). reflexivity.
Qed.

Lemma stop_keeps_next_pid (file_id : Z) (w : world) :
  os_next_pid (stop_file_process h file_id w).1 = os_next_pid w.
Proof.
  unfold stop_file_process.
  destruct (processes w !! file_id) as [job|]; [|reflexivity].
  destruct (poll_is_none (process job) w); [|reflexivity].
  destruct (terminate_raises h (process job)); [reflexivity|].
  destruct (exits_within (process job) 5 _); reflexivity.
Qed.

End Restart.

(** X6. A restart by callback of an Artifact whose job is alive and can be
    signalled (in a world whose counters run ahead) never leaves the old
    process behind: SIGTERM has been sent to it, it has exited, and the job
    table afterwards either has no entry for the Artifact (the start was
    turned down or failed) or points to the process this restart spawned,
    which is not the old one. *)
Theorem restart_replaces_process (h : host) (data : string) (file_id chat_id uid : Z)
        (w : world) (job : live_job) :
  counters_ahead w ->
  processes w !! file_id = Some job ->
  poll_is_none (process job) w = true ->
  terminate_raises h (process job) = false ->
  Str.startswith data "restart:" = true ->
  callback_file_id data = Some file_id ->
  let w' := callback_handler h data chat_id uid w in
  (exists code, proc_state_of <$> os_procs w' !! process job = Some (Exited code))
  /\ (process job, SIGTERM) ∈ signals w'
  /\ (processes w' !! file_id = None
      \/ exists job', processes w' !! file_id = Some job'
                      /\ process job' = os_next_pid w /\ process job' <> process job).
Proof.
  intros [_ Hpids] Hj Hp Ht Hk Hid. cbn zeta.
  rewrite (dispatch_to_control h data "restart:" file_id chat_id uid w) by
    (try assumption; repeat constructor).
  unfold control. clear Hid. peel_data Hk.
  cbn -[stop_file_process start_file_process start_file_process_exc].
  rewrite startswith_empty.
  match goal with
  | |- context [start_file_process_exc h ?i ?c ?w0] =>
      destruct (started_sends h i c uid w0) as (m & t & ->)
  end.
  set (w0 := send_message chat_id (MsgAnswer "Restarting...") w).
  destruct (stop_live h file_id w0 job Hj Hp Ht) as (_ & Hsig & Hst).
  cbn zeta in Hsig, Hst.
  pose proof (stop_fields h file_id w0) as [_ Hproc].
  pose proof (stop_keeps_next_pid h file_id w0) as Hnext.
  set (w1 := (stop_file_process h file_id w0).1) in *.
  assert (Hold : process job < os_next_pid w).
  { unfold poll_is_none in Hp.
    destruct (os_procs w !! process job) as [pr|] eqn:E; [|discriminate].
    exact (Hpids _ _ E). }
  pose proof (start_keeps_signals h file_id chat_id (sleep 2 w1)) as Hss.
  cbn -[stop_file_process start_file_process].
  split_ands.
  - exists (if exits_within (process job) 5 w0 then -15 else -9).
    destruct (start_outcome h file_id chat_id (sleep 2 w1)) as [Hn|Hs].
    + destruct Hn as (Ho & _). rewrite Ho. exact Hst.
    + destruct Hs as (name & cmd & wd & log & Ho & _). rewrite Ho.
      rewrite lookup_insert_ne; [exact Hst|]. cbn. rewrite Hnext. cbn. lia.
  - rewrite Hss. cbn. rewrite Hsig.
    destruct (exits_within (process job) 5 w0); cbn;
      repeat (first [apply elem_of_cons; left; reflexivity | apply elem_of_cons; right]).
  - destruct (start_outcome h file_id chat_id (sleep 2 w1)) as [Hn|Hs].
    + left. destruct Hn as (_ & _ & _ & _ & _ & Hpr & _). rewrite Hpr. cbn.
      rewrite Hproc. apply lookup_delete_eq.
    + right. destruct Hs as (name & cmd & wd & log & _ & _ & _ & _ & _ & Hpr & _).
      rewrite Hpr, lookup_insert_eq. eexists. split; [reflexivity|].
      cbn. rewrite Hnext. cbn. split; [reflexivity|lia].
Qed.

(** Restarting the running sample: process 1000 has exited and the job
    table points to process 1001. *)
Lemma restart_replaces_process_witness :
  let w' := callback_handler Sample.machine "restart:1" 7 7 Sample.running in
  (exists code, proc_state_of <$> os_procs w' !! 1000 = Some (Exited code))
  /\ process <$> processes w' !! 1 = Some 1001.
Proof.
  cbv zeta.
  destruct (restart_replaces_process Sample.machine "restart:1" 1 7 7 Sample.running
              (LiveJob 1000 1 "/data/logs/file_1_500.log" 500) sample_running_counters)
    as (Hex & _ & _); try (vm_compute; reflexivity).
  split; [exact Hex|]. vm_compute. reflexivity.
Defined.

(** ** The file list of a tenant *)

Example list_user_files_sample :
  (list_user_files 7 Sample.fresh).*1 = [1] /\ list_user_files 8 Sample.fresh = [].
Proof. split; vm_compute; reflexivity. Qed.


(** ** Callback data, written and read back *)

Section CallbackData.

Lemma all_chars_app (P : ascii -> bool) (a b : string) :
  all_chars P (a +:+ b) = all_chars P a && all_chars P b.
Proof.
  induction a as [|c a IH]; [reflexivity|].
  rewrite str_app_cons. cbn [all_chars]. rewrite IH, andb_assoc. reflexivity.
Qed.

Lemma all_chars_rev (P : ascii -> bool) (s : string) :
  all_chars P (Str.rev s) = all_chars P s.
Proof.
  induction s as [|c s IH]; [reflexivity|].
  rewrite str_rev_cons, all_chars_app, IH. cbn [all_chars].
  rewrite andb_true_r. apply andb_comm.
Qed.

Lemma pretty_char_digit (d : N) : is_digit (pretty_N_char d) = true.
Proof. unfold pretty_N_char. repeat case_match; reflexivity. Qed.

Lemma pretty_char_value (d : N) :
  (d < 10)%N -> Ascii.is_nat (pretty_N_char d) = Some (N.to_nat d).
Proof.
  intros Hd.
  assert (Hc : (d = 0 \/ d = 1 \/ d = 2 \/ d = 3 \/ d = 4 \/ d = 5 \/ d = 6 \/ d = 7
                \/ d = 8 \/ d = 9)%N) by lia.
  repeat destruct Hc as [->|Hc]; try reflexivity. subst d. reflexivity.
Qed.

Lemma pretty_go_digits (x : N) (s : string) :
  all_chars is_digit s = true -> all_chars is_digit (pretty_N_go x s) = true.
Proof.
  revert s. induction (N.lt_wf_0 x) as [x _ IH]; intros s Hs.
  destruct (decide (x = 0)%N) as [->|Hx]; [exact Hs|].
  rewrite pretty_N_go_step by lia. apply IH.
  - apply N.div_lt; lia.
  - cbn [all_chars]. rewrite pretty_char_digit, Hs. reflexivity.
Qed.

(** Reading back what [pretty_N_go] wrote in front of [s]. *)
Lemma digits_value_pretty_go (x : N) :
  (0 < x)%N ->
  exists m, forall s acc b,
    digits_value (pretty_N_go x s) acc b = digits_value s (acc * m + Z.of_N x) true.
Proof.
  induction (N.lt_wf_0 x) as [x _ IH]. intros Hx.
  destruct (decide (x `div` 10 = 0)%N) as [Hz|Hnz].
  - exists 10. intros s acc b. rewrite pretty_N_go_step, Hz, pretty_N_go_0 by exact Hx.
    cbn [digits_value]. rewrite pretty_char_value by (apply N.mod_lt; lia).
    f_equal. rewrite N_nat_Z.
    pose proof (N.div_mod x 10 ltac:(lia)) as Hdm. rewrite Hz in Hdm. lia.
  - destruct (IH (x `div` 10)%N) as [m Hm];
      [apply N.div_lt; lia|apply N.neq_0_lt_0; exact Hnz|].
    exists (10 * m). intros s acc b. rewrite pretty_N_go_step, Hm by exact Hx.
    cbn [digits_value]. rewrite pretty_char_value by (apply N.mod_lt; lia).
    f_equal. rewrite N_nat_Z.
    pose proof (N.div_mod x 10 ltac:(lia)) as Hdm. lia.
Qed.

Lemma plain_first (a b c : ascii) :
  Str.plain a = true ->
  Str.isspace a = false /\ Str.space2 a b = false /\ Str.space3 a b c = false
  /\ Str.space2 b a = false /\ Str.space3 c b a = false.
Proof.
  unfold Str.plain, Str.space2, Str.space3.
  destruct a as [[] [] [] [] [] [] [] []]; cbn; intros H; try discriminate H;
    rewrite ?andb_false_r; split_ands; reflexivity.
Qed.

Lemma lstrip_no_space (s : string) : all_chars Str.plain s = true -> Str.lstrip s = s.
Proof.
  destruct s as [|a [|b [|c s]]]; [reflexivity|..]; cbn [all_chars Str.lstrip];
    intros H; apply andb_true_iff in H as [Ha _];
    destruct (plain_first a a a Ha) as (-> & _); try reflexivity.
  - destruct (plain_first a b b Ha) as (_ & -> & _). reflexivity.
  - destruct (plain_first a b c Ha) as (_ & -> & -> & _). reflexivity.
Qed.

Lemma rstrip_rev_no_space (r : string) :
  all_chars Str.plain r = true -> Str.rstrip_rev r = r.
Proof.
  destruct r as [|a [|b [|c r]]]; [reflexivity|..]; cbn [all_chars Str.rstrip_rev];
    intros H; apply andb_true_iff in H as [Ha _];
    destruct (plain_first a a a Ha) as (-> & _); try reflexivity.
  - destruct (plain_first a b b Ha) as (_ & _ & _ & -> & _). reflexivity.
  - destruct (plain_first a b c Ha) as (_ & _ & _ & -> & ->). reflexivity.
Qed.

Lemma strip_no_space (s : string) : all_chars Str.plain s = true -> Str.strip s = s.
Proof.
  intros Hs. unfold Str.strip. rewrite (lstrip_no_space s Hs).
  rewrite rstrip_rev_no_space by (rewrite all_chars_rev; exact Hs).
  apply str_rev_involutive.
Qed.

Lemma all_chars_impl (P Q : ascii -> bool) (s : string) :
  (forall c, P c = true -> Q c = true) -> all_chars P s = true -> all_chars Q s = true.
Proof.
  intros HPQ. induction s as [|c s IH]; [reflexivity|]. cbn [all_chars].
  intros H. apply andb_true_iff in H as [Hc Hs]. rewrite (HPQ c Hc), (IH Hs). reflexivity.
Qed.

Lemma digit_facts (c : ascii) :
  is_digit c = true ->
  Str.isspace c = false /\ c <> ":"%char /\ c <> "-"%char /\ c <> "+"%char.
Proof.
  unfold is_digit, Ascii.is_nat.
  destruct c as [[] [] [] [] [] [] [] []]; cbn; intros H; try discriminate H;
    split_ands; first [reflexivity | discriminate].
Qed.

Lemma pretty_pos_digits (p : positive) :
  pretty (Z.pos p) = pretty_N_go (N.pos p) ""
  /\ all_chars is_digit (pretty_N_go (N.pos p) "") = true
  /\ digits_value (pretty_N_go (N.pos p) "") 0 false = Some (Z.pos p).
Proof.
  split_ands.
  - reflexivity.
  - apply pretty_go_digits. reflexivity.
  - destruct (digits_value_pretty_go (N.pos p) ltac:(lia)) as [m Hm].
    rewrite Hm. cbn [digits_value]. f_equal; lia.
Qed.

Lemma digits_no_space (s : string) :
  all_chars is_digit s = true -> all_chars Str.plain s = true.
Proof.
  apply all_chars_impl. intros c. unfold is_digit, Ascii.is_nat.
  destruct c as [[] [] [] [] [] [] [] []]; cbn; intros H; first [discriminate H|reflexivity].
Qed.

(** [int] reads back what [str] wrote, for every integer. *)
Lemma parse_int_pretty (z : Z) : parse_int (pretty z) = Some z.
Proof.
  destruct z as [|p|p].
  - reflexivity.
  - destruct (pretty_pos_digits p) as (-> & Hd & Hv).
    unfold parse_int. rewrite (strip_no_space _ (digits_no_space _ Hd)).
    destruct (pretty_N_go (N.pos p) "") as [|c t]; [discriminate Hv|].
    cbn [all_chars] in Hd. apply andb_true_iff in Hd as [Hc _].
    destruct (digit_facts c Hc) as (_ & _ & Hm & Hp).
    destruct c as [[] [] [] [] [] [] [] []]; try discriminate Hc; try exact Hv;
      congruence.
  - destruct (pretty_pos_digits p) as (_ & Hd & Hv).
    change (pretty (Z.neg p)) with (String "-"%char (pretty_N_go (N.pos p) "")).
    unfold parse_int. rewrite strip_no_space.
    + rewrite Hv. reflexivity.
    + cbn [all_chars]. rewrite (digits_no_space _ Hd). reflexivity.
Qed.

Lemma pretty_no_colon (z : Z) : all_chars not_colon (pretty z) = true.
Proof.
  assert (Hd : forall s, all_chars is_digit s = true -> all_chars not_colon s = true).
  { intros s. apply all_chars_impl. intros c Hc. destruct (digit_facts c Hc) as (_ & Hn & _).
    unfold not_colon. destruct (ascii_dec c ":"); [contradiction|reflexivity]. }
  destruct z as [|p|p].
  - reflexivity.
  - destruct (pretty_pos_digits p) as (-> & H & _). exact (Hd _ H).
  - destruct (pretty_pos_digits p) as (_ & H & _).
    change (pretty (Z.neg p)) with (String "-"%char (pretty_N_go (N.pos p) "")).
    cbn [all_chars]. rewrite (Hd _ H). reflexivity.
Qed.

Lemma split_no_sep (s cur : string) :
  all_chars not_colon s = true ->
  Str.split_acc ":"%char s cur = [Str.rev cur +:+ s].
Proof.
  revert cur. induction s as [|c s IH]; intros cur; cbn [all_chars Str.split_acc].
  - intros _. rewrite str_app_nil_r. reflexivity.
  - intros H. apply andb_true_iff in H as [Hc Hs]. unfold not_colon in Hc.
    destruct (ascii_dec c ":"); [discriminate|].
    rewrite (IH _ Hs), str_rev_cons, str_app_assoc. reflexivity.
Qed.

Lemma split_at_colon (key rest cur : string) :
  all_chars not_colon key = true ->
  Str.split_acc ":"%char (key +:+ String ":"%char rest) cur
  = (Str.rev cur +:+ key) :: Str.split_acc ":"%char rest "".
Proof.
  revert cur. induction key as [|c key IH]; intros cur.
  - intros _. rewrite str_app_nil_l, str_app_nil_r. cbn [Str.split_acc].
    destruct (ascii_dec ":" ":"); [reflexivity|contradiction].
  - cbn [all_chars]. intros H. apply andb_true_iff in H as [Hc Hs]. unfold not_colon in Hc.
    rewrite str_app_cons. cbn [Str.split_acc].
    destruct (ascii_dec c ":"); [discriminate|].
    rewrite (IH _ Hs), str_rev_cons, str_app_assoc. reflexivity.
Qed.

(** The file id written behind a key is the one read back. *)
Lemma callback_file_id_written (key : string) (z : Z) :
  all_chars not_colon key = true ->
  callback_file_id (key +:+ String ":"%char (pretty z)) = Some z.
Proof.
  intros Hk. unfold callback_file_id, Str.split.
  rewrite (split_at_colon key (pretty z) "" Hk), (split_no_sep _ "" (pretty_no_colon z)).
  change (Str.rev "") with "". rewrite str_app_nil_l. apply parse_int_pretty.
Qed.

Lemma list_user_files_elem (uid id : Z) (r : file_record) (w : world) :
  (id, r) ∈ list_user_files uid w -> files w !! id = Some r /\ user_id r = uid.
Proof.
  unfold list_user_files.
  rewrite merge_sort_Permutation, list_elem_of_filter, elem_of_map_to_list. cbn. tauto.
Qed.

End CallbackData.

(** X8. Every button the bot shows is read back as the action and the
    file it was made for, whatever the id (zero and negative ones
    included): the callback data of each button of the file keyboard is
    either "back_to_files" or one of the dispatcher's keys followed by text
    that [callback_handler] parses to the same file id; Start is offered only
    when the file is not running and Stop only when it is; and each button of
    the file list is a "manage:" button for a record of the user the list was
    made for. *)
Theorem keyboard_round_trip (file_id uid : Z) (is_running : bool) (w : world) :
  (forall row label data,
     row ∈ file_actions_kb file_id is_running -> (label, data) ∈ row ->
     data = "back_to_files"
     \/ (is_control data = true /\ callback_file_id data = Some file_id))
  /\ (forall row label,
        row ∈ file_actions_kb file_id is_running ->
        ((label, "start:" +:+ pretty file_id) ∈ row -> is_running = false)
        /\ ((label, "stop:" +:+ pretty file_id) ∈ row -> is_running = true))
  /\ (forall label data,
        (label, data) ∈ files_list_kb uid w ->
        exists id r, files w !! id = Some r /\ user_id r = uid
                     /\ Str.startswith data "manage:" = true
                     /\ callback_file_id data = Some id).
Proof.
  assert (Hkey : forall key z,
             key ∈ ["manage"; "start"; "stop"; "restart"; "delete"; "logs"] ->
             is_control (key +:+ String ":"%char (pretty z)) = true
             /\ callback_file_id (key +:+ String ":"%char (pretty z)) = Some z).
  { intros key z Hin.
    repeat (apply elem_of_cons in Hin as [->|Hin];
            [split; [generalize (pretty z); intros []; reflexivity
                    |apply callback_file_id_written; reflexivity]|]).
    apply elem_of_nil in Hin. contradiction. }
  split_ands.
  - intros row label data Hrow Hin. unfold file_actions_kb in Hrow.
    destruct is_running;
      repeat (apply elem_of_cons in Hrow as [->|Hrow]);
      try (apply elem_of_nil in Hrow; contradiction);
      repeat (apply elem_of_cons in Hin as [[= -> ->]|Hin]);
      try (apply elem_of_nil in Hin; contradiction);
      first [left; reflexivity
            | right; apply (Hkey "stop"); repeat constructor
            | right; apply (Hkey "start"); repeat constructor
            | right; apply (Hkey "restart"); repeat constructor
            | right; apply (Hkey "delete"); repeat constructor
            | right; apply (Hkey "logs"); repeat constructor].
  - intros row label Hrow. unfold file_actions_kb in Hrow.
    destruct is_running; split; intros Hin; try reflexivity; exfalso;
      repeat (apply elem_of_cons in Hrow as [->|Hrow]);
      try (apply elem_of_nil in Hrow; contradiction);
      repeat (apply elem_of_cons in Hin as [Hin|Hin]; [discriminate Hin|]);
      apply elem_of_nil in Hin; exact Hin.
  - intros label data Hin. unfold files_list_kb in Hin.
    apply list_elem_of_fmap in Hin as ([id r] & [= -> ->] & Hin).
    apply list_user_files_elem in Hin as [Hr Hu].
    exists id, r. cbn [fst snd]. split_ands; try assumption.
    + generalize (pretty id); intros []; reflexivity.
    + apply (Hkey "manage"). repeat constructor.
Qed.

Example keyboard_sample :
  callback_file_id "stop:-12" = Some (-12) /\ callback_file_id "logs:007" = Some 7
  /\ callback_file_id "start:" = None /\ callback_file_id "start:1:2" = Some 1
  /\ callback_file_id "delete: 1_000 " = Some 1000.
Proof. split_ands; reflexivity. Qed.


(** ** Uploads *)

Section Entry.

Lemma join_endswith (a b p : string) :
  Str.endswith b p = true -> Str.endswith (Path.join a b) p = true.
Proof.
  intros Hb. unfold Path.join.
  destruct (Str.startswith b "/"); [exact Hb|].
  destruct (Str.is_empty a || Str.endswith a "/").
  - apply endswith_app. exact Hb.
  - apply endswith_app, endswith_app. exact Hb.
Qed.

Lemma join_supported (a b : string) :
  supported_source b = true -> supported_source (Path.join a b) = true.
Proof.
  unfold supported_source. intros H. apply orb_true_iff in H as [H|H];
    rewrite (join_endswith a b _ H); [reflexivity|apply orb_true_r].
Qed.

(** Whatever [find_main_file] returns ends in one of the two extensions. *)
Lemma find_main_file_supported (directory : string) (root : list (string * node))
      (main_file : string) :
  find_main_file directory root = Some main_file -> supported_source main_file = true.
Proof.
  rewrite find_main_file_loops.
  destruct (first_some (at_root directory root) priority_files) as [p|] eqn:E1.
  { intros [= <-]. apply first_some_from in E1 as (name & Hin & Hname).
    unfold at_root in Hname. destruct (Fs.isfile _ root); [|discriminate].
    injection Hname as <-. apply join_supported, priority_supported, Hin. }
  destruct (first_some priority_of (Fs.walk directory root)) as [p|] eqn:E2.
  { intros [= <-]. apply first_some_from in E2 as (t & _ & Ht).
    apply first_some_from in Ht as (name & Hin & Hname).
    destruct (bool_decide _); [|discriminate].
    injection Hname as <-. apply join_supported, priority_supported, Hin. }
  intros E3. apply first_some_from in E3 as (t & _ & Ht).
  apply first_some_from in Ht as (name & Hin & Hname).
  destruct (Str.endswith name ".py" || Str.endswith name ".js") eqn:E; [|discriminate].
  injection Hname as <-. apply join_supported. exact E.
Qed.

Lemma endswith_lower (s p : string) :
  Str.endswith s p = true -> Str.endswith (Str.lower s) (Str.lower p) = true.
Proof.
  rewrite !endswith_spec. intros [x ->]. exists (Str.lower x). apply lower_app.
Qed.

(** A name with a supported extension is classified as a source file. *)
Lemma supported_kind (file : string) :
  supported_source file = true ->
  get_file_type file = "python" \/ get_file_type file = "javascript".
Proof.
  unfold supported_source, get_file_type. intros H.
  destruct file as [|c file]; [discriminate H|]. cbn [Str.is_empty].
  apply orb_true_iff in H as [H|H]; apply endswith_lower in H;
    change (Str.lower ".py") with ".py" in H; change (Str.lower ".js") with ".js" in H.
  - rewrite H. left. reflexivity.
  - destruct (Str.endswith _ ".py"); [left; reflexivity|]. rewrite H. right. reflexivity.
Qed.

End Entry.

Section Quota.

Lemma list_user_files_iff (uid id : Z) (r : file_record) (w : world) :
  (id, r) ∈ list_user_files uid w <-> files w !! id = Some r /\ user_id r = uid.
Proof.
  unfold list_user_files.
  rewrite merge_sort_Permutation, list_elem_of_filter, elem_of_map_to_list. cbn. tauto.
Qed.

Lemma owned_ids_spec (uid id : Z) (w : world) :
  id ∈ (list_user_files uid w).*1 <-> owns uid w id.
Proof.
  rewrite list_elem_of_fmap. unfold owns. split.
  - intros ([i r] & -> & Hin). apply list_user_files_iff in Hin. exists r. exact Hin.
  - intros (r & Hr). exists (id, r). split; [reflexivity|]. apply list_user_files_iff, Hr.
Qed.

Lemma owned_ids_nodup (uid : Z) (w : world) : NoDup (list_user_files uid w).*1.
Proof.
  unfold list_user_files. rewrite merge_sort_Permutation.
  apply (NoDup_fmap_2_strong fst).
  - intros [k1 r1] [k2 r2] H1 H2 E. cbn in E. subst k2.
    apply list_elem_of_filter in H1 as [_ H1]. apply list_elem_of_filter in H2 as [_ H2].
    apply elem_of_map_to_list in H1, H2. rewrite H1 in H2. injection H2 as ->. reflexivity.
  - apply NoDup_filter, NoDup_map_to_list.
Qed.

Lemma file_count_ids (uid : Z) (w : world) :
  file_count uid w = Z.of_nat (length (list_user_files uid w).*1).
Proof. unfold file_count. rewrite length_fmap. reflexivity. Qed.

(** The count depends on the set of ids owned only. *)
Lemma file_count_same (uid : Z) (w w' : world) :
  (forall id, owns uid w' id <-> owns uid w id) -> file_count uid w' = file_count uid w.
Proof.
  intros H. rewrite !file_count_ids. f_equal. apply Permutation_length.
  apply NoDup_Permutation; [apply owned_ids_nodup..|].
  intros id. rewrite !owned_ids_spec. apply H.
Qed.

Lemma file_count_added (uid rowid : Z) (w w' : world) :
  ~ owns uid w rowid ->
  (forall id, owns uid w' id <-> id = rowid \/ owns uid w id) ->
  file_count uid w' = file_count uid w + 1.
Proof.
  intros Hnew H. rewrite !file_count_ids.
  assert (Hp : (list_user_files uid w').*1 ≡ₚ rowid :: (list_user_files uid w).*1).
  { apply NoDup_Permutation.
    - apply owned_ids_nodup.
    - apply NoDup_cons. split; [rewrite owned_ids_spec; exact Hnew|apply owned_ids_nodup].
    - intros id. rewrite elem_of_cons, !owned_ids_spec. apply H. }
  rewrite (Permutation_length Hp). cbn [length]. lia.
Qed.

Lemma owns_insert (uid rowid id : Z) (r : file_record) (w w' : world) :
  files w' = <[rowid := r]> (files w) ->
  owns uid w' id <-> (id = rowid /\ user_id r = uid) \/ (id <> rowid /\ owns uid w id).
Proof.
  intros Hf. unfold owns. rewrite Hf. destruct (decide (id = rowid)) as [->|Hne].
  - rewrite lookup_insert_eq. split.
    + intros (r' & [= <-] & Hu). left. split; [reflexivity|exact Hu].
    + intros [[_ Hu]|[Hne _]]; [exists r; split; [reflexivity|exact Hu]|contradiction].
  - rewrite lookup_insert_ne by congruence. split.
    + intros H. right. split; [exact Hne|exact H].
    + intros [[He _]|[_ H]]; [contradiction|exact H].
Qed.

End Quota.

Section UploadSteps.

Context (h : host) (s : site).

Lemma registered_keeps_others (rowid id : Z) (r0 : file_record) (w w' : world) :
  registered rowid r0 w w' -> id <> rowid ->
  files w' !! id = files w !! id /\ processes w' !! id = processes w !! id.
Proof.
  intros [(Hf & Hp & _)|(job & Hf & Hp & _)] Hne; rewrite Hf, Hp;
    rewrite ?lookup_insert_ne by congruence; split; reflexivity.
Qed.

(** The last step of the handler: one row, and a start for a single source
    file only. *)
Lemma register_outcome (rowid : Z) (m : upload)
      (safe_filename original_filename final_path kind : string)
      (extracted_dir : option string) (w : world) :
  let r0 := FileRecord (from_user_id m) (from_username m) safe_filename original_filename
                       final_path (utc_isoformat s (now w)) kind None Stopped in
  let w' := register_upload h s rowid m safe_filename original_filename final_path kind
                            extracted_dir w in
  registered rowid r0 w w'
  /\ (processes w' !! rowid <> processes w !! rowid ->
      kind ∈ ["python"; "javascript"] /\ extracted_dir = None).
Proof.
  cbn zeta. unfold register_upload, add_file_record, reply_to.
  destruct (bool_decide (kind ∈ ["python"; "javascript"]) && bool_decide (extracted_dir = None))
    eqn:E.
  - apply andb_true_iff in E as [E1 E2].
    apply bool_decide_eq_true in E1. apply bool_decide_eq_true in E2.
    match goal with
    | |- context [start_file_process h rowid ?c ?w0] =>
        destruct (start_outcome h rowid c w0) as [Hn|Hs]
    end.
    + destruct Hn as (Ho & _ & Hm & Hr & _ & Hp & Hf). split.
      * left. rewrite Hf, Hp, Ho, Hm, Hr. split_ands; reflexivity.
      * intros _. split; assumption.
    + destruct Hs as (name & cmd & wd & log & Ho & _ & _ & _ & _ & Hp & Hf). split.
      * right. eexists (LiveJob _ _ _ _). rewrite Hf, Hp, Ho. cbn.
        rewrite alter_insert_eq. split_ands; try reflexivity.
        rewrite lookup_insert_eq. discriminate.
      * intros _. split; assumption.
  - split.
    + left. split_ands; reflexivity.
    + intros H. contradiction H. reflexivity.
Qed.

Lemma extract_archive_fs (file_path extract_dir : string) (w : world) :
  exists root', (extract_archive h file_path extract_dir w).1 = with_fs root' w.
Proof.
  unfold extract_archive. cbn zeta.
  assert (Hu : forall c,
             exists root',
               (let '(root', err) := extractall h c file_path extract_dir (fs w) in
                match err with
                | Some e => (with_fs root' w, (false, Some e))
                | None => (with_fs root' w, (true, None))
                end).1 = with_fs root' w).
  { intros c. destruct (extractall h c file_path extract_dir (fs w)) as [root' [e|]];
      exists root'; reflexivity. }
  destruct (Str.endswith _ ".zip"); [apply Hu|].
  destruct (Str.endswith _ ".tar.gz" || Str.endswith _ ".tgz"); [apply Hu|].
  destruct (Str.endswith _ ".tar"); [apply Hu|].
  exists (fs w). destruct w; reflexivity.
Qed.

(** The archive branch: no start, and a row only for a resolved entry
    point, whose kind it takes. *)
Lemma unpack_outcome (rowid : Z) (m : upload) (safe_filename original_filename file_path : string)
      (w : world) :
  let w' := unpack_upload h s rowid m safe_filename original_filename file_path w in
  let extracted_dir :=
    Path.join (TEMP_DIR s)
              ("extracted_" +:+ pretty (from_user_id m) +:+ "_" +:+ pretty (now w)) in
  processes w' = processes w /\ os_procs w' = os_procs w /\ os_next_pid w' = os_next_pid w
  /\ monitors w' = monitors w /\ runs w' = runs w /\ runs_seq w' = runs_seq w
  /\ (files w' = files w
      \/ exists main_file,
           find_main_file extracted_dir (fs w') = Some main_file
           /\ files w'
              = <[rowid := FileRecord (from_user_id m) (from_username m) safe_filename
                                      original_filename extracted_dir
                                      (utc_isoformat s (now w)) (get_file_type main_file)
                                      None Stopped]> (files w)).
Proof.
  cbn zeta. unfold unpack_upload, reply_to. cbn zeta.
  change (now (send_message _ _ w)) with (now w).
  set (extracted_dir := Path.join (TEMP_DIR s) _).
  destruct (makedirs _ _) as [root|]; [|split_ands; try reflexivity; left; reflexivity].
  match goal with
  | |- context [extract_archive h file_path extracted_dir ?w0] =>
      destruct (extract_archive_fs file_path extracted_dir w0) as [root' Hx];
      destruct (extract_archive h file_path extracted_dir w0) as [w1 [success error]]
  end.
  cbn [fst] in Hx. subst w1.
  destruct success; cbn [negb]; [|split_ands; try reflexivity; left; reflexivity].
  cbn [fs with_fs].
  destruct (find_main_file extracted_dir root') as [main_file|] eqn:Hmain;
    [|split_ands; try reflexivity; left; reflexivity].
  destruct (Str.is_empty main_file); [split_ands; try reflexivity; left; reflexivity|].
  unfold register_upload, add_file_record, reply_to.
  replace (bool_decide (Some extracted_dir = None)) with false
    by (symmetry; apply bool_decide_eq_false; discriminate).
  rewrite andb_false_r.
  split_ands; try reflexivity. right. exists main_file. split; [exact Hmain|reflexivity].
Qed.

(** An upload either registers the file or leaves every table as it was. *)
Lemma upload_outcome (rowid : Z) (m : upload) (w : world) :
  let w' := document_handler h s rowid m w in
  nothing_spawned w w'
  \/ (file_count (from_user_id m) w < MAX_FILES_PER_USER s
      /\ exists final_path kind,
           registered rowid
                      (FileRecord (from_user_id m) (from_username m)
                                  (pretty (now w) +:+ "_" +:+ upload_name m) (upload_name m)
                                  final_path (utc_isoformat s (now w)) kind None Stopped)
                      w w'
           /\ (processes w' !! rowid <> processes w !! rowid ->
               kind = get_file_type (upload_name m) /\ kind ∈ ["python"; "javascript"])).
Proof.
  cbn zeta. unfold document_handler, reply_to. cbn zeta. fold (upload_name m).
  fold (file_count (from_user_id m) w).
  destruct (decide (MAX_FILES_PER_USER s <= file_count (from_user_id m) w)) as [Hfull|Hroom];
    [left; repeat split; reflexivity|].
  destruct (download m) as [content|e]; [|left; repeat split; reflexivity].
  destruct (makedirs _ (fs w)) as [root|]; [|left; repeat split; reflexivity].
  cbn [fs with_fs now].
  destruct (write_file _ content root) as [root'|e]; [|left; repeat split; reflexivity].
  destruct (bool_decide (get_file_type (upload_name m) ∈ ["zip"; "archive"])).
  - match goal with
    | |- context [unpack_upload h s rowid m ?a ?b ?c ?w0] =>
        destruct (unpack_outcome rowid m a b c w0) as (Hp & Ho & Hn & Hm & Hr & Hs & Hf)
    end.
    cbn [processes os_procs os_next_pid monitors runs runs_seq files now with_fs]
      in Hp, Ho, Hn, Hm, Hr, Hs, Hf.
    destruct Hf as [Hf|(main_file & _ & Hf)].
    + left. unfold nothing_spawned. rewrite Hp, Ho, Hn, Hm, Hr, Hs, Hf.
      split_ands; reflexivity.
    + right. split; [lia|]. eexists _, _. split.
      * left. rewrite Hp, Ho, Hm, Hr. split_ands; try reflexivity. exact Hf.
      * intros H. contradiction H. rewrite Hp. reflexivity.
  - match goal with
    | |- context [register_upload h s rowid m ?a ?b ?c ?d ?e ?w0] =>
        destruct (register_outcome rowid m a b c d e w0) as [Hreg Hstart]
    end.
    right. split; [lia|]. eexists _, _. split.
    + exact Hreg.
    + intros H. destruct (Hstart H) as [Hk _]. split; [reflexivity|exact Hk].
Qed.

End UploadSteps.

(** X9. The quota of [document_handler]: a user at the ceiling gets a
    message and nothing else (no table, no file on disk changes); an upload
    adds one file to the uploader's count at most, never takes a user who is
    within the ceiling beyond it, and leaves everyone else's count alone. The
    row id is the one SQLite assigns, hence unused. *)
Theorem upload_respects_quota (h : host) (s : site) (rowid : Z) (m : upload) (w : world) :
  files w !! rowid = None ->
  let uid := from_user_id m in
  let w' := document_handler h s rowid m w in
  (MAX_FILES_PER_USER s <= file_count uid w ->
   agree_but_outbox w' w /\ exists text, outbox w' = (upload_chat_id m, MsgAnswer text) :: outbox w)
  /\ (file_count uid w <= MAX_FILES_PER_USER s -> file_count uid w' <= MAX_FILES_PER_USER s)
  /\ file_count uid w <= file_count uid w' <= file_count uid w + 1
  /\ (forall u, u <> uid -> file_count u w' = file_count u w).
Proof.
  intros Hnew. cbn zeta.
  assert (Hfree : forall u, ~ owns u w rowid).
  { intros u (r & Hr & _). rewrite Hnew in Hr. discriminate Hr. }
  assert (Hsame : forall u w1, files w1 = files w -> file_count u w1 = file_count u w).
  { intros u w1 Hf. apply file_count_same. intros id. unfold owns. rewrite Hf. reflexivity. }
  assert (Hreg : forall r0 w1, registered rowid r0 w w1 ->
                   exists r, files w1 = <[rowid := r]> (files w) /\ user_id r = user_id r0).
  { intros r0 w1 [(Hf & _)|(job & Hf & _)]; eexists; (split; [exact Hf|reflexivity]). }
  assert (Hcount : file_count (from_user_id m) (document_handler h s rowid m w)
                   = file_count (from_user_id m) w
                   \/ (file_count (from_user_id m) w < MAX_FILES_PER_USER s
                       /\ file_count (from_user_id m) (document_handler h s rowid m w)
                          = file_count (from_user_id m) w + 1)).
  { destruct (upload_outcome h s rowid m w) as [Hn|(Hroom & p & k & Hr & _)].
    - left. apply Hsame. apply Hn.
    - right. split; [exact Hroom|]. destruct (Hreg _ _ Hr) as (r & Hf & Hu). cbn in Hu.
      apply (file_count_added _ rowid); [apply Hfree|].
      intros id. rewrite (owns_insert _ rowid id r w _ Hf). split.
      + intros [[-> _]|[_ H]]; [left; reflexivity|right; exact H].
      + intros [->|H]; [left; split; [reflexivity|exact Hu]|].
        right. split; [|exact H]. intros ->. exact (Hfree _ H). }
  split_ands.
  - intros Hfull. unfold document_handler, reply_to. cbn zeta.
    fold (file_count (from_user_id m) w).
    destruct (decide (MAX_FILES_PER_USER s <= file_count (from_user_id m) w)); [|lia].
    split; [reflexivity|]. eexists. reflexivity.
  - intros Hin. destruct Hcount as [->|[Hroom ->]]; lia.
  - destruct Hcount as [->|[Hroom ->]]; lia.
  - destruct Hcount as [->|[Hroom ->]]; lia.
  - intros u Hu. destruct (upload_outcome h s rowid m w) as [Hn|(Hroom & p & k & Hr & _)].
    + apply Hsame. apply Hn.
    + destruct (Hreg _ _ Hr) as (r & Hf & Hr0). cbn in Hr0.
      apply file_count_same. intros id. rewrite (owns_insert _ rowid id r w _ Hf). split.
      * intros [[_ H]|[_ H]]; [congruence|exact H].
      * intros H. right. split; [|exact H]. intros ->. exact (Hfree _ H).
Qed.

(** Tenant 7 has one file and room for two more: the script sent becomes the
    second. *)
Lemma upload_respects_quota_witness :
  files Sample.fresh !! 2 = None
  /\ file_count 7 (document_handler Sample.machine Incoming.office 2 Incoming.hello_py
                                    Sample.fresh) <= 3
  /\ file_count 8 (document_handler Sample.machine Incoming.office 2 Incoming.hello_py
                                    Sample.fresh) = 0.
Proof.
  assert (Hnew : files Sample.fresh !! 2 = None) by (vm_compute; reflexivity).
  destruct (upload_respects_quota Sample.machine Incoming.office 2 Incoming.hello_py
                                  Sample.fresh Hnew) as (_ & Hin & _ & Hother).
  split_ands.
  - exact Hnew.
  - apply Hin. vm_compute. discriminate.
  - rewrite Hother; [vm_compute; reflexivity|discriminate].
Defined.

Example upload_sample :
  let w := document_handler Sample.machine Incoming.office 2 Incoming.hello_py Sample.fresh in
  file_count 7 w = 2
  /\ (file_type <$> files w !! 2) = Some "python"
  /\ (file_status <$> files w !! 2) = Some Running
  /\ (path <$> files w !! 2) = Some "/data/uploads/7/500_hello.py"
  /\ (process <$> processes w !! 2) = Some 1000
  /\ Fs.isfile "/data/uploads/7/500_hello.py" (fs w) = true.
Proof. cbv zeta. split_ands; vm_compute; reflexivity. Qed.

Example upload_at_ceiling :
  let s := Site "/data/uploads" "/data/temp" 1 (fun t => pretty t) in
  outbox (document_handler Sample.machine s 2 Incoming.hello_py Sample.fresh)
  = [(7, MsgAnswer "❌ You've reached the file limit (1). Delete some files to upload new ones.")].
Proof. vm_compute. reflexivity. Qed.

(** X10. An upload touches one Artifact only: the record and the job of
    every other id are as before. Under the new id, which had neither, the
    record it leaves (if any) belongs to the uploader, carries the name of the
    document and that name behind the clock reading as its file name, and is
    consistent with the job table: with a job it is Running under the pid of a
    process that exists, and the file was classified as a Python or JavaScript
    source; without a job it is Stopped with no pid. *)
Theorem upload_touches_one_artifact (h : host) (s : site) (rowid : Z) (m : upload) (w : world) :
  files w !! rowid = None -> processes w !! rowid = None ->
  let w' := document_handler h s rowid m w in
  (forall id, id <> rowid ->
     files w' !! id = files w !! id /\ processes w' !! id = processes w !! id)
  /\ (forall r, files w' !! rowid = Some r ->
        user_id r = from_user_id m /\ orig_name r = upload_name m
        /\ filename r = pretty (now w) +:+ "_" +:+ upload_name m
        /\ match processes w' !! rowid with
           | Some job =>
               file_status r = Running /\ pid r = Some (process job)
               /\ os_procs w' !! process job <> None
               /\ file_type r = get_file_type (upload_name m)
               /\ file_type r ∈ ["python"; "javascript"]
           | None => file_status r = Stopped /\ pid r = None
           end).
Proof.
  intros Hnew Hidle. cbn zeta.
  destruct (upload_outcome h s rowid m w) as [Hn|(_ & final_path & kind & Hr & Hk)].
  - destruct Hn as (_ & _ & _ & _ & _ & Hp & Hf). rewrite Hp, Hf. split.
    + intros id _. split; reflexivity.
    + intros r Hr. rewrite Hnew in Hr. discriminate Hr.
  - split.
    + intros id Hne. exact (registered_keeps_others rowid id _ w _ Hr Hne).
    + intros r Hlook. destruct Hr as [(Hf & Hp & _)|(job & Hf & Hp & Hpid & Hos)].
      * rewrite Hf, lookup_insert_eq in Hlook. injection Hlook as <-.
        rewrite Hp, Hidle. cbn. split_ands; reflexivity.
      * assert (Hchanged : processes (document_handler h s rowid m w) !! rowid
                           <> processes w !! rowid).
        { rewrite Hp, lookup_insert_eq, Hidle. discriminate. }
        destruct (Hk Hchanged) as [-> Hin].
        rewrite Hf, lookup_insert_eq in Hlook. injection Hlook as <-.
        rewrite Hp, lookup_insert_eq. cbn. split_ands; try reflexivity; assumption.
Qed.

Lemma upload_touches_one_artifact_witness :
  files Sample.fresh !! 2 = None /\ processes Sample.fresh !! 2 = None
  /\ files (document_handler Sample.machine Incoming.office 2 Incoming.hello_py Sample.fresh)
       !! 1 = Some Sample.bot_record.
Proof.
  assert (Hnew : files Sample.fresh !! 2 = None) by (vm_compute; reflexivity).
  assert (Hidle : processes Sample.fresh !! 2 = None) by (vm_compute; reflexivity).
  destruct (upload_touches_one_artifact Sample.machine Incoming.office 2 Incoming.hello_py
                                        Sample.fresh Hnew Hidle) as [Hothers _].
  split_ands; [exact Hnew|exact Hidle|].
  rewrite (proj1 (Hothers 1 ltac:(discriminate))). vm_compute. reflexivity.
Defined.

(** X11. An archive is never started by its upload, and the Artifact it
    becomes takes the kind of the entry point, not of the archive: when the
    document is classified "zip" or "archive", no process, monitor, Run or job
    is created; and either no record is added, or the one added is Stopped,
    points to the extraction directory, in which [find_main_file] finds the
    entry point on the disk as the handler leaves it, and has the kind of that
    entry point, which is "python" or "javascript". *)
Theorem archive_upload_takes_entry_kind (h : host) (s : site) (rowid : Z) (m : upload)
        (w : world) :
  get_file_type (upload_name m) ∈ ["zip"; "archive"] ->
  let w' := document_handler h s rowid m w in
  processes w' = processes w /\ os_procs w' = os_procs w /\ monitors w' = monitors w
  /\ runs w' = runs w
  /\ (files w' = files w
      \/ exists r main_file,
           files w' = <[rowid := r]> (files w)
           /\ user_id r = from_user_id m
           /\ file_status r = Stopped /\ pid r = None
           /\ find_main_file (path r) (fs w') = Some main_file
           /\ file_type r = get_file_type main_file
           /\ (file_type r = "python" \/ file_type r = "javascript")).
Proof.
  intros Hkind. cbn zeta. unfold document_handler, reply_to. cbn zeta. fold (upload_name m).
  destruct (decide (MAX_FILES_PER_USER s <= _));
    [split_ands; try reflexivity; left; reflexivity|].
  destruct (download m) as [content|e]; [|split_ands; try reflexivity; left; reflexivity].
  destruct (makedirs _ (fs w)) as [root|]; [|split_ands; try reflexivity; left; reflexivity].
  cbn [fs with_fs now].
  destruct (write_file _ content root) as [root'|e];
    [|split_ands; try reflexivity; left; reflexivity].
  rewrite (bool_decide_eq_true_2 _ Hkind).
  match goal with
  | |- context [unpack_upload h s rowid m ?a ?b ?c ?w0] =>
      destruct (unpack_outcome h s rowid m a b c w0) as (Hp & Ho & _ & Hm & Hr & _ & Hf)
  end.
  cbn [processes os_procs monitors runs files now with_fs] in Hp, Ho, Hm, Hr, Hf.
  split_ands; try assumption.
  destruct Hf as [Hf|(main_file & Hmain & Hf)]; [left; exact Hf|].
  right. eexists _, main_file. split; [exact Hf|]. cbn. split_ands; try reflexivity.
  - exact Hmain.
  - apply supported_kind. exact (find_main_file_supported _ _ _ Hmain).
Qed.

(** The archive [Bundle.ZIP] unpacks to [app.js]: the Artifact is a
    JavaScript one, and is not started. *)
Lemma archive_upload_takes_entry_kind_witness :
  get_file_type (upload_name Incoming.bundle_zip) ∈ ["zip"; "archive"]
  /\ processes (document_handler Incoming.unzipping Incoming.office 2 Incoming.bundle_zip
                                 Sample.fresh) = processes Sample.fresh
  /\ (file_type <$> files (document_handler Incoming.unzipping Incoming.office 2
                                            Incoming.bundle_zip Sample.fresh) !! 2)
     = Some "javascript".
Proof.
  assert (Hkind : get_file_type (upload_name Incoming.bundle_zip) ∈ ["zip"; "archive"])
    by (apply (bool_decide_unpack _); vm_compute; exact I).
  split_ands.
  - exact Hkind.
  - exact (proj1 (archive_upload_takes_entry_kind Incoming.unzipping Incoming.office 2
                                                  Incoming.bundle_zip Sample.fresh Hkind)).
  - vm_compute. reflexivity.
Defined.

Example archive_upload_sample :
  let w := document_handler Incoming.unzipping Incoming.office 2 Incoming.bundle_zip
                            Sample.fresh in
  (path <$> files w !! 2) = Some "/data/temp/extracted_7_500"
  /\ (file_status <$> files w !! 2) = Some Stopped
  /\ find_main_file "/data/temp/extracted_7_500" (fs w)
     = Some "/data/temp/extracted_7_500/app.js"
  /\ Fs.isfile "/data/uploads/7/500_Bundle.ZIP" (fs w) = true.
Proof. cbv zeta. split_ands; vm_compute; reflexivity. Qed.


(** ** The summary of the import installer *)

Section ImportInstall.

Context (h : host).

Lemma install_module_counts (missing : list string) (w : world) (t : tally) :
  (foldl (install_module h) (w, t) missing).2
  = Tally (success_count t + length (filter (fun m => module_ok h m = true) missing))
          (failed_count t + length (filter (fun m => module_ok h m = false) missing))
          (failed_packages t ++ filter (fun m => module_ok h m = false) missing).
Proof.
  revert w t. induction missing as [|module rest IH]; intros w t.
  - cbn. rewrite !Nat.add_0_r, app_nil_r. destruct t; reflexivity.
  - cbn [foldl]. rewrite !filter_cons.
    assert (Hok : module_ok h module
                  = match pip_install h (default module (pip_name_map !! module)) 120 with
                    | PipReturned rc => bool_decide (rc = 0)
                    | _ => false
                    end) by reflexivity.
    unfold install_module at 2.
    destruct (pip_install h (default module (pip_name_map !! module)) 120) as [rc| |e];
      [destruct (decide (rc = 0)) as [->|Hrc]|..]; rewrite IH;
      cbn [success_count failed_count failed_packages];
      try rewrite bool_decide_eq_true_2 in Hok by reflexivity;
      try rewrite bool_decide_eq_false_2 in Hok by assumption;
      rewrite Hok; repeat case_decide; try congruence;
      cbn [length]; rewrite <- ?app_assoc; cbn [app];
      f_equal; lia.
Qed.

Lemma no_failure_iff (missing : list string) :
  length (filter (fun m => module_ok h m = false) missing) = 0%nat
  <-> forall module, module ∈ missing -> module_ok h module = true.
Proof.
  induction missing as [|m rest IH].
  - split; [|reflexivity]. intros _ module Hin. apply elem_of_nil in Hin. contradiction.
  - rewrite filter_cons. destruct (module_ok h m) eqn:E.
    + rewrite decide_False by discriminate. rewrite IH. split.
      * intros H module Hin. apply elem_of_cons in Hin as [->|Hin]; [exact E|exact (H _ Hin)].
      * intros H module Hin. apply H. apply elem_of_cons. right. exact Hin.
    + rewrite decide_True by reflexivity. cbn [length]. split; [discriminate|].
      intros H. specialize (H m ltac:(apply elem_of_cons; left; reflexivity)). congruence.
Qed.

End ImportInstall.

(** X12. What [install_missing_imports] reports: with no import missing,
    success and "All imports available"; otherwise the number of missing
    imports whose pip run (under the distribution name of the alias table)
    returned 0, the number of the others, and every one of these by its
    import name, in the order in which the set yielded them, whatever that
    order is. The flag is true exactly when the pip run of every import that
    cannot be resolved returned 0; a timeout or an exception of a run counts
    as a failure and ends nothing. The modules tried are those of the set
    that cannot be imported, each once. *)
Theorem import_install_summary (h : host) (imports : gset string) (w : world) :
  let missing := filter (fun module => importable h module = false) (set_iteration h imports) in
  (install_missing_imports h imports w).2
  = match missing with
    | [] => (true, "All imports available")
    | _ => imports_summary h missing
    end
  /\ ((install_missing_imports h imports w).2.1 = true
      <-> forall module, module ∈ imports -> importable h module = false ->
                         module_ok h module = true)
  /\ (forall module, module ∈ missing <-> module ∈ imports /\ importable h module = false)
  /\ NoDup missing.
Proof.
  cbn zeta.
  assert (Hres : (install_missing_imports h imports w).2
                 = match filter (fun module => importable h module = false)
                                (set_iteration h imports) with
                   | [] => (true, "All imports available")
                   | _ => imports_summary h
                            (filter (fun module => importable h module = false)
                                    (set_iteration h imports))
                   end).
  { unfold install_missing_imports. cbn zeta.
    destruct (filter _ (set_iteration h imports)) as [|module rest]; [reflexivity|].
    pose proof (install_module_counts h (module :: rest) w (Tally 0 0 [])) as Hc.
    destruct (foldl (install_module h) (w, Tally 0 0 []) (module :: rest)) as [w' t].
    cbn [snd] in Hc. subst t.
    cbn [success_count failed_count failed_packages snd app Nat.add].
    reflexivity. }
  assert (Hin : forall module,
             module ∈ filter (fun module => importable h module = false)
                             (set_iteration h imports)
             <-> module ∈ imports /\ importable h module = false).
  { intros module. unfold set_iteration.
    rewrite list_elem_of_filter, merge_sort_Permutation, elem_of_elements. tauto. }
  assert (Hnd : NoDup (filter (fun module => importable h module = false)
                              (set_iteration h imports))).
  { apply NoDup_filter. unfold set_iteration. rewrite merge_sort_Permutation.
    apply NoDup_elements. }
  split; [exact Hres|]. split; [|split; [exact Hin|exact Hnd]]. rewrite Hres.
  destruct (filter _ (set_iteration h imports)) as [|m rest] eqn:E.
  - split; [|reflexivity]. intros _ module H1 H2.
    pose proof (proj2 (Hin module) (conj H1 H2)) as Hm.
    apply elem_of_nil in Hm. contradiction.
  - unfold imports_summary. cbn [fst]. rewrite bool_decide_eq_true, no_failure_iff. split.
    + intros H module H1 H2. apply H, Hin. split; assumption.
    + intros H module Hm. apply Hin in Hm as [H1 H2]. exact (H module H1 H2).
Qed.

(** [telebot] cannot be imported and pip fails for [pyTelegramBotAPI]: the
    failure is reported under the import name. With both failing, the two
    names come in the order of the iteration, which is the host's. *)
Example import_install_sample :
  let h := with_pip (fun package _ =>
                       if decide (package = "pyTelegramBotAPI") then PipTimeout
                       else PipReturned 0) Sample.bare_machine in
  (install_missing_imports h {[ "telebot"; "requests" ]} Sample.fresh).2
  = (false, "Installed 1 modules, failed 1: telebot")
  /\ (install_missing_imports Sample.machine {[ "telebot"; "requests" ]} Sample.fresh).2
     = (true, "All imports available").
Proof. cbv zeta. split; vm_compute; reflexivity. Qed.

Example import_install_order :
  let failing := with_pip (fun _ _ => PipReturned 1) Sample.bare_machine in
  let order (before : string -> string -> bool) :=
    Host (CPU_THRESHOLD failing) (MEMORY_THRESHOLD failing) (MAX_RUNNING_PROCESSES failing)
         (LOGS_DIR failing) (sys_executable failing) (psutil_sample failing)
         (pip_install failing) (importable failing) (popen_error failing)
         (program_term_delay failing) (terminate_raises failing) (extractall failing)
         (send_error failing) (fun _ => before) in
  (install_missing_imports (order (fun a _ => bool_decide (a = "flask")))
                           {[ "flask"; "requests" ]} Sample.fresh).2
  = (false, "Installed 0 modules, failed 2: flask, requests")
  /\ (install_missing_imports (order (fun a _ => bool_decide (a = "requests")))
                              {[ "flask"; "requests" ]} Sample.fresh).2
     = (false, "Installed 0 modules, failed 2: requests, flask").
Proof. cbv zeta. split; vm_compute; reflexivity. Qed.
